(** * Hardware flow-offload bookkeeping of [lib/netdev-rte-offloads.c]

    A shallow embedding of the registries, resource pools, the pattern
    compiler and the flow-put orchestrator, followed by the properties
    established about them.

    Conventions.
    - Unsigned C integers are [Z]; where the source wraps or truncates, the
      truncation is written out with [Z.land] or [mod].
    - Values of type [ovs_be16]/[ovs_be32]/[ovs_be64] are represented by the
      number they denote, so [htons]/[ntohs] are the identity here.
    - A [struct cmap] is a list of nodes.  [cmap_insert] puts the new node in
      front of the nodes of equal hash, and the [CMAP_FOR_EACH_WITH_HASH]
      loops of the source stop at the first node whose key matches, so a
      lookup is [find] and an insertion is a cons.
    - [xzalloc]/[xmalloc] abort the process instead of returning NULL, so the
      out-of-memory branches of the source are unreachable and allocation is
      total here.
    - A pointer that may be NULL is an [option]. *)

From Stdlib Require Import ZArith List Bool Lia.
Import ListNotations.
Open Scope Z_scope.
Set Warnings "-register-all".

(* ================================================================= *)
(** ** Generic helpers for list-backed maps and arrays *)

(** Remove the first node satisfying [p] ([cmap_remove] of the node that the
    preceding lookup found). *)
Fixpoint remove_first {A : Type} (p : A -> bool) (l : list A) : list A :=
  match l with
  | [] => []
  | x :: t => if p x then t else x :: remove_first p t
  end.

(** Mutate, through the pointer a lookup returned, the first node
    satisfying [p]. *)
Fixpoint update_first {A : Type} (p : A -> bool) (f : A -> A) (l : list A)
  : list A :=
  match l with
  | [] => []
  | x :: t => if p x then f x :: t else x :: update_first p f t
  end.

(** Array store [a[i] = v]; an index outside the array leaves it as it is
    (the C program has undefined behaviour there). *)
Fixpoint list_set {A : Type} (l : list A) (i : nat) (v : A) : list A :=
  match l, i with
  | [], _ => []
  | _ :: t, O => v :: t
  | x :: t, S j => x :: list_set t j v
  end.

(* ================================================================= *)
(** ** Basic types *)

Definition ovs_u128 : Type := (Z * Z)%type.

Definition ovs_u128_equals (a b : ovs_u128) : bool :=
  (fst a =? fst b) && (snd a =? snd b).

Definition odp_port_t : Type := Z.

(** [#define INVALID_ODP_PORT (-1)], compared against the 32-bit unsigned
    [odp_port_t]. *)
Definition INVALID_ODP_PORT : odp_port_t := 4294967295.

Definition RTE_FLOW_MAX_TABLES : Z := 31.

(** [enum table_ids]. *)
Definition UNKNOWN_TABLE_ID : Z := 0.
Definition ROOT_TABLE_ID : Z := 1.
Definition VXLAN_TABLE_ID : Z := 2.
Definition CONNTRACK_TABLE_ID : Z := 3.
Definition CONNTRACK_NAT_TABLE_ID : Z := 4.

(** Error numbers of [<errno.h>]. *)
Definition EINVAL : Z := 22.
Definition ENOMEM : Z := 12.
Definition ENODEV : Z := 19.
Definition EOPNOTSUPP : Z := 95.

Inductive rte_port_type : Type :=
| RTE_PORT_TYPE_UNKNOWN
| RTE_PORT_TYPE_DPDK
| RTE_PORT_TYPE_VXLAN.

Definition rte_port_type_eqb (a b : rte_port_type) : bool :=
  match a, b with
  | RTE_PORT_TYPE_UNKNOWN, RTE_PORT_TYPE_UNKNOWN => true
  | RTE_PORT_TYPE_DPDK, RTE_PORT_TYPE_DPDK => true
  | RTE_PORT_TYPE_VXLAN, RTE_PORT_TYPE_VXLAN => true
  | _, _ => false
  end.

(** A [struct netdev *] is an opaque identity. *)
Definition netdev : Type := Z.

(** A non-NULL [struct rte_flow *], the handle the driver returns. *)
Definition rte_flow : Type := Z.

(* ================================================================= *)
(** ** Hardware match items *)

Inductive rte_flow_item_type : Type :=
| RTE_FLOW_ITEM_TYPE_END
| RTE_FLOW_ITEM_TYPE_ETH
| RTE_FLOW_ITEM_TYPE_VLAN
| RTE_FLOW_ITEM_TYPE_IPV4
| RTE_FLOW_ITEM_TYPE_ICMP
| RTE_FLOW_ITEM_TYPE_UDP
| RTE_FLOW_ITEM_TYPE_TCP
| RTE_FLOW_ITEM_TYPE_SCTP
| RTE_FLOW_ITEM_TYPE_VXLAN.

Record rte_flow_item_eth : Type := mk_eth
  { eth_dst : Z; eth_src : Z; eth_type : Z }.

Record rte_flow_item_vlan : Type := mk_vlan
  { vlan_tci : Z; vlan_inner_type : Z }.

(** The fields of [struct ipv4_hdr] the translation writes; the others stay
    zero after the [memset]. *)
Record rte_flow_item_ipv4 : Type := mk_ipv4
  { type_of_service : Z;
    time_to_live : Z;
    next_proto_id : Z;
    src_addr : Z;
    dst_addr : Z }.

Record rte_flow_item_vxlan : Type := mk_vxlan
  { vxlan_flags : Z; vni0 : Z; vni1 : Z; vni2 : Z }.

Record rte_flow_item_tcp : Type := mk_tcp
  { tcp_src_port : Z; tcp_dst_port : Z; tcp_data_off : Z; tcp_flags_ : Z }.

Record rte_flow_item_udp : Type := mk_udp
  { udp_src_port : Z; udp_dst_port : Z }.

Record rte_flow_item_sctp : Type := mk_sctp
  { sctp_src_port : Z; sctp_dst_port : Z }.

Record rte_flow_item_icmp : Type := mk_icmp
  { icmp_type : Z; icmp_code : Z }.

(** The anonymous union of [struct flow_items]: zeroed by [memset], then at
    most one member is written. *)
Inductive flow_items_l4 : Type :=
| L4_zero
| L4_tcp (h : rte_flow_item_tcp)
| L4_udp (h : rte_flow_item_udp)
| L4_sctp (h : rte_flow_item_sctp)
| L4_icmp (h : rte_flow_item_icmp).

Record flow_items : Type := mk_flow_items
  { fi_eth : rte_flow_item_eth;
    fi_vlan : rte_flow_item_vlan;
    fi_ipv4 : rte_flow_item_ipv4;
    fi_vxlan : rte_flow_item_vxlan;
    fi_l4 : flow_items_l4 }.

(** [memset(spec, 0, sizeof *spec)]. *)
Definition flow_items_zero : flow_items :=
  mk_flow_items (mk_eth 0 0 0) (mk_vlan 0 0) (mk_ipv4 0 0 0 0 0)
                (mk_vxlan 0 0 0 0) L4_zero.

Definition set_fi_eth (s : flow_items) (v : rte_flow_item_eth) : flow_items :=
  mk_flow_items v (fi_vlan s) (fi_ipv4 s) (fi_vxlan s) (fi_l4 s).
Definition set_fi_vlan (s : flow_items) (v : rte_flow_item_vlan) : flow_items :=
  mk_flow_items (fi_eth s) v (fi_ipv4 s) (fi_vxlan s) (fi_l4 s).
Definition set_fi_ipv4 (s : flow_items) (v : rte_flow_item_ipv4) : flow_items :=
  mk_flow_items (fi_eth s) (fi_vlan s) v (fi_vxlan s) (fi_l4 s).
Definition set_fi_vxlan (s : flow_items) (v : rte_flow_item_vxlan) : flow_items :=
  mk_flow_items (fi_eth s) (fi_vlan s) (fi_ipv4 s) v (fi_l4 s).
Definition set_fi_l4 (s : flow_items) (v : flow_items_l4) : flow_items :=
  mk_flow_items (fi_eth s) (fi_vlan s) (fi_ipv4 s) (fi_vxlan s) v.

(** [mask->ipv4.hdr.next_proto_id = 0]. *)
Definition clear_next_proto_id (s : flow_items) : flow_items :=
  set_fi_ipv4 s (mk_ipv4 (type_of_service (fi_ipv4 s))
                         (time_to_live (fi_ipv4 s)) 0
                         (src_addr (fi_ipv4 s)) (dst_addr (fi_ipv4 s))).

(** A pattern item keeps POINTERS into the caller's [struct flow_items]
    pairs; what the driver reads is what those structures hold when
    [rte_flow_create] is called.  A pointer names the pair (the function that
    handles a tunnel port has an outer and an inner pair) and the member. *)
Inductive items_slot : Type := Slot_outer | Slot_inner.

Inductive items_member : Type :=
| Member_eth | Member_vlan | Member_ipv4 | Member_vxlan | Member_l4.

Definition item_ptr : Type := (items_slot * items_member)%type.

Record rte_flow_item : Type := mk_item
  { item_type : rte_flow_item_type;
    item_spec : option item_ptr;
    item_mask : option item_ptr }.

(** [struct flow_patterns]. *)
Record flow_patterns : Type := mk_patterns
  { pat_items : list rte_flow_item;
    pat_cnt : Z;
    pat_current_max : Z }.

(** [{ .items = NULL, .cnt = 0 }]. *)
Definition flow_patterns_init : flow_patterns := mk_patterns [] 0 0.

(** [cnt] and [current_max] are [int]s in the source.  They are computed
    here as integers; the two agree as long as no value leaves the range of
    [int], which is the case for up to 2^30 items.  Beyond that the doubling
    overflows, and the C program has no defined behaviour to embed. *)
Definition add_flow_pattern (patterns : flow_patterns)
  (type : rte_flow_item_type) (spec mask : option item_ptr) : flow_patterns :=
  let cnt := pat_cnt patterns in
  let current_max :=
    if cnt =? 0 then 8
    else if cnt =? pat_current_max patterns then pat_current_max patterns * 2
    else pat_current_max patterns in
  mk_patterns (pat_items patterns ++ [mk_item type spec mask])
              (cnt + 1) current_max.

Definition free_flow_patterns (patterns : flow_patterns) : flow_patterns :=
  mk_patterns [] 0 (pat_current_max patterns).

(** What a pointer of a pattern item designates. *)
Inductive item_value : Type :=
| V_eth (v : rte_flow_item_eth)
| V_vlan (v : rte_flow_item_vlan)
| V_ipv4 (v : rte_flow_item_ipv4)
| V_vxlan (v : rte_flow_item_vxlan)
| V_l4 (v : flow_items_l4).

(** The four structures a translation owns: outer and inner pair. *)
Record items_store : Type := mk_store
  { st_spec_outer : flow_items;
    st_mask_outer : flow_items;
    st_spec : flow_items;
    st_mask : flow_items }.

Definition member_value (s : flow_items) (m : items_member) : item_value :=
  match m with
  | Member_eth => V_eth (fi_eth s)
  | Member_vlan => V_vlan (fi_vlan s)
  | Member_ipv4 => V_ipv4 (fi_ipv4 s)
  | Member_vxlan => V_vxlan (fi_vxlan s)
  | Member_l4 => V_l4 (fi_l4 s)
  end.

Definition deref_spec (st : items_store) (p : item_ptr) : item_value :=
  match fst p with
  | Slot_outer => member_value (st_spec_outer st) (snd p)
  | Slot_inner => member_value (st_spec st) (snd p)
  end.

Definition deref_mask (st : items_store) (p : item_ptr) : item_value :=
  match fst p with
  | Slot_outer => member_value (st_mask_outer st) (snd p)
  | Slot_inner => member_value (st_mask st) (snd p)
  end.

(** A pattern item as the driver sees it. *)
Record item_view : Type := mk_item_view
  { view_type : rte_flow_item_type;
    view_spec : option item_value;
    view_mask : option item_value }.

Definition view_item (st : items_store) (i : rte_flow_item) : item_view :=
  mk_item_view (item_type i)
               (option_map (deref_spec st) (item_spec i))
               (option_map (deref_mask st) (item_mask i)).

Definition view_items (st : items_store) (p : flow_patterns) : list item_view :=
  map (view_item st) (pat_items p).

(* ================================================================= *)
(** ** The software match *)

(** [struct flow_tnl]: the members this file reads, and [tnl_rest] for the
    remaining bytes of the structure (they only take part in the all-zero
    test of the validation). *)
Record flow_tnl : Type := mk_flow_tnl
  { tnl_ip_dst : Z;
    tnl_ip_src : Z;
    tnl_tun_id : Z;
    tnl_flags : Z;
    tnl_ip_tos : Z;
    tnl_ip_ttl : Z;
    tnl_tp_src : Z;
    tnl_tp_dst : Z;
    tnl_rest : Z }.

Definition flow_tnl_zero : flow_tnl := mk_flow_tnl 0 0 0 0 0 0 0 0 0.

(** [struct flow]: the members this file reads.  Address, label and array
    members are the number their bytes spell, so [is_all_zeros] is a
    comparison with 0. *)
Record flow : Type := mk_flow
  { tunnel : flow_tnl;
    dl_dst : Z;
    dl_src : Z;
    dl_type : Z;
    vlans0_tci : Z;
    nw_src : Z;
    nw_dst : Z;
    nw_tos : Z;
    nw_ttl : Z;
    nw_proto : Z;
    nw_frag : Z;
    tp_src : Z;
    tp_dst : Z;
    tcp_flags : Z;
    in_port : Z;
    recirc_id : Z;
    metadata : Z;
    skb_priority : Z;
    pkt_mark : Z;
    dp_hash : Z;
    ct_state : Z;
    ct_nw_proto : Z;
    ct_zone : Z;
    ct_mark : Z;
    ct_label : Z;
    conj_id : Z;
    actset_output : Z;
    mpls_lse : Z;
    ipv6_label : Z;
    ct_nw_src : Z;
    ct_nw_dst : Z;
    ipv6_src : Z;
    ipv6_dst : Z;
    ct_ipv6_src : Z;
    ct_ipv6_dst : Z;
    nd_target : Z;
    nsh : Z;
    arp_sha : Z;
    arp_tha : Z;
    igmp_group_ip4 : Z;
    ct_tp_src : Z;
    ct_tp_dst : Z }.

Definition flow_zero : flow :=
  mk_flow flow_tnl_zero 0 0 0 0 0 0 0 0 0 0 0 0 0 0 0 0 0 0 0 0 0 0 0 0 0 0 0 0 0 0 0 0 0 0 0 0 0 0 0 0 0.

Definition set_tunnel (f : flow) (v : flow_tnl) : flow :=
  mk_flow v (dl_dst f) (dl_src f) (dl_type f) (vlans0_tci f) (nw_src f)
    (nw_dst f) (nw_tos f) (nw_ttl f) (nw_proto f) (nw_frag f) (tp_src f)
    (tp_dst f) (tcp_flags f) (in_port f) (recirc_id f) (metadata f)
    (skb_priority f) (pkt_mark f) (dp_hash f) (ct_state f) (ct_nw_proto f)
    (ct_zone f) (ct_mark f) (ct_label f) (conj_id f) (actset_output f)
    (mpls_lse f) (ipv6_label f) (ct_nw_src f) (ct_nw_dst f) (ipv6_src f)
    (ipv6_dst f) (ct_ipv6_src f) (ct_ipv6_dst f) (nd_target f) (nsh f)
    (arp_sha f) (arp_tha f) (igmp_group_ip4 f) (ct_tp_src f) (ct_tp_dst f).
Definition set_dl_dst (f : flow) (v : Z) : flow :=
  mk_flow (tunnel f) v (dl_src f) (dl_type f) (vlans0_tci f) (nw_src f)
    (nw_dst f) (nw_tos f) (nw_ttl f) (nw_proto f) (nw_frag f) (tp_src f)
    (tp_dst f) (tcp_flags f) (in_port f) (recirc_id f) (metadata f)
    (skb_priority f) (pkt_mark f) (dp_hash f) (ct_state f) (ct_nw_proto f)
    (ct_zone f) (ct_mark f) (ct_label f) (conj_id f) (actset_output f)
    (mpls_lse f) (ipv6_label f) (ct_nw_src f) (ct_nw_dst f) (ipv6_src f)
    (ipv6_dst f) (ct_ipv6_src f) (ct_ipv6_dst f) (nd_target f) (nsh f)
    (arp_sha f) (arp_tha f) (igmp_group_ip4 f) (ct_tp_src f) (ct_tp_dst f).
Definition set_dl_src (f : flow) (v : Z) : flow :=
  mk_flow (tunnel f) (dl_dst f) v (dl_type f) (vlans0_tci f) (nw_src f)
    (nw_dst f) (nw_tos f) (nw_ttl f) (nw_proto f) (nw_frag f) (tp_src f)
    (tp_dst f) (tcp_flags f) (in_port f) (recirc_id f) (metadata f)
    (skb_priority f) (pkt_mark f) (dp_hash f) (ct_state f) (ct_nw_proto f)
    (ct_zone f) (ct_mark f) (ct_label f) (conj_id f) (actset_output f)
    (mpls_lse f) (ipv6_label f) (ct_nw_src f) (ct_nw_dst f) (ipv6_src f)
    (ipv6_dst f) (ct_ipv6_src f) (ct_ipv6_dst f) (nd_target f) (nsh f)
    (arp_sha f) (arp_tha f) (igmp_group_ip4 f) (ct_tp_src f) (ct_tp_dst f).
Definition set_dl_type (f : flow) (v : Z) : flow :=
  mk_flow (tunnel f) (dl_dst f) (dl_src f) v (vlans0_tci f) (nw_src f)
    (nw_dst f) (nw_tos f) (nw_ttl f) (nw_proto f) (nw_frag f) (tp_src f)
    (tp_dst f) (tcp_flags f) (in_port f) (recirc_id f) (metadata f)
    (skb_priority f) (pkt_mark f) (dp_hash f) (ct_state f) (ct_nw_proto f)
    (ct_zone f) (ct_mark f) (ct_label f) (conj_id f) (actset_output f)
    (mpls_lse f) (ipv6_label f) (ct_nw_src f) (ct_nw_dst f) (ipv6_src f)
    (ipv6_dst f) (ct_ipv6_src f) (ct_ipv6_dst f) (nd_target f) (nsh f)
    (arp_sha f) (arp_tha f) (igmp_group_ip4 f) (ct_tp_src f) (ct_tp_dst f).
Definition set_vlans0_tci (f : flow) (v : Z) : flow :=
  mk_flow (tunnel f) (dl_dst f) (dl_src f) (dl_type f) v (nw_src f)
    (nw_dst f) (nw_tos f) (nw_ttl f) (nw_proto f) (nw_frag f) (tp_src f)
    (tp_dst f) (tcp_flags f) (in_port f) (recirc_id f) (metadata f)
    (skb_priority f) (pkt_mark f) (dp_hash f) (ct_state f) (ct_nw_proto f)
    (ct_zone f) (ct_mark f) (ct_label f) (conj_id f) (actset_output f)
    (mpls_lse f) (ipv6_label f) (ct_nw_src f) (ct_nw_dst f) (ipv6_src f)
    (ipv6_dst f) (ct_ipv6_src f) (ct_ipv6_dst f) (nd_target f) (nsh f)
    (arp_sha f) (arp_tha f) (igmp_group_ip4 f) (ct_tp_src f) (ct_tp_dst f).
Definition set_nw_src (f : flow) (v : Z) : flow :=
  mk_flow (tunnel f) (dl_dst f) (dl_src f) (dl_type f) (vlans0_tci f) v
    (nw_dst f) (nw_tos f) (nw_ttl f) (nw_proto f) (nw_frag f) (tp_src f)
    (tp_dst f) (tcp_flags f) (in_port f) (recirc_id f) (metadata f)
    (skb_priority f) (pkt_mark f) (dp_hash f) (ct_state f) (ct_nw_proto f)
    (ct_zone f) (ct_mark f) (ct_label f) (conj_id f) (actset_output f)
    (mpls_lse f) (ipv6_label f) (ct_nw_src f) (ct_nw_dst f) (ipv6_src f)
    (ipv6_dst f) (ct_ipv6_src f) (ct_ipv6_dst f) (nd_target f) (nsh f)
    (arp_sha f) (arp_tha f) (igmp_group_ip4 f) (ct_tp_src f) (ct_tp_dst f).
Definition set_nw_dst (f : flow) (v : Z) : flow :=
  mk_flow (tunnel f) (dl_dst f) (dl_src f) (dl_type f) (vlans0_tci f)
    (nw_src f) v (nw_tos f) (nw_ttl f) (nw_proto f) (nw_frag f) (tp_src f)
    (tp_dst f) (tcp_flags f) (in_port f) (recirc_id f) (metadata f)
    (skb_priority f) (pkt_mark f) (dp_hash f) (ct_state f) (ct_nw_proto f)
    (ct_zone f) (ct_mark f) (ct_label f) (conj_id f) (actset_output f)
    (mpls_lse f) (ipv6_label f) (ct_nw_src f) (ct_nw_dst f) (ipv6_src f)
    (ipv6_dst f) (ct_ipv6_src f) (ct_ipv6_dst f) (nd_target f) (nsh f)
    (arp_sha f) (arp_tha f) (igmp_group_ip4 f) (ct_tp_src f) (ct_tp_dst f).
Definition set_nw_proto (f : flow) (v : Z) : flow :=
  mk_flow (tunnel f) (dl_dst f) (dl_src f) (dl_type f) (vlans0_tci f)
    (nw_src f) (nw_dst f) (nw_tos f) (nw_ttl f) v (nw_frag f) (tp_src f)
    (tp_dst f) (tcp_flags f) (in_port f) (recirc_id f) (metadata f)
    (skb_priority f) (pkt_mark f) (dp_hash f) (ct_state f) (ct_nw_proto f)
    (ct_zone f) (ct_mark f) (ct_label f) (conj_id f) (actset_output f)
    (mpls_lse f) (ipv6_label f) (ct_nw_src f) (ct_nw_dst f) (ipv6_src f)
    (ipv6_dst f) (ct_ipv6_src f) (ct_ipv6_dst f) (nd_target f) (nsh f)
    (arp_sha f) (arp_tha f) (igmp_group_ip4 f) (ct_tp_src f) (ct_tp_dst f).
Definition set_tp_src (f : flow) (v : Z) : flow :=
  mk_flow (tunnel f) (dl_dst f) (dl_src f) (dl_type f) (vlans0_tci f)
    (nw_src f) (nw_dst f) (nw_tos f) (nw_ttl f) (nw_proto f) (nw_frag f) v
    (tp_dst f) (tcp_flags f) (in_port f) (recirc_id f) (metadata f)
    (skb_priority f) (pkt_mark f) (dp_hash f) (ct_state f) (ct_nw_proto f)
    (ct_zone f) (ct_mark f) (ct_label f) (conj_id f) (actset_output f)
    (mpls_lse f) (ipv6_label f) (ct_nw_src f) (ct_nw_dst f) (ipv6_src f)
    (ipv6_dst f) (ct_ipv6_src f) (ct_ipv6_dst f) (nd_target f) (nsh f)
    (arp_sha f) (arp_tha f) (igmp_group_ip4 f) (ct_tp_src f) (ct_tp_dst f).
Definition set_tp_dst (f : flow) (v : Z) : flow :=
  mk_flow (tunnel f) (dl_dst f) (dl_src f) (dl_type f) (vlans0_tci f)
    (nw_src f) (nw_dst f) (nw_tos f) (nw_ttl f) (nw_proto f) (nw_frag f)
    (tp_src f) v (tcp_flags f) (in_port f) (recirc_id f) (metadata f)
    (skb_priority f) (pkt_mark f) (dp_hash f) (ct_state f) (ct_nw_proto f)
    (ct_zone f) (ct_mark f) (ct_label f) (conj_id f) (actset_output f)
    (mpls_lse f) (ipv6_label f) (ct_nw_src f) (ct_nw_dst f) (ipv6_src f)
    (ipv6_dst f) (ct_ipv6_src f) (ct_ipv6_dst f) (nd_target f) (nsh f)
    (arp_sha f) (arp_tha f) (igmp_group_ip4 f) (ct_tp_src f) (ct_tp_dst f).
Definition set_in_port (f : flow) (v : Z) : flow :=
  mk_flow (tunnel f) (dl_dst f) (dl_src f) (dl_type f) (vlans0_tci f)
    (nw_src f) (nw_dst f) (nw_tos f) (nw_ttl f) (nw_proto f) (nw_frag f)
    (tp_src f) (tp_dst f) (tcp_flags f) v (recirc_id f) (metadata f)
    (skb_priority f) (pkt_mark f) (dp_hash f) (ct_state f) (ct_nw_proto f)
    (ct_zone f) (ct_mark f) (ct_label f) (conj_id f) (actset_output f)
    (mpls_lse f) (ipv6_label f) (ct_nw_src f) (ct_nw_dst f) (ipv6_src f)
    (ipv6_dst f) (ct_ipv6_src f) (ct_ipv6_dst f) (nd_target f) (nsh f)
    (arp_sha f) (arp_tha f) (igmp_group_ip4 f) (ct_tp_src f) (ct_tp_dst f).
Definition set_recirc_id (f : flow) (v : Z) : flow :=
  mk_flow (tunnel f) (dl_dst f) (dl_src f) (dl_type f) (vlans0_tci f)
    (nw_src f) (nw_dst f) (nw_tos f) (nw_ttl f) (nw_proto f) (nw_frag f)
    (tp_src f) (tp_dst f) (tcp_flags f) (in_port f) v (metadata f)
    (skb_priority f) (pkt_mark f) (dp_hash f) (ct_state f) (ct_nw_proto f)
    (ct_zone f) (ct_mark f) (ct_label f) (conj_id f) (actset_output f)
    (mpls_lse f) (ipv6_label f) (ct_nw_src f) (ct_nw_dst f) (ipv6_src f)
    (ipv6_dst f) (ct_ipv6_src f) (ct_ipv6_dst f) (nd_target f) (nsh f)
    (arp_sha f) (arp_tha f) (igmp_group_ip4 f) (ct_tp_src f) (ct_tp_dst f).
Definition set_pkt_mark (f : flow) (v : Z) : flow :=
  mk_flow (tunnel f) (dl_dst f) (dl_src f) (dl_type f) (vlans0_tci f)
    (nw_src f) (nw_dst f) (nw_tos f) (nw_ttl f) (nw_proto f) (nw_frag f)
    (tp_src f) (tp_dst f) (tcp_flags f) (in_port f) (recirc_id f)
    (metadata f) (skb_priority f) v (dp_hash f) (ct_state f) (ct_nw_proto
    f) (ct_zone f) (ct_mark f) (ct_label f) (conj_id f) (actset_output f)
    (mpls_lse f) (ipv6_label f) (ct_nw_src f) (ct_nw_dst f) (ipv6_src f)
    (ipv6_dst f) (ct_ipv6_src f) (ct_ipv6_dst f) (nd_target f) (nsh f)
    (arp_sha f) (arp_tha f) (igmp_group_ip4 f) (ct_tp_src f) (ct_tp_dst f).

(** [struct match]: the flow and the wildcard masks [wc.masks]. *)
Record match_ : Type := mk_match
  { m_flow : flow;
    m_masks : flow }.

(** Constants of [packets.h] and [<netinet/in.h>]. *)
Definition ETH_TYPE_IP : Z := 0x0800.
Definition VLAN_CFI : Z := 0x1000.
Definition OVS_BE16_MAX : Z := 0xffff.
Definition IPPROTO_ICMP : Z := 1.
Definition IPPROTO_TCP : Z := 6.
Definition IPPROTO_UDP : Z := 17.
Definition IPPROTO_SCTP : Z := 132.
Definition CS_ESTABLISHED : Z := 0x02.

Definition eth_addr_is_zero (a : Z) : bool := a =? 0.

(** C truth value of an integer. *)
Definition nonzero (z : Z) : bool := negb (z =? 0).

(** Conversion to [uint8_t]. *)
Definition to_uint8 (z : Z) : Z := Z.land z 0xff.

(** The layer-by-layer translation of the (inner) match.  [slot] is the
    identity of the [spec]/[mask] pair the caller passes; the result is the
    return value, the pattern list, and the contents of [*spec] and [*mask]
    when the function returns. *)
Definition add_flow_patterns (slot : items_slot) (patterns : flow_patterns)
  (m : match_) : Z * flow_patterns * flow_items * flow_items :=
  let fl := m_flow m in
  let wc := m_masks m in
  let spec := flow_items_zero in
  let mask := flow_items_zero in
  (* Eth *)
  let '(patterns, spec, mask) :=
    if negb (eth_addr_is_zero (dl_src wc)) || negb (eth_addr_is_zero (dl_dst wc))
    then
      (add_flow_pattern patterns RTE_FLOW_ITEM_TYPE_ETH
                        (Some (slot, Member_eth)) (Some (slot, Member_eth)),
       set_fi_eth spec (mk_eth (dl_dst fl) (dl_src fl) (dl_type fl)),
       set_fi_eth mask (mk_eth (dl_dst wc) (dl_src wc) (dl_type wc)))
    else
      (add_flow_pattern patterns RTE_FLOW_ITEM_TYPE_ETH None None, spec, mask) in
  (* VLAN *)
  let '(patterns, spec, mask) :=
    if nonzero (vlans0_tci wc) && nonzero (vlans0_tci fl)
    then
      (add_flow_pattern patterns RTE_FLOW_ITEM_TYPE_VLAN
                        (Some (slot, Member_vlan)) (Some (slot, Member_vlan)),
       set_fi_vlan spec
         (mk_vlan (Z.land (vlans0_tci fl) (Z.lxor 0xffff VLAN_CFI))
                  (vlan_inner_type (fi_vlan spec))),
       set_fi_vlan mask
         (mk_vlan (Z.land (vlans0_tci wc) (Z.lxor 0xffff VLAN_CFI)) 0))
    else (patterns, spec, mask) in
  (* IP v4 *)
  let '(patterns, spec, mask, proto) :=
    if dl_type fl =? ETH_TYPE_IP
    then
      let spec' := set_fi_ipv4 spec
                     (mk_ipv4 (nw_tos fl) (nw_ttl fl) (nw_proto fl)
                              (nw_src fl) (nw_dst fl)) in
      let mask' := set_fi_ipv4 mask
                     (mk_ipv4 (nw_tos wc) (nw_ttl wc) (nw_proto wc)
                              (nw_src wc) (nw_dst wc)) in
      (add_flow_pattern patterns RTE_FLOW_ITEM_TYPE_IPV4
                        (Some (slot, Member_ipv4)) (Some (slot, Member_ipv4)),
       spec', mask',
       to_uint8 (Z.land (next_proto_id (fi_ipv4 spec'))
                        (next_proto_id (fi_ipv4 mask'))))
    else (patterns, spec, mask, 0) in
  if negb (proto =? IPPROTO_ICMP) && negb (proto =? IPPROTO_UDP) &&
     negb (proto =? IPPROTO_SCTP) && negb (proto =? IPPROTO_TCP) &&
     (nonzero (tp_src wc) || nonzero (tp_dst wc) || nonzero (tcp_flags wc))
  then (-1, patterns, spec, mask)
  else if (nonzero (tp_src wc) && negb (tp_src wc =? OVS_BE16_MAX)) ||
          (nonzero (tp_dst wc) && negb (tp_dst wc =? OVS_BE16_MAX))
  then (-1, patterns, spec, mask)
  else if proto =? IPPROTO_TCP then
    (0,
     add_flow_pattern patterns RTE_FLOW_ITEM_TYPE_TCP
                      (Some (slot, Member_l4)) (Some (slot, Member_l4)),
     set_fi_l4 spec
       (L4_tcp (mk_tcp (tp_src fl) (tp_dst fl)
                       (to_uint8 (Z.shiftr (tcp_flags fl) 8))
                       (to_uint8 (Z.land (tcp_flags fl) 0xff)))),
     clear_next_proto_id
       (set_fi_l4 mask
          (L4_tcp (mk_tcp (tp_src wc) (tp_dst wc)
                          (to_uint8 (Z.shiftr (tcp_flags wc) 8))
                          (to_uint8 (Z.land (tcp_flags wc) 0xff))))))
  else if proto =? IPPROTO_UDP then
    (0,
     add_flow_pattern patterns RTE_FLOW_ITEM_TYPE_UDP
                      (Some (slot, Member_l4)) (Some (slot, Member_l4)),
     set_fi_l4 spec (L4_udp (mk_udp (tp_src fl) (tp_dst fl))),
     clear_next_proto_id
       (set_fi_l4 mask (L4_udp (mk_udp (tp_src wc) (tp_dst wc)))))
  else if proto =? IPPROTO_SCTP then
    (0,
     add_flow_pattern patterns RTE_FLOW_ITEM_TYPE_SCTP
                      (Some (slot, Member_l4)) (Some (slot, Member_l4)),
     set_fi_l4 spec (L4_sctp (mk_sctp (tp_src fl) (tp_dst fl))),
     clear_next_proto_id
       (set_fi_l4 mask (L4_sctp (mk_sctp (tp_src wc) (tp_dst wc)))))
  else if proto =? IPPROTO_ICMP then
    (0,
     add_flow_pattern patterns RTE_FLOW_ITEM_TYPE_ICMP
                      (Some (slot, Member_l4)) (Some (slot, Member_l4)),
     set_fi_l4 spec
       (L4_icmp (mk_icmp (to_uint8 (tp_src fl)) (to_uint8 (tp_dst fl)))),
     clear_next_proto_id
       (set_fi_l4 mask
          (L4_icmp (mk_icmp (to_uint8 (tp_src wc)) (to_uint8 (tp_dst wc))))))
  else (0, patterns, spec, mask).

(** The translation of the OUTER (tunnel) header of a match arriving on a
    VXLAN port.  The [vni] union reads bytes 1..3 of the 32-bit value
    [tun_id >> 32] as stored in memory; on a little-endian host, with the
    tunnel id kept as the number its network-order bytes spell, these are
    the three low-order bytes of the VNI, most significant first. *)
Definition add_vport_vxlan_flow_patterns (slot : items_slot)
  (patterns : flow_patterns) (m : match_)
  : Z * flow_patterns * flow_items * flow_items :=
  let fl := m_flow m in
  let wc := m_masks m in
  let spec := flow_items_zero in
  let mask := flow_items_zero in
  if dl_type fl =? ETH_TYPE_IP then
    let spec := set_fi_ipv4 spec
                  (mk_ipv4 (tnl_ip_tos (tunnel fl)) (tnl_ip_ttl (tunnel fl))
                           IPPROTO_UDP
                           (tnl_ip_src (tunnel fl)) (tnl_ip_dst (tunnel fl))) in
    let mask := set_fi_ipv4 mask
                  (mk_ipv4 (tnl_ip_tos (tunnel wc)) (tnl_ip_ttl (tunnel wc))
                           0xff
                           (tnl_ip_src (tunnel wc)) (tnl_ip_dst (tunnel wc))) in
    let patterns := add_flow_pattern patterns RTE_FLOW_ITEM_TYPE_IPV4
                      (Some (slot, Member_ipv4)) (Some (slot, Member_ipv4)) in
    let proto := to_uint8 (Z.land (next_proto_id (fi_ipv4 spec))
                                  (next_proto_id (fi_ipv4 mask))) in
    if proto =? IPPROTO_UDP then
      let spec := set_fi_l4 spec
                    (L4_udp (mk_udp (tnl_tp_src (tunnel fl))
                                    (tnl_tp_dst (tunnel fl)))) in
      let mask := set_fi_l4 mask (L4_udp (mk_udp (tp_src wc) (tp_dst wc))) in
      let patterns := add_flow_pattern patterns RTE_FLOW_ITEM_TYPE_UDP
                        (Some (slot, Member_l4)) (Some (slot, Member_l4)) in
      let vni := tnl_tun_id (tunnel fl) in
      let vni_m := tnl_tun_id (tunnel wc) in
      let spec := set_fi_vxlan spec
                    (mk_vxlan (to_uint8 (tnl_flags (tunnel fl)))
                              (to_uint8 (Z.shiftr vni 16))
                              (to_uint8 (Z.shiftr vni 8))
                              (to_uint8 vni)) in
      let mask := set_fi_vxlan mask
                    (mk_vxlan (vxlan_flags (fi_vxlan mask))
                              (to_uint8 (Z.shiftr vni_m 16))
                              (to_uint8 (Z.shiftr vni_m 8))
                              (to_uint8 vni_m)) in
      (0,
       add_flow_pattern patterns RTE_FLOW_ITEM_TYPE_VXLAN
                        (Some (slot, Member_vxlan)) (Some (slot, Member_vxlan)),
       spec, mask)
    else (-1, patterns, spec, mask)
  else (-1, patterns, spec, mask).

(** The pattern part of [netdev_rte_offloads_add_flow]: translate the match
    into fresh [spec]/[mask] structures, and on success append the END item.
    The result is the item array as [rte_flow_create] reads it, every pointer
    followed into the structures as they are at that time; [None] is the
    [goto out] of a failed translation. *)
Definition add_flow_compile_patterns (m : match_) : option (list item_view) :=
  let '(result, patterns, spec, mask) :=
    add_flow_patterns Slot_inner flow_patterns_init m in
  if nonzero result then None
  else
    let patterns :=
      add_flow_pattern patterns RTE_FLOW_ITEM_TYPE_END None None in
    Some (view_items (mk_store flow_items_zero flow_items_zero spec mask)
                     patterns).

(** The protocol the L4 step switches on: [spec & mask] of the IPv4
    next-protocol byte, and 0 when the ethertype is not IPv4. *)
Definition resolved_proto (m : match_) : Z :=
  if dl_type (m_flow m) =? ETH_TYPE_IP
  then to_uint8 (Z.land (nw_proto (m_flow m)) (nw_proto (m_masks m)))
  else 0.

(* ================================================================= *)
(** ** Hardware actions *)

Inductive rte_flow_action_type : Type :=
| RTE_FLOW_ACTION_TYPE_END
| RTE_FLOW_ACTION_TYPE_JUMP
| RTE_FLOW_ACTION_TYPE_MARK
| RTE_FLOW_ACTION_TYPE_RSS
| RTE_FLOW_ACTION_TYPE_COUNT
| RTE_FLOW_ACTION_TYPE_PORT_ID
| RTE_FLOW_ACTION_TYPE_VXLAN_DECAP
| RTE_FLOW_ACTION_TYPE_RAW_ENCAP.

Record rte_flow_action_jump : Type := mk_jump { jump_group : Z }.
Record rte_flow_action_count : Type := mk_count
  { count_shared : Z; count_id : Z }.
Record rte_flow_action_port_id : Type := mk_port_id
  { port_id_original : Z; port_id_id : Z }.
Record rte_flow_action_raw_encap : Type := mk_raw_encap
  { encap_data : list Z; encap_size : Z }.
Record rte_flow_action_mark : Type := mk_mark { mark_id : Z }.

(** [struct action_rss_data]: the members that are not constant. *)
Record action_rss_data : Type := mk_rss
  { rss_queue_num : Z; rss_queue : list Z }.

(** An action keeps a POINTER to its configuration, a local variable of the
    translating function; several actions may share one variable. *)
Inductive conf_ptr : Type :=
| Conf_jump
| Conf_count
| Conf_output
| Conf_clone_output
| Conf_clone_count
| Conf_clone_raw_encap
| Conf_mark
| Conf_rss.

Record rte_flow_action : Type := mk_action
  { act_type : rte_flow_action_type;
    act_conf : option conf_ptr }.

(** [struct flow_actions]. *)
Record flow_actions : Type := mk_actions
  { act_list : list rte_flow_action;
    act_cnt : Z;
    act_current_max : Z }.

Definition flow_actions_init : flow_actions := mk_actions [] 0 0.

(** As for the patterns: [cnt] and [current_max] are [int]s, and the
    integers computed here agree with them for up to 2^30 actions. *)
Definition add_flow_action (actions : flow_actions)
  (type : rte_flow_action_type) (conf : option conf_ptr) : flow_actions :=
  let cnt := act_cnt actions in
  let current_max :=
    if cnt =? 0 then 8
    else if cnt =? act_current_max actions then act_current_max actions * 2
    else act_current_max actions in
  mk_actions (act_list actions ++ [mk_action type conf]) (cnt + 1) current_max.

Definition free_flow_actions (actions : flow_actions) : flow_actions :=
  mk_actions [] 0 (act_current_max actions).

(** The configuration variables the actions of one translation point to. *)
Record action_confs : Type := mk_confs
  { cf_jump : rte_flow_action_jump;
    cf_count : rte_flow_action_count;
    cf_output : rte_flow_action_port_id;
    cf_clone_output : rte_flow_action_port_id;
    cf_clone_count : rte_flow_action_count;
    cf_clone_raw_encap : rte_flow_action_raw_encap;
    cf_mark : rte_flow_action_mark;
    cf_rss : action_rss_data }.

(** [= {0}] for every variable. *)
Definition action_confs_zero : action_confs :=
  mk_confs (mk_jump 0) (mk_count 0 0) (mk_port_id 0 0) (mk_port_id 0 0)
           (mk_count 0 0) (mk_raw_encap [] 0) (mk_mark 0) (mk_rss 0 []).

Definition set_cf_jump (c : action_confs) (v : rte_flow_action_jump) :=
  mk_confs v (cf_count c) (cf_output c) (cf_clone_output c) (cf_clone_count c)
           (cf_clone_raw_encap c) (cf_mark c) (cf_rss c).
Definition set_cf_count (c : action_confs) (v : rte_flow_action_count) :=
  mk_confs (cf_jump c) v (cf_output c) (cf_clone_output c) (cf_clone_count c)
           (cf_clone_raw_encap c) (cf_mark c) (cf_rss c).
Definition set_cf_output (c : action_confs) (v : rte_flow_action_port_id) :=
  mk_confs (cf_jump c) (cf_count c) v (cf_clone_output c) (cf_clone_count c)
           (cf_clone_raw_encap c) (cf_mark c) (cf_rss c).
Definition set_cf_clone_output (c : action_confs) (v : rte_flow_action_port_id) :=
  mk_confs (cf_jump c) (cf_count c) (cf_output c) v (cf_clone_count c)
           (cf_clone_raw_encap c) (cf_mark c) (cf_rss c).
Definition set_cf_clone_count (c : action_confs) (v : rte_flow_action_count) :=
  mk_confs (cf_jump c) (cf_count c) (cf_output c) (cf_clone_output c) v
           (cf_clone_raw_encap c) (cf_mark c) (cf_rss c).
Definition set_cf_clone_raw_encap (c : action_confs)
  (v : rte_flow_action_raw_encap) :=
  mk_confs (cf_jump c) (cf_count c) (cf_output c) (cf_clone_output c)
           (cf_clone_count c) v (cf_mark c) (cf_rss c).
Definition set_cf_mark (c : action_confs) (v : rte_flow_action_mark) :=
  mk_confs (cf_jump c) (cf_count c) (cf_output c) (cf_clone_output c)
           (cf_clone_count c) (cf_clone_raw_encap c) v (cf_rss c).
Definition set_cf_rss (c : action_confs) (v : action_rss_data) :=
  mk_confs (cf_jump c) (cf_count c) (cf_output c) (cf_clone_output c)
           (cf_clone_count c) (cf_clone_raw_encap c) (cf_mark c) v.

(** What the [conf] pointer of an action designates. *)
Inductive conf_value : Type :=
| CV_jump (v : rte_flow_action_jump)
| CV_count (v : rte_flow_action_count)
| CV_port_id (v : rte_flow_action_port_id)
| CV_raw_encap (v : rte_flow_action_raw_encap)
| CV_mark (v : rte_flow_action_mark)
| CV_rss (v : action_rss_data).

Definition deref_conf (c : action_confs) (p : conf_ptr) : conf_value :=
  match p with
  | Conf_jump => CV_jump (cf_jump c)
  | Conf_count => CV_count (cf_count c)
  | Conf_output => CV_port_id (cf_output c)
  | Conf_clone_output => CV_port_id (cf_clone_output c)
  | Conf_clone_count => CV_count (cf_clone_count c)
  | Conf_clone_raw_encap => CV_raw_encap (cf_clone_raw_encap c)
  | Conf_mark => CV_mark (cf_mark c)
  | Conf_rss => CV_rss (cf_rss c)
  end.

(** An action as the driver sees it. *)
Record action_view : Type := mk_action_view
  { view_act_type : rte_flow_action_type;
    view_act_conf : option conf_value }.

Definition view_action (c : action_confs) (a : rte_flow_action) : action_view :=
  mk_action_view (act_type a) (option_map (deref_conf c) (act_conf a)).

Definition view_actions (c : action_confs) (a : flow_actions)
  : list action_view :=
  map (view_action c) (act_list a).

(** Conversion to [uint16_t] and to [int]. *)
Definition to_uint16 (z : Z) : Z := z mod 65536.
Definition to_int32 (z : Z) : Z :=
  let r := z mod 4294967296 in
  if r <? 2147483648 then r else r - 4294967296.

(** [rss_data->queue[i] = i] for [i < num_queues]. *)
Definition rss_queues (num_queues : Z) : list Z :=
  map Z.of_nat (seq 0 (Z.to_nat num_queues)).

Definition add_flow_rss_action (actions : flow_actions) (c : action_confs)
  (num_queues : Z) : flow_actions * action_confs :=
  (add_flow_action actions RTE_FLOW_ACTION_TYPE_RSS (Some Conf_rss),
   set_cf_rss c (mk_rss num_queues (rss_queues num_queues))).

Definition netdev_rte_add_jump_flow_action2 (table_id : Z)
  (actions : flow_actions) (c : action_confs) : flow_actions * action_confs :=
  (add_flow_action actions RTE_FLOW_ACTION_TYPE_JUMP (Some Conf_jump),
   set_cf_jump c (mk_jump table_id)).

(** [count] is the configuration variable the caller passes. *)
Definition netdev_rte_add_count_flow_action (count : conf_ptr)
  (actions : flow_actions) (c : action_confs) : flow_actions * action_confs :=
  (add_flow_action actions RTE_FLOW_ACTION_TYPE_COUNT (Some count),
   match count with
   | Conf_clone_count => set_cf_clone_count c (mk_count 0 0)
   | _ => set_cf_count c (mk_count 0 0)
   end).

Definition netdev_rte_add_port_id_flow_action (port_id : conf_ptr)
  (actions : flow_actions) : flow_actions :=
  add_flow_action actions RTE_FLOW_ACTION_TYPE_PORT_ID (Some port_id).

Definition netdev_rte_add_decap_flow_action (actions : flow_actions)
  : flow_actions :=
  add_flow_action actions RTE_FLOW_ACTION_TYPE_VXLAN_DECAP None.

(* ================================================================= *)
(** ** The hardware-offload driver *)

Record rte_flow_attr : Type := mk_attr
  { attr_group : Z;
    attr_priority : Z;
    attr_ingress : Z;
    attr_egress : Z;
    attr_transfer : Z }.

Definition set_attr_group (a : rte_flow_attr) (v : Z) : rte_flow_attr :=
  mk_attr v (attr_priority a) (attr_ingress a) (attr_egress a) (attr_transfer a).
Definition set_attr_transfer (a : rte_flow_attr) (v : Z) : rte_flow_attr :=
  mk_attr (attr_group a) (attr_priority a) (attr_ingress a) (attr_egress a) v.

(** The calls the driver received. *)
Inductive hw_event : Type :=
| Ev_create (nd : netdev) (attr : rte_flow_attr) (items : list item_view)
            (actions : list action_view) (res : option rte_flow)
| Ev_destroy (nd : netdev) (fl : rte_flow) (ret : Z).

(** Modelled from the spec: the hardware-offload driver ([lib/netdev-dpdk.c])
    is an external collaborator exposing flow_create (a handle or an error),
    flow_destroy (a status), is_uplink_port and rx_queue_count.  It is a
    parameter of the orchestrator: whether a creation succeeds and what a
    destruction returns are arbitrary functions of the call and of the calls
    made before it. *)
Record driver : Type := mk_driver
  { drv_create : list hw_event -> netdev -> rte_flow_attr -> list item_view ->
                 list action_view -> bool;
    drv_destroy : list hw_event -> netdev -> rte_flow -> Z;
    drv_is_uplink_port : netdev -> bool;
    drv_n_rxq : netdev -> Z }.

(* ================================================================= *)
(** ** Registries *)

Record rte_flow_params : Type := mk_params
  { rfp_flow : option rte_flow;
    rfp_netdev : netdev }.

(** [struct ufid_hw_offload]; [rte_flow_data] is the trailing array of
    [max_flows] zeroed entries. *)
Record ufid_hw_offload : Type := mk_hw_offload
  { hw_ufid : ovs_u128;
    max_flows : Z;
    curr_idx : Z;
    rte_flow_data : list rte_flow_params }.

Record netdev_rte_port : Type := mk_rte_port
  { rp_dp_port : odp_port_t;
    rp_dpdk_port_id : Z;
    rp_netdev : netdev;
    rp_rte_port_type : rte_port_type;
    rp_table_id : Z;
    rp_dpdk_num_queues : Z;
    rp_exception_mark : Z;
    rp_ufid_to_rte : list ufid_hw_offload;
    rp_default_rte_flow : list (option rte_flow) }.

Definition set_rp_ufid_to_rte (p : netdev_rte_port)
  (v : list ufid_hw_offload) : netdev_rte_port :=
  mk_rte_port (rp_dp_port p) (rp_dpdk_port_id p) (rp_netdev p)
              (rp_rte_port_type p) (rp_table_id p) (rp_dpdk_num_queues p)
              (rp_exception_mark p) v (rp_default_rte_flow p).

Definition set_rp_default_rte_flow (p : netdev_rte_port)
  (v : list (option rte_flow)) : netdev_rte_port :=
  mk_rte_port (rp_dp_port p) (rp_dpdk_port_id p) (rp_netdev p)
              (rp_rte_port_type p) (rp_table_id p) (rp_dpdk_num_queues p)
              (rp_exception_mark p) (rp_ufid_to_rte p) v.

Record ufid_to_odp : Type := mk_ufid_to_odp
  { uo_ufid : ovs_u128;
    uo_dp_port : odp_port_t }.

(** The file-scope state of the orchestrator together with the state of the
    driver: the next handle it will hand out and the calls it received,
    oldest first. *)
Record world : Type := mk_world
  { port_map : list netdev_rte_port;
    dpdk_phy_ports_amount : Z;
    ufid_to_portid_map : list ufid_to_odp;
    hw_next_flow : rte_flow;
    hw_log : list hw_event }.

Definition set_port_map (w : world) (v : list netdev_rte_port) : world :=
  mk_world v (dpdk_phy_ports_amount w) (ufid_to_portid_map w)
           (hw_next_flow w) (hw_log w).
Definition set_ufid_to_portid_map (w : world) (v : list ufid_to_odp) : world :=
  mk_world (port_map w) (dpdk_phy_ports_amount w) v (hw_next_flow w) (hw_log w).

(** Stateful code is a function from the state to a result and a state. *)
Definition M (A : Type) : Type := world -> A * world.

Definition ret {A : Type} (a : A) : M A := fun w => (a, w).
Definition bind {A B : Type} (m : M A) (k : A -> M B) : M B :=
  fun w => let (a, w') := m w in k a w'.
Definition get_world : M world := fun w => (w, w).
Definition modify (f : world -> world) : M unit := fun w => (tt, f w).

Declare Scope offload_scope.
Delimit Scope offload_scope with offload.
Notation "x <- c1 ;; c2" := (bind c1 (fun x => c2))
  (at level 100, c1 at next level, right associativity) : offload_scope.
Notation "' pat <- c1 ;; c2" := (bind c1 (fun x => match x with pat => c2 end))
  (at level 100, pat pattern, c1 at next level, right associativity)
  : offload_scope.
Notation "c1 ;;; c2" := (bind c1 (fun _ => c2))
  (at level 100, right associativity) : offload_scope.
Open Scope offload_scope.

(* ================================================================= *)
(** ** The software action list *)

(** The attributes nested in a conntrack action.  [OVS_CT_ATTR_UNSPEC] and
    [__OVS_CT_ATTR_MAX] make the source abort ([OVS_NOT_REACHED]) and are
    no values of this type. *)
Inductive ovs_ct_attr : Type :=
| OVS_CT_ATTR_COMMIT
| OVS_CT_ATTR_ZONE (zone : Z)
| OVS_CT_ATTR_MARK
| OVS_CT_ATTR_LABELS
| OVS_CT_ATTR_HELPER
| OVS_CT_ATTR_NAT
| OVS_CT_ATTR_FORCE_COMMIT
| OVS_CT_ATTR_EVENTMASK.

(** A netlink attribute of an action list: its type with its payload.  The
    types this file does not look into are [OVS_ACTION_ATTR_OTHER]. *)
Inductive nlattr : Type :=
| OVS_ACTION_ATTR_OUTPUT (port : odp_port_t)
| OVS_ACTION_ATTR_RECIRC (id : Z)
| OVS_ACTION_ATTR_CT (attrs : list ovs_ct_attr)
| OVS_ACTION_ATTR_CLONE (attrs : list nlattr)
| OVS_ACTION_ATTR_TUNNEL_PUSH (header : list Z) (header_len : Z)
| OVS_ACTION_ATTR_TUNNEL_POP (port : odp_port_t)
| OVS_ACTION_ATTR_OTHER (type : Z).

(** [nl_actions] with [actions_len]: [None] is the NULL pointer, and the
    length is zero exactly when there is no attribute. *)
Definition nl_actions_t : Type := option (list nlattr).

Definition nl_attrs (a : nl_actions_t) : list nlattr :=
  match a with
  | None => []
  | Some l => l
  end.

(** [!actions_len || !nl_actions]. *)
Definition no_actions (a : nl_actions_t) : bool :=
  match a with
  | None => true
  | Some [] => true
  | Some (_ :: _) => false
  end.

(** Values of [enum ovs_action_attr] ([openvswitch.h]) used as bit numbers. *)
Definition ATTR_OUTPUT : Z := 1.
Definition ATTR_RECIRC : Z := 7.
Definition ATTR_CT : Z := 12.
Definition ATTR_CLONE : Z := 20.
Definition ATTR_TUNNEL_PUSH : Z := 22.
Definition ATTR_TUNNEL_POP : Z := 23.

(** [#define ACTBIT(attr) (1 << attr)]. *)
Definition ACTBIT (attr : Z) : Z := Z.shiftl 1 attr.

Definition has_bit (bitmap attr : Z) : bool :=
  nonzero (Z.land bitmap (ACTBIT attr)).

(** [struct offload_info]: the members this file uses. *)
Record offload_info : Type := mk_info
  { flow_mark : Z;
    is_hwol : bool }.

Definition set_is_hwol (i : offload_info) (v : bool) : offload_info :=
  mk_info (flow_mark i) v.

(* ================================================================= *)
(** ** Flow validation *)

Definition flow_tnl_and (a b : flow_tnl) : flow_tnl :=
  mk_flow_tnl (Z.land (tnl_ip_dst a) (tnl_ip_dst b))
              (Z.land (tnl_ip_src a) (tnl_ip_src b))
              (Z.land (tnl_tun_id a) (tnl_tun_id b))
              (Z.land (tnl_flags a) (tnl_flags b))
              (Z.land (tnl_ip_tos a) (tnl_ip_tos b))
              (Z.land (tnl_ip_ttl a) (tnl_ip_ttl b))
              (Z.land (tnl_tp_src a) (tnl_tp_src b))
              (Z.land (tnl_tp_dst a) (tnl_tp_dst b))
              (Z.land (tnl_rest a) (tnl_rest b)).

Definition flow_tnl_is_all_zeros (t : flow_tnl) : bool :=
  (tnl_ip_dst t =? 0) && (tnl_ip_src t =? 0) && (tnl_tun_id t =? 0) &&
  (tnl_flags t =? 0) && (tnl_ip_tos t =? 0) && (tnl_ip_ttl t =? 0) &&
  (tnl_tp_src t =? 0) && (tnl_tp_dst t =? 0) && (tnl_rest t =? 0).

(** Check if any unsupported flow patterns are specified.  [match_init]
    ([lib/match.c], not among the files at hand) does what the source says of
    it, "create a wc-zeroed version of flow": it copies the flow and clears
    the wildcarded bits; only the tunnel and [nw_frag] of that copy are
    read. *)
Definition netdev_rte_offloads_validate_flow (m : match_) (is_tun : bool) : Z :=
  let masks := m_masks m in
  let zero_wc_tunnel := flow_tnl_and (tunnel (m_flow m)) (tunnel masks) in
  let zero_wc_nw_frag := Z.land (nw_frag (m_flow m)) (nw_frag masks) in
  if negb is_tun && negb (flow_tnl_is_all_zeros zero_wc_tunnel) then -1
  else if nonzero (metadata masks) || nonzero (skb_priority masks) ||
          nonzero (pkt_mark masks) || nonzero (dp_hash masks) then -1
  else if (nonzero (ct_state masks) &&
           negb (nonzero (Z.land (ct_state masks) CS_ESTABLISHED))) ||
          nonzero (ct_nw_proto masks) || nonzero (ct_zone masks) ||
          nonzero (ct_mark masks) || nonzero (ct_label masks) then -1
  else if nonzero (conj_id masks) || nonzero (actset_output masks) then -1
  else if nonzero (mpls_lse masks) then -1
  else if nonzero (ipv6_label masks) || nonzero (ct_nw_src masks) ||
          nonzero (ct_nw_dst masks) || nonzero (ipv6_src masks) ||
          nonzero (ipv6_dst masks) || nonzero (ct_ipv6_src masks) ||
          nonzero (ct_ipv6_dst masks) || nonzero (nd_target masks) ||
          nonzero (nsh masks) || nonzero (arp_sha masks) ||
          nonzero (arp_tha masks) then -1
  else if nonzero zero_wc_nw_frag then -1
  else if nonzero (igmp_group_ip4 masks) || nonzero (ct_tp_src masks) ||
          nonzero (ct_tp_dst masks) then -1
  else 0.

(* ================================================================= *)
(** ** Port registry and flow identity registry *)

(** Search for offloaded port data by dp_port no. *)
Definition netdev_rte_port_search (dp_port : odp_port_t)
  (map : list netdev_rte_port) : option netdev_rte_port :=
  find (fun data => dp_port =? rp_dp_port data) map.

Definition null_params : rte_flow_params := mk_params None 0.

Definition netdev_rte_port_ufid_hw_offload_alloc (max_flows : Z)
  (ufid : ovs_u128) : ufid_hw_offload :=
  mk_hw_offload ufid max_flows 0 (repeat null_params (Z.to_nat max_flows)).

Definition ufid_hw_offload_find (ufid : ovs_u128)
  (map : list ufid_hw_offload) : option ufid_hw_offload :=
  find (fun data => ovs_u128_equals ufid (hw_ufid data)) map.

(** Returns the node found and the map without it. *)
Definition ufid_hw_offload_remove (ufid : ovs_u128)
  (map : list ufid_hw_offload)
  : option ufid_hw_offload * list ufid_hw_offload :=
  match ufid_hw_offload_find ufid map with
  | Some data =>
      (Some data,
       remove_first (fun d => ovs_u128_equals ufid (hw_ufid d)) map)
  | None => (None, map)
  end.

Definition ufid_hw_offload_add (hw_offload : ufid_hw_offload)
  (map : list ufid_hw_offload) : list ufid_hw_offload :=
  hw_offload :: map.

(** The flow handles a record holds: entries below [curr_idx] whose handle
    is not NULL, with the netdev stored beside each. *)
Definition recorded_flows (hw_offload : ufid_hw_offload)
  : list (netdev * rte_flow) :=
  flat_map (fun i =>
              let d := nth i (rte_flow_data hw_offload) null_params in
              match rfp_flow d with
              | Some fl => [(rfp_netdev d, fl)]
              | None => []
              end)
           (seq 0 (Z.to_nat (curr_idx hw_offload))).

(** The map a [struct ufid_to_odp] node lives in. *)
Definition ufid_to_portid_get (ufid : ovs_u128) (map : list ufid_to_odp)
  : option ufid_to_odp :=
  find (fun data => ovs_u128_equals ufid (uo_ufid data)) map.

Definition ufid_to_portid_search (ufid : ovs_u128) (map : list ufid_to_odp)
  : odp_port_t :=
  match ufid_to_portid_get ufid map with
  | Some data => uo_dp_port data
  | None => INVALID_ODP_PORT
  end.

(** Save the ufid->dp_port mapping.  Return the port if saved successfully. *)
Definition ufid_to_portid_add (ufid : ovs_u128) (dp_port : odp_port_t)
  : M odp_port_t :=
  fun w =>
    if negb (ufid_to_portid_search ufid (ufid_to_portid_map w)
             =? INVALID_ODP_PORT)
    then (dp_port, w)
    else (dp_port,
          set_ufid_to_portid_map w
            (mk_ufid_to_odp ufid dp_port :: ufid_to_portid_map w)).

(** Remove the mapping if exists. *)
Definition ufid_to_portid_remove (ufid : ovs_u128) : M unit :=
  fun w =>
    match ufid_to_portid_get ufid (ufid_to_portid_map w) with
    | Some _ =>
        (tt, set_ufid_to_portid_map w
               (remove_first (fun d => ovs_u128_equals ufid (uo_ufid d))
                             (ufid_to_portid_map w)))
    | None => (tt, w)
    end.

(** Mutation of the port node a search by [dp_port] returned. *)
Definition port_modify (dp_port : odp_port_t)
  (f : netdev_rte_port -> netdev_rte_port) : M unit :=
  modify (fun w =>
            set_port_map w
              (update_first (fun d => dp_port =? rp_dp_port d) f (port_map w))).

(** Mutation of the identity record a lookup by [ufid] in the map of the
    port [dp_port] returned. *)
Definition hw_offload_modify (dp_port : odp_port_t) (ufid : ovs_u128)
  (f : ufid_hw_offload -> ufid_hw_offload) : M unit :=
  port_modify dp_port
    (fun p =>
       set_rp_ufid_to_rte p
         (update_first (fun d => ovs_u128_equals ufid (hw_ufid d)) f
                       (rp_ufid_to_rte p))).

(* ================================================================= *)
(** ** The orchestrator, over an arbitrary driver *)

Section Orchestrator.

Variable drv : driver.

Definition log_event (e : hw_event) (next : rte_flow) : M unit :=
  modify (fun w =>
            mk_world (port_map w) (dpdk_phy_ports_amount w)
                     (ufid_to_portid_map w) next (hw_log w ++ [e])).

(** Modelled from the spec: [netdev_dpdk_rte_flow_create] is the driver's
    flow_create.  The driver either refuses (NULL) or hands out a handle it
    never handed out before; the call is logged with its result. *)
Definition netdev_dpdk_rte_flow_create (nd : netdev) (attr : rte_flow_attr)
  (items : list item_view) (actions : list action_view)
  : M (option rte_flow) :=
  w <- get_world ;;
  if drv_create drv (hw_log w) nd attr items actions
  then log_event (Ev_create nd attr items actions (Some (hw_next_flow w)))
                 (hw_next_flow w + 1) ;;;
       ret (Some (hw_next_flow w))
  else log_event (Ev_create nd attr items actions None) (hw_next_flow w) ;;;
       ret None.

(** Modelled from the spec: [netdev_dpdk_rte_flow_destroy] is the driver's
    flow_destroy; the call is logged with the status it returns. *)
Definition netdev_dpdk_rte_flow_destroy (nd : netdev) (fl : rte_flow) : M Z :=
  w <- get_world ;;
  let r := drv_destroy drv (hw_log w) nd fl in
  log_event (Ev_destroy nd fl r) (hw_next_flow w) ;;;
  ret r.

(** Record a handle in an identity record, or destroy it when the record is
    full.  The result is the record as the call leaves it. *)
Definition ufid_hw_offload_add_rte_flow (hw_offload : ufid_hw_offload)
  (rte_flow_ : rte_flow) (nd : netdev) : M ufid_hw_offload :=
  if curr_idx hw_offload <? max_flows hw_offload
  then ret (mk_hw_offload (hw_ufid hw_offload) (max_flows hw_offload)
                          (curr_idx hw_offload + 1)
                          (list_set (rte_flow_data hw_offload)
                                    (Z.to_nat (curr_idx hw_offload))
                                    (mk_params (Some rte_flow_) nd)))
  else netdev_dpdk_rte_flow_destroy nd rte_flow_ ;;;
       ret hw_offload.

(** The same through the pointer the orchestrator holds: the record of
    [ufid] in the map of port [dp_port]. *)
Definition ufid_hw_offload_add_rte_flow_at (dp_port : odp_port_t)
  (ufid : ovs_u128) (rte_flow_ : rte_flow) (nd : netdev) : M unit :=
  w <- get_world ;;
  match netdev_rte_port_search dp_port (port_map w) with
  | None => ret tt
  | Some p =>
      match ufid_hw_offload_find ufid (rp_ufid_to_rte p) with
      | None => ret tt
      | Some hw_offload =>
          hw' <- ufid_hw_offload_add_rte_flow hw_offload rte_flow_ nd ;;
          hw_offload_modify dp_port ufid (fun _ => hw')
      end
  end.

Fixpoint hw_offload_free_loop (hw_offload : ufid_hw_offload)
  (idxs : list nat) : M unit :=
  match idxs with
  | [] => ret tt
  | i :: rest =>
      let d := nth i (rte_flow_data hw_offload) null_params in
      match rfp_flow d with
      | Some fl =>
          netdev_dpdk_rte_flow_destroy (rfp_netdev d) fl ;;;
          hw_offload_free_loop hw_offload rest
      | None => hw_offload_free_loop hw_offload rest
      end
  end.

(** If hw rules were introduced we make sure we clean them before we free
    the struct. *)
Definition netdev_rte_port_ufid_hw_offload_free (hw_offload : ufid_hw_offload)
  : M Z :=
  hw_offload_free_loop hw_offload (seq 0 (Z.to_nat (curr_idx hw_offload))) ;;;
  ret 0.

(** [get_output_port]: the port id variable when the port is registered. *)
Definition get_output_port (odp_port : odp_port_t)
  (map : list netdev_rte_port) : Z * option rte_flow_action_port_id :=
  match netdev_rte_port_search odp_port map with
  | None => (EINVAL, None)
  | Some output_rte_port =>
      (0, Some (mk_port_id 0 (rp_dpdk_port_id output_rte_port)))
  end.

Definition netdev_rte_offload_mark_rss (nd : netdev) (info : offload_info)
  (items : list item_view) (actions : flow_actions) (c : action_confs)
  (port_id : option conf_ptr) (flow_attr : rte_flow_attr)
  : M (option rte_flow * flow_actions) :=
  let c := set_cf_mark c (mk_mark (flow_mark info)) in
  let actions := add_flow_action actions RTE_FLOW_ACTION_TYPE_MARK
                                 (Some Conf_mark) in
  let '(actions, c) :=
    add_flow_rss_action actions c (to_uint16 (drv_n_rxq drv nd)) in
  let actions :=
    match port_id with
    | Some p => netdev_rte_add_port_id_flow_action p actions
    | None => actions
    end in
  let actions := add_flow_action actions RTE_FLOW_ACTION_TYPE_END None in
  flow <- netdev_dpdk_rte_flow_create nd flow_attr items
                                      (view_actions c actions) ;;
  ret (flow, actions).

Definition netdev_rte_offload_flow (nd : netdev) (info : offload_info)
  (items : list item_view) (actions : flow_actions) (c : action_confs)
  (flow_attr : rte_flow_attr) : M (option rte_flow * offload_info) :=
  let actions := add_flow_action actions RTE_FLOW_ACTION_TYPE_END None in
  flow <- netdev_dpdk_rte_flow_create nd flow_attr items
                                      (view_actions c actions) ;;
  ret (flow, set_is_hwol info (match flow with Some _ => true | None => false end)).

Definition items_store_zero : items_store :=
  mk_store flow_items_zero flow_items_zero flow_items_zero flow_items_zero.

(** The default flow has the lowest priority, no pattern (match all) and a
    Mark action. *)
Definition netdev_rte_offload_add_default_flow (rte_port vport : netdev_rte_port)
  : M (option rte_flow) :=
  let def_flow_attr := mk_attr (rp_table_id vport) 1 1 0 0 in
  let def_patterns :=
    add_flow_pattern flow_patterns_init RTE_FLOW_ITEM_TYPE_END None None in
  let '(def_actions, c) :=
    add_flow_rss_action flow_actions_init action_confs_zero
                        (rp_dpdk_num_queues rte_port) in
  let c := set_cf_mark c (mk_mark (rp_exception_mark vport)) in
  let def_actions := add_flow_action def_actions RTE_FLOW_ACTION_TYPE_MARK
                                     (Some Conf_mark) in
  let def_actions := add_flow_action def_actions RTE_FLOW_ACTION_TYPE_END None in
  netdev_dpdk_rte_flow_create (rp_netdev rte_port) def_flow_attr
                              (view_items items_store_zero def_patterns)
                              (view_actions c def_actions).

Definition netdev_dpdk_add_jump_to_non_root_table (nd : netdev)
  (info : offload_info) : M (option rte_flow * offload_info) :=
  let flow_attr := mk_attr 0 1 1 0 1 in
  let patterns :=
    add_flow_pattern flow_patterns_init RTE_FLOW_ITEM_TYPE_END None None in
  let c := set_cf_jump action_confs_zero (mk_jump 1) in
  let actions := add_flow_action flow_actions_init RTE_FLOW_ACTION_TYPE_JUMP
                                 (Some Conf_jump) in
  netdev_rte_offload_flow nd info (view_items items_store_zero patterns)
                          actions c flow_attr.

(** The jump to the table of the port a tunnel-pop action names; NULL when
    that port is not registered. *)
Definition netdev_rte_add_jump_flow_action (odp_port : odp_port_t)
  (map : list netdev_rte_port) (actions : flow_actions) (c : action_confs)
  : option (netdev_rte_port * flow_actions * action_confs) :=
  match netdev_rte_port_search odp_port map with
  | None => None
  | Some rte_port =>
      Some (rte_port,
            add_flow_action actions RTE_FLOW_ACTION_TYPE_JUMP (Some Conf_jump),
            set_cf_jump c (mk_jump (rp_table_id rte_port)))
  end.

(** The nested action list of a clone action. *)
Fixpoint netdev_rte_add_clone_flow_action (map : list netdev_rte_port)
  (clone_actions : list nlattr) (actions : flow_actions) (c : action_confs)
  : Z * flow_actions * action_confs :=
  match clone_actions with
  | [] => (0, actions, c)
  | OVS_ACTION_ATTR_TUNNEL_PUSH header header_len :: rest =>
      netdev_rte_add_clone_flow_action map rest
        (add_flow_action actions RTE_FLOW_ACTION_TYPE_RAW_ENCAP
                         (Some Conf_clone_raw_encap))
        (set_cf_clone_raw_encap c (mk_raw_encap header header_len))
  | OVS_ACTION_ATTR_OUTPUT port :: rest =>
      match get_output_port port map with
      | (_, Some output) =>
          let c := set_cf_clone_output c output in
          let '(actions, c) :=
            netdev_rte_add_count_flow_action Conf_clone_count actions c in
          netdev_rte_add_clone_flow_action map rest
            (netdev_rte_add_port_id_flow_action Conf_clone_output actions) c
      | (result, None) => (result, actions, c)
      end
  | _ :: rest => netdev_rte_add_clone_flow_action map rest actions c
  end.

(** The variables the action loop of [netdev_rte_offloads_add_flow] updates. *)
Record add_flow_locals : Type := mk_locals
  { lc_actions : flow_actions;
    lc_confs : action_confs;
    lc_action_bitmap : Z;
    lc_vport : option netdev_rte_port;
    lc_result : Z }.

Fixpoint add_flow_translate_actions (map : list netdev_rte_port)
  (nl_actions : list nlattr) (l : add_flow_locals) : add_flow_locals :=
  match nl_actions with
  | [] => l
  | a :: rest =>
      match a with
      | OVS_ACTION_ATTR_TUNNEL_POP port =>
          match netdev_rte_add_jump_flow_action port map
                                                (lc_actions l) (lc_confs l) with
          | None =>
              mk_locals (lc_actions l) (lc_confs l) (lc_action_bitmap l)
                        None (-1)
          | Some (vport, actions, c) =>
              let '(actions, c) :=
                netdev_rte_add_count_flow_action Conf_count actions c in
              add_flow_translate_actions map rest
                (mk_locals actions c
                           (Z.lor (lc_action_bitmap l) (ACTBIT ATTR_TUNNEL_POP))
                           (Some vport) 0)
          end
      | OVS_ACTION_ATTR_OUTPUT port =>
          match get_output_port port map with
          | (_, Some output) =>
              let c := set_cf_output (lc_confs l) output in
              let '(actions, c) :=
                netdev_rte_add_count_flow_action Conf_count (lc_actions l) c in
              add_flow_translate_actions map rest
                (mk_locals
                   (netdev_rte_add_port_id_flow_action Conf_output actions) c
                   (Z.lor (lc_action_bitmap l) (ACTBIT ATTR_OUTPUT))
                   (lc_vport l) 0)
          | (result, None) =>
              mk_locals (lc_actions l) (lc_confs l) (lc_action_bitmap l)
                        (lc_vport l) result
          end
      | OVS_ACTION_ATTR_CLONE clone_actions =>
          let '(result, actions, c) :=
            netdev_rte_add_clone_flow_action map clone_actions
                                             (lc_actions l) (lc_confs l) in
          if nonzero result
          then mk_locals actions c (lc_action_bitmap l) (lc_vport l) result
          else add_flow_translate_actions map rest
                 (mk_locals actions c
                            (Z.lor (lc_action_bitmap l) (ACTBIT ATTR_CLONE))
                            (lc_vport l) result)
      | _ =>
          (* Unsupported action for offloading *)
          mk_locals (lc_actions l) (lc_confs l) (lc_action_bitmap l)
                    (lc_vport l) (-1)
      end
  end.

Definition is_some {A : Type} (o : option A) : bool :=
  match o with
  | Some _ => true
  | None => false
  end.

(** [rte_port->default_rte_flow[table_id]]. *)
Definition default_rte_flow_at (p : netdev_rte_port) (table_id : Z)
  : option rte_flow :=
  nth (Z.to_nat table_id) (rp_default_rte_flow p) None.

Definition set_default_rte_flow_at (table_id : Z) (v : option rte_flow)
  (p : netdev_rte_port) : netdev_rte_port :=
  set_rp_default_rte_flow p
    (list_set (rp_default_rte_flow p) (Z.to_nat table_id) v).

(** Translate the match and the actions and install the flow on [nd].  The
    result is the handle the caller will record (NULL on failure). *)
Definition netdev_rte_offloads_add_flow (nd : netdev) (m : match_)
  (nl_actions : nl_actions_t) (ufid : ovs_u128) (info : offload_info)
  : M (option rte_flow * offload_info) :=
  let flow_attr := mk_attr 0 0 1 0 0 in
  match add_flow_compile_patterns m with
  | None => ret (None, info)
  | Some items =>
    w <- get_world ;;
    let l :=
      add_flow_translate_actions (port_map w) (nl_attrs nl_actions)
        (mk_locals flow_actions_init action_confs_zero 0 None 0) in
    if nonzero (lc_result l)
    then
      (* If actions are not supported, try offloading Mark and RSS actions *)
      '(flow, _) <- netdev_rte_offload_mark_rss nd info items (lc_actions l)
                      (lc_confs l) None (set_attr_transfer flow_attr 0) ;;
      ret (flow, info)
    else
      '(proceed, info, flow_attr) <-
        (if has_bit (lc_action_bitmap l) ATTR_CLONE
         then
           '(flow, info) <- netdev_dpdk_add_jump_to_non_root_table nd info ;;
           ret (is_some flow, info, set_attr_group flow_attr 1)
         else ret (true, info, flow_attr)) ;;
      if negb proceed then ret (None, info)
      else
        '(flow, info) <- netdev_rte_offload_flow nd info items (lc_actions l)
                           (lc_confs l) (set_attr_transfer flow_attr 1) ;;
        match flow with
        | None => ret (None, info)
        | Some _ =>
            if has_bit (lc_action_bitmap l) ATTR_TUNNEL_POP
            then
              w <- get_world ;;
              match netdev_rte_port_search (in_port (m_flow m)) (port_map w),
                    lc_vport l with
              | Some rte_port, Some vport =>
                  if negb (is_some (default_rte_flow_at rte_port
                                                        (rp_table_id vport)))
                  then
                    def_flow <- netdev_rte_offload_add_default_flow rte_port
                                                                    vport ;;
                    port_modify (in_port (m_flow m))
                      (set_default_rte_flow_at (rp_table_id vport) def_flow) ;;;
                    (* on failure: [goto out] before the cleanup *)
                    ret (flow, info)
                  else ret (flow, info)
              | _, _ => ret (flow, info)
              end
            else ret (flow, info)
        end
  end.

Definition netdev_rte_offloads_flow_put (nd : netdev) (m : match_)
  (actions : nl_actions_t) (ufid : ovs_u128) (info : offload_info)
  : M (Z * offload_info) :=
  let in_port_ := in_port (m_flow m) in
  w <- get_world ;;
  match netdev_rte_port_search in_port_ (port_map w) with
  | None => ret (EINVAL, info)
  | Some rte_port =>
      (* If an old rte_flow exists, it means it's a flow modification.
         Here destroy the old rte flow first before adding a new one. *)
      r <- match ufid_hw_offload_find ufid (rp_ufid_to_rte rte_port) with
           | Some old =>
               port_modify in_port_
                 (fun p => set_rp_ufid_to_rte p
                             (snd (ufid_hw_offload_remove ufid
                                                          (rp_ufid_to_rte p)))) ;;;
               netdev_rte_port_ufid_hw_offload_free old
           | None => ret 0
           end ;;
      if r <? 0 then ret (- r, info)
      else
        (* Create ufid_to_rte map for the ufid *)
        let ufid_hw_offload := netdev_rte_port_ufid_hw_offload_alloc 1 ufid in
        port_modify in_port_
          (fun p => set_rp_ufid_to_rte p
                      (ufid_hw_offload_add ufid_hw_offload (rp_ufid_to_rte p))) ;;;
        ufid_to_portid_add ufid (rp_dp_port rte_port) ;;;
        if netdev_rte_offloads_validate_flow m false <? 0
        then ret (EINVAL, info)
        else
          '(rte_flow_, info) <-
            netdev_rte_offloads_add_flow nd m actions ufid info ;;
          match rte_flow_ with
          | None => ret (ENODEV, info)
          | Some fl =>
              ufid_hw_offload_add_rte_flow_at in_port_ ufid fl nd ;;;
              ret (0, info)
          end
  end.

Definition netdev_offloads_flow_del (ufid : ovs_u128) : M Z :=
  w <- get_world ;;
  let port_num := ufid_to_portid_search ufid (ufid_to_portid_map w) in
  if port_num =? INVALID_ODP_PORT then ret EINVAL
  else
    match netdev_rte_port_search port_num (port_map w) with
    | None => ret ENODEV
    | Some rte_port =>
        ufid_to_portid_remove ufid ;;;
        match ufid_hw_offload_find ufid (rp_ufid_to_rte rte_port) with
        | Some old =>
            port_modify port_num
              (fun p => set_rp_ufid_to_rte p
                          (snd (ufid_hw_offload_remove ufid
                                                       (rp_ufid_to_rte p)))) ;;;
            netdev_rte_port_ufid_hw_offload_free old ;;;
            ret 0
        | None => ret 0
        end
    end.

(** The conntrack sub-attributes: only zone 0 is supported. *)
Fixpoint ct_attrs_supported (attrs : list ovs_ct_attr) : bool :=
  match attrs with
  | [] => true
  | OVS_CT_ATTR_ZONE zone :: rest =>
      if nonzero (to_uint16 zone) then false else ct_attrs_supported rest
  | _ :: rest => ct_attrs_supported rest
  end.

(** The variables the action loop of the VXLAN port function updates;
    [vx_out] tells that the loop left through [goto out]. *)
Record vxlan_locals : Type := mk_vx_locals
  { vx_ret : Z;
    vx_action_bitmap : Z;
    vx_port_id : rte_flow_action_port_id;
    vx_out : bool }.

Fixpoint vxlan_scan_actions (map : list netdev_rte_port)
  (nl_actions : list nlattr) (l : vxlan_locals) : vxlan_locals :=
  match nl_actions with
  | [] => l
  | a :: rest =>
      match a with
      | OVS_ACTION_ATTR_OUTPUT port =>
          match get_output_port port map with
          | (r, Some output) =>
              vxlan_scan_actions map rest
                (mk_vx_locals r
                   (Z.lor (vx_action_bitmap l) (ACTBIT ATTR_OUTPUT))
                   output false)
          | (r, None) =>
              (* [continue] with the error left in [ret] *)
              vxlan_scan_actions map rest
                (mk_vx_locals r (vx_action_bitmap l) (vx_port_id l) false)
          end
      | OVS_ACTION_ATTR_CT attrs =>
          if ct_attrs_supported attrs
          then vxlan_scan_actions map rest
                 (mk_vx_locals (vx_ret l)
                    (Z.lor (vx_action_bitmap l) (ACTBIT ATTR_CT))
                    (vx_port_id l) false)
          else mk_vx_locals EOPNOTSUPP (vx_action_bitmap l) (vx_port_id l) true
      | OVS_ACTION_ATTR_RECIRC _ =>
          if negb (has_bit (vx_action_bitmap l) ATTR_CT)
          then mk_vx_locals EOPNOTSUPP (vx_action_bitmap l) (vx_port_id l) true
          else vxlan_scan_actions map rest
                 (mk_vx_locals (vx_ret l)
                    (Z.lor (vx_action_bitmap l) (ACTBIT ATTR_RECIRC))
                    (vx_port_id l) false)
      | _ =>
          (* Unsupported action for offloading *)
          mk_vx_locals EOPNOTSUPP (vx_action_bitmap l) (vx_port_id l) true
      end
  end.

(** The primary action list of one uplink: decap, then count and output
    when an output was seen, then the end marker. *)
Definition vxlan_uplink_actions (action_bitmap : Z) (actions : flow_actions)
  (c : action_confs) : flow_actions * action_confs :=
  let actions := free_flow_actions actions in
  let actions := netdev_rte_add_decap_flow_action actions in
  let '(actions, c) :=
    if has_bit action_bitmap ATTR_OUTPUT
    then
      let '(actions, c) :=
        netdev_rte_add_count_flow_action Conf_count actions c in
      (netdev_rte_add_port_id_flow_action Conf_output actions, c)
    else (actions, c) in
  (add_flow_action actions RTE_FLOW_ACTION_TYPE_END None, c).

(** One iteration of [CMAP_FOR_EACH (data, node, &port_map)]: install the
    flow on the uplink [data] and record the handle in the identity record
    of [ufid] on the tunnel port [rte_port]. *)
Definition vxlan_offload_uplink (rte_port : netdev_rte_port) (ufid : ovs_u128)
  (items : list item_view) (action_bitmap : Z) (data : netdev_rte_port)
  (st : flow_actions * action_confs * rte_flow_attr * offload_info)
  : M (flow_actions * action_confs * rte_flow_attr * offload_info) :=
  let '(actions, c, flow_attr, info) := st in
  (* Offload only in case the port is DPDK and it's the uplink port *)
  if rte_port_type_eqb (rp_rte_port_type data) RTE_PORT_TYPE_DPDK &&
     drv_is_uplink_port drv (rp_netdev data)
  then
    let '(actions, c) := vxlan_uplink_actions action_bitmap actions c in
    let flow_attr := set_attr_transfer flow_attr 1 in
    flow <- netdev_dpdk_rte_flow_create (rp_netdev data) flow_attr items
                                        (view_actions c actions) ;;
    '(flow, actions, flow_attr, info) <-
      match flow with
      | Some _ => ret (flow, actions, flow_attr, set_is_hwol info true)
      | None =>
          (* In case flow cannot be offloaded with decap and output actions,
             try to offload decap with mark and rss, and output will be done
             in SW *)
          let actions := free_flow_actions actions in
          let actions := netdev_rte_add_decap_flow_action actions in
          let flow_attr := set_attr_transfer flow_attr 0 in
          '(flow, actions) <- netdev_rte_offload_mark_rss (rp_netdev data) info
                                items actions c None flow_attr ;;
          ret (flow, actions, flow_attr,
               if is_some flow then set_is_hwol info false else info)
      end ;;
    match flow with
    | Some fl =>
        ufid_hw_offload_add_rte_flow_at (rp_dp_port rte_port) ufid fl
                                        (rp_netdev rte_port) ;;;
        ret (actions, c, flow_attr, info)
    | None => ret (actions, c, flow_attr, info)
    end
  else ret st.

Fixpoint vxlan_fan_out (rte_port : netdev_rte_port) (ufid : ovs_u128)
  (items : list item_view) (action_bitmap : Z) (ports : list netdev_rte_port)
  (st : flow_actions * action_confs * rte_flow_attr * offload_info)
  : M (flow_actions * action_confs * rte_flow_attr * offload_info) :=
  match ports with
  | [] => ret st
  | data :: rest =>
      st' <- vxlan_offload_uplink rte_port ufid items action_bitmap data st ;;
      vxlan_fan_out rte_port ufid items action_bitmap rest st'
  end.

(** [rte_port] is the node of the tunnel port as the caller found it in
    [port_map]. *)
Definition netdev_vport_vxlan_add_rte_flow_offload (rte_port : netdev_rte_port)
  (m : match_) (nl_actions : nl_actions_t) (ufid : ovs_u128)
  (info : offload_info) : M (Z * offload_info) :=
  if no_actions nl_actions then ret (0, info)
  else
    w <- get_world ;;
    (* If an old rte_flow exists, it means it's a flow modification.
       Here destroy the old rte flow first before adding a new one. *)
    r <- match netdev_rte_port_search (rp_dp_port rte_port) (port_map w) with
         | Some p =>
             match ufid_hw_offload_find ufid (rp_ufid_to_rte p) with
             | Some old =>
                 port_modify (rp_dp_port rte_port)
                   (fun p => set_rp_ufid_to_rte p
                               (snd (ufid_hw_offload_remove ufid
                                       (rp_ufid_to_rte p)))) ;;;
                 netdev_rte_port_ufid_hw_offload_free old
             | None => ret 0
             end
         | None => ret 0
         end ;;
    if r <? 0 then ret (r, info)
    else if dpdk_phy_ports_amount w =? 0 then ret (-1, info)
    else
      let ufid_hw_offload :=
        netdev_rte_port_ufid_hw_offload_alloc
          (to_int32 (dpdk_phy_ports_amount w)) ufid in
      port_modify (rp_dp_port rte_port)
        (fun p => set_rp_ufid_to_rte p
                    (ufid_hw_offload_add ufid_hw_offload (rp_ufid_to_rte p))) ;;;
      ufid_to_portid_add ufid (rp_dp_port rte_port) ;;;
      let flow_attr := mk_attr (rp_table_id rte_port) 0 1 0 0 in
      (* Add patterns from outer header *)
      let '(r, patterns, spec_outer, mask_outer) :=
        add_vport_vxlan_flow_patterns Slot_outer flow_patterns_init m in
      if nonzero r then ret (r, info)
      else
        (* Add patterns from inner header *)
        let '(r, patterns, spec, mask) :=
          add_flow_patterns Slot_inner patterns m in
        if nonzero r then ret (r, info)
        else
          let patterns :=
            add_flow_pattern patterns RTE_FLOW_ITEM_TYPE_END None None in
          let items :=
            view_items (mk_store spec_outer mask_outer spec mask) patterns in
          w <- get_world ;;
          let l := vxlan_scan_actions (port_map w) (nl_attrs nl_actions)
                     (mk_vx_locals r 0 (mk_port_id 0 0) false) in
          if vx_out l then ret (vx_ret l, info)
          else
            '(_, _, _, info) <-
              vxlan_fan_out rte_port ufid items (vx_action_bitmap l)
                (port_map w)
                (flow_actions_init,
                 set_cf_output action_confs_zero (vx_port_id l),
                 flow_attr, info) ;;
            ret (vx_ret l, info).

Definition netdev_rte_vport_flow_put (m : match_) (actions : nl_actions_t)
  (ufid : ovs_u128) (info : offload_info) : M (Z * offload_info) :=
  if nonzero (netdev_rte_offloads_validate_flow m true)
  then ret (EOPNOTSUPP, info)
  else
    w <- get_world ;;
    match netdev_rte_port_search (in_port (m_flow m)) (port_map w) with
    | Some rte_port =>
        match rp_rte_port_type rte_port with
        | RTE_PORT_TYPE_VXLAN =>
            netdev_vport_vxlan_add_rte_flow_offload rte_port m actions ufid info
        | _ => ret (0, info)
        end
    | None => ret (0, info)
    end.

(** The table an output action installs into. *)
Definition get_output_table_id (m : match_) (action_bitmap : Z) (vport : bool)
  : Z :=
  if has_bit action_bitmap ATTR_CT
  then
    if negb (nonzero (recirc_id (m_flow m)))
    then (if vport then VXLAN_TABLE_ID else ROOT_TABLE_ID)
    else UNKNOWN_TABLE_ID
  else UNKNOWN_TABLE_ID.

(** One pass over [port_map]: for every uplink, create the flow on [nd] and
    record it in the identity record of [ufid] on port [dp_port]. *)
Fixpoint netdev_dpdk_set_one_flow (ports : list netdev_rte_port)
  (items : list item_view) (actions : list action_view)
  (flow_attr : rte_flow_attr) (dp_port : odp_port_t) (ufid : ovs_u128)
  (nd : netdev) : M unit :=
  match ports with
  | [] => ret tt
  | data :: rest =>
      (if rte_port_type_eqb (rp_rte_port_type data) RTE_PORT_TYPE_DPDK &&
          drv_is_uplink_port drv (rp_netdev data)
       then
         flow <- netdev_dpdk_rte_flow_create nd flow_attr items actions ;;
         match flow with
         | Some fl => ufid_hw_offload_add_rte_flow_at dp_port ufid fl nd
         | None => ret tt
         end
       else ret tt) ;;;
      netdev_dpdk_set_one_flow rest items actions flow_attr dp_port ufid nd
  end.

Fixpoint netdev_dpdk_set_flows_vport (ports all_ports : list netdev_rte_port)
  (items : list item_view) (actions : list action_view)
  (flow_attr : rte_flow_attr) (dp_port : odp_port_t) (ufid : ovs_u128)
  : M unit :=
  match ports with
  | [] => ret tt
  | data :: rest =>
      (if rte_port_type_eqb (rp_rte_port_type data) RTE_PORT_TYPE_DPDK &&
          drv_is_uplink_port drv (rp_netdev data)
       then netdev_dpdk_set_one_flow all_ports items actions flow_attr
                                     dp_port ufid (rp_netdev data)
       else ret tt) ;;;
      netdev_dpdk_set_flows_vport rest all_ports items actions flow_attr
                                  dp_port ufid
  end.

Definition netdev_dpdk_set_flows (items : list item_view)
  (actions : list action_view) (flow_attr : rte_flow_attr)
  (rte_port : netdev_rte_port) (ufid : ovs_u128) (vport : bool) : M unit :=
  w <- get_world ;;
  if negb vport
  then netdev_dpdk_set_one_flow (port_map w) items actions flow_attr
                                (rp_dp_port rte_port) ufid (rp_netdev rte_port)
  else netdev_dpdk_set_flows_vport (port_map w) (port_map w) items actions
                                   flow_attr (rp_dp_port rte_port) ufid.

(** The variables the action loop of [netdev_add_rte_flow_offload] updates;
    [ao_out] tells that the loop left through [goto out]. *)
Record add_offload_locals : Type := mk_ao_locals
  { ao_actions : flow_actions;
    ao_confs : action_confs;
    ao_action_bitmap : Z;
    ao_flow_attr : rte_flow_attr;
    ao_ret : Z;
    ao_out : bool }.

Definition ao_leave (l : add_offload_locals) (r : Z) : add_offload_locals :=
  mk_ao_locals (ao_actions l) (ao_confs l) (ao_action_bitmap l)
               (ao_flow_attr l) r true.

(** The nested list of a clone action in [netdev_add_rte_flow_offload]. *)
Fixpoint add_offload_clone_actions (map : list netdev_rte_port)
  (clone_actions : list nlattr) (l : add_offload_locals)
  : add_offload_locals :=
  match clone_actions with
  | [] => l
  | OVS_ACTION_ATTR_TUNNEL_PUSH header header_len :: rest =>
      add_offload_clone_actions map rest
        (mk_ao_locals
           (add_flow_action (ao_actions l) RTE_FLOW_ACTION_TYPE_RAW_ENCAP
                            (Some Conf_clone_raw_encap))
           (set_cf_clone_raw_encap (ao_confs l)
                                   (mk_raw_encap header header_len))
           (Z.lor (ao_action_bitmap l) (ACTBIT ATTR_TUNNEL_PUSH))
           (ao_flow_attr l) (ao_ret l) false)
  | OVS_ACTION_ATTR_OUTPUT port :: rest =>
      match get_output_port port map with
      | (r, Some output) =>
          let c := set_cf_clone_output (ao_confs l) output in
          let '(actions, c) :=
            netdev_rte_add_count_flow_action Conf_clone_count (ao_actions l) c in
          add_offload_clone_actions map rest
            (mk_ao_locals
               (netdev_rte_add_port_id_flow_action Conf_clone_output actions)
               c (Z.lor (ao_action_bitmap l) (ACTBIT ATTR_OUTPUT))
               (ao_flow_attr l) r false)
      | (r, None) => ao_leave l r
      end
  | _ :: rest => add_offload_clone_actions map rest l
  end.

Fixpoint add_offload_translate_actions (map : list netdev_rte_port)
  (m : match_) (vport : bool) (nl_actions : list nlattr)
  (l : add_offload_locals) : add_offload_locals :=
  match nl_actions with
  | [] => l
  | a :: rest =>
      (* Add decap action if recirc_id == 0 and virtual port *)
      let l :=
        if negb (nonzero (recirc_id (m_flow m))) && vport
        then mk_ao_locals (netdev_rte_add_decap_flow_action (ao_actions l))
                          (ao_confs l) (ao_action_bitmap l) (ao_flow_attr l)
                          (ao_ret l) false
        else l in
      match a with
      | OVS_ACTION_ATTR_TUNNEL_POP _ =>
          if nonzero (ao_action_bitmap l) || nonzero (recirc_id (m_flow m))
             || vport
          then ao_leave l (ao_ret l)
          else
            let '(actions, c) :=
              netdev_rte_add_jump_flow_action2 VXLAN_TABLE_ID (ao_actions l)
                                               (ao_confs l) in
            let '(actions, c) :=
              netdev_rte_add_count_flow_action Conf_count actions c in
            let actions :=
              add_flow_action actions RTE_FLOW_ACTION_TYPE_END None in
            add_offload_translate_actions map m vport rest
              (mk_ao_locals actions c
                 (Z.lor (ao_action_bitmap l) (ACTBIT ATTR_TUNNEL_POP))
                 (set_attr_group (set_attr_transfer (ao_flow_attr l) 1)
                                 ROOT_TABLE_ID)
                 (ao_ret l) false)
      | OVS_ACTION_ATTR_OUTPUT port =>
          let table_id := get_output_table_id m (ao_action_bitmap l) vport in
          if table_id =? UNKNOWN_TABLE_ID then ao_leave l (ao_ret l)
          else
            match get_output_port port map with
            | (r, Some output) =>
                let c := set_cf_output (ao_confs l) output in
                let '(actions, c) :=
                  netdev_rte_add_count_flow_action Conf_count (ao_actions l) c in
                let actions :=
                  netdev_rte_add_port_id_flow_action Conf_output actions in
                let actions :=
                  add_flow_action actions RTE_FLOW_ACTION_TYPE_END None in
                add_offload_translate_actions map m vport rest
                  (mk_ao_locals actions c
                     (Z.lor (ao_action_bitmap l) (ACTBIT ATTR_OUTPUT))
                     (set_attr_group (set_attr_transfer (ao_flow_attr l) 1)
                                     table_id)
                     r false)
            | (r, None) => ao_leave l r
            end
      | OVS_ACTION_ATTR_CLONE clone_actions =>
          if nonzero (recirc_id (m_flow m)) || vport
          then ao_leave l (ao_ret l)
          else
            let l' := add_offload_clone_actions map clone_actions l in
            if ao_out l' then l'
            else add_offload_translate_actions map m vport rest l'
      | OVS_ACTION_ATTR_CT attrs =>
          if ct_attrs_supported attrs
          then add_offload_translate_actions map m vport rest
                 (mk_ao_locals (ao_actions l) (ao_confs l)
                    (Z.lor (ao_action_bitmap l) (ACTBIT ATTR_CT))
                    (ao_flow_attr l) (ao_ret l) false)
          else ao_leave l EOPNOTSUPP
      | OVS_ACTION_ATTR_RECIRC _ =>
          if negb (has_bit (ao_action_bitmap l) ATTR_CT)
          then ao_leave l EOPNOTSUPP
          else add_offload_translate_actions map m vport rest
                 (mk_ao_locals (ao_actions l) (ao_confs l)
                    (Z.lor (ao_action_bitmap l) (ACTBIT ATTR_RECIRC))
                    (ao_flow_attr l) (ao_ret l) false)
      | _ =>
          (* Unsupported action for offloading *)
          ao_leave l EOPNOTSUPP
      end
  end.

Definition netdev_add_rte_flow_offload (m : match_) (nl_actions : nl_actions_t)
  (ufid : ovs_u128) (vport : bool) (odp_to_rte_flow_ratio : Z) : M Z :=
  if no_actions nl_actions then ret 0
  else if nonzero (netdev_rte_offloads_validate_flow m vport)
  then ret (- EOPNOTSUPP)
  else
    let in_port_ := in_port (m_flow m) in
    w <- get_world ;;
    match netdev_rte_port_search in_port_ (port_map w) with
    | None => ret (- EINVAL)
    | Some rte_port =>
        r <- match ufid_hw_offload_find ufid (rp_ufid_to_rte rte_port) with
             | Some old =>
                 port_modify in_port_
                   (fun p => set_rp_ufid_to_rte p
                               (snd (ufid_hw_offload_remove ufid
                                       (rp_ufid_to_rte p)))) ;;;
                 netdev_rte_port_ufid_hw_offload_free old
             | None => ret 0
             end ;;
        if r <? 0 then ret r
        else if odp_to_rte_flow_ratio =? 0 then ret (- EINVAL)
        else
          (* Create ufid_to_rte map for the ufid *)
          let ufid_hw_offload :=
            netdev_rte_port_ufid_hw_offload_alloc odp_to_rte_flow_ratio ufid in
          port_modify in_port_
            (fun p => set_rp_ufid_to_rte p
                        (ufid_hw_offload_add ufid_hw_offload
                                             (rp_ufid_to_rte p))) ;;;
          ufid_to_portid_add ufid (rp_dp_port rte_port) ;;;
          let flow_attr := mk_attr 0 0 1 0 0 in
          let '(r, patterns, spec_outer, mask_outer) :=
            if vport
            then add_vport_vxlan_flow_patterns Slot_outer flow_patterns_init m
            else (r, flow_patterns_init, flow_items_zero, flow_items_zero) in
          if nonzero r then ret r
          else
            (* Add non-tunneled header patterns *)
            let '(r, patterns, spec, mask) :=
              add_flow_patterns Slot_inner patterns m in
            if nonzero r then ret r
            else
              let patterns :=
                add_flow_pattern patterns RTE_FLOW_ITEM_TYPE_END None None in
              let items :=
                view_items (mk_store spec_outer mask_outer spec mask)
                           patterns in
              w <- get_world ;;
              let l :=
                add_offload_translate_actions (port_map w) m vport
                  (nl_attrs nl_actions)
                  (mk_ao_locals flow_actions_init action_confs_zero 0
                                flow_attr r false) in
              if ao_out l then ret (ao_ret l)
              else
                netdev_dpdk_set_flows items
                  (view_actions (ao_confs l) (ao_actions l))
                  (ao_flow_attr l) rte_port ufid vport ;;;
                ret (ao_ret l)
    end.

End Orchestrator.

(* ================================================================= *)
(** ** Tunnel outer-id contexts *)

Definition INVALID_OUTER_ID : Z := 0xffffffff.
Definition MAX_OUTER_ID : Z := 0xffff.

(** Modelled from the spec: [lib/id-pool.c] is not among the files at hand.
    A pool hands out ids of the fixed range [base, base + n_ids) that are not
    allocated at the moment, reports exhaustion instead of failing, and takes
    released ids back.  Here it hands out the lowest free id. *)
Record id_pool : Type := mk_pool
  { pool_base : Z;
    pool_n_ids : Z;
    pool_used : list Z }.

Definition id_pool_create (base n_ids : Z) : id_pool := mk_pool base n_ids [].

Definition id_in (id : Z) (l : list Z) : bool := existsb (Z.eqb id) l.

Fixpoint id_pool_scan (used : list Z) (fuel : nat) (cand : Z) : option Z :=
  match fuel with
  | O => None
  | S fuel' =>
      if id_in cand used then id_pool_scan used fuel' (cand + 1)
      else Some cand
  end.

Definition id_pool_alloc_id (pool : id_pool) : option (Z * id_pool) :=
  match id_pool_scan (pool_used pool) (Z.to_nat (pool_n_ids pool))
                     (pool_base pool) with
  | Some id =>
      Some (id, mk_pool (pool_base pool) (pool_n_ids pool)
                        (id :: pool_used pool))
  | None => None
  end.

Definition id_pool_free_id (pool : id_pool) (id : Z) : id_pool :=
  mk_pool (pool_base pool) (pool_n_ids pool)
          (filter (fun x => negb (x =? id)) (pool_used pool)).

Record tun_ctx_outer_id_data : Type := mk_tun_data
  { td_outer_id : Z;
    td_ip_dst : Z;
    td_ip_src : Z;
    td_tun_id : Z;
    td_ref_count : Z }.

(** [struct tun_ctx_outer_id]; the pool pointer is NULL until first use. *)
Record tun_ctx_outer_id_t : Type := mk_tun_ctx
  { outer_id_to_tun_map : list tun_ctx_outer_id_data;
    tun_to_outer_id_map : list tun_ctx_outer_id_data;
    tun_pool : option id_pool }.

Definition tun_ctx_outer_id_init : tun_ctx_outer_id_t := mk_tun_ctx [] [] None.

Definition tun_key_eqb (ip_dst ip_src tun_id : Z)
  (data : tun_ctx_outer_id_data) : bool :=
  (td_tun_id data =? tun_id) && (td_ip_dst data =? ip_dst) &&
  (td_ip_src data =? ip_src).

Definition netdev_dpdk_tun_data_find (outer_id : Z) (s : tun_ctx_outer_id_t)
  : option tun_ctx_outer_id_data :=
  find (fun data => td_outer_id data =? outer_id) (outer_id_to_tun_map s).

Definition netdev_dpdk_tun_data_del (outer_id : Z) (s : tun_ctx_outer_id_t)
  : tun_ctx_outer_id_t :=
  mk_tun_ctx (remove_first (fun data => td_outer_id data =? outer_id)
                           (outer_id_to_tun_map s))
             (tun_to_outer_id_map s) (tun_pool s).

Definition netdev_dpdk_tun_data_insert (outer_id ip_dst ip_src tun_id : Z)
  (s : tun_ctx_outer_id_t) : tun_ctx_outer_id_t :=
  mk_tun_ctx (mk_tun_data outer_id ip_dst ip_src tun_id 0
                :: outer_id_to_tun_map s)
             (tun_to_outer_id_map s) (tun_pool s).

(** The forward-map node of a 3-tuple. *)
Definition tun_to_outer_id_find (ip_dst ip_src tun_id : Z)
  (s : tun_ctx_outer_id_t) : option tun_ctx_outer_id_data :=
  find (tun_key_eqb ip_dst ip_src tun_id) (tun_to_outer_id_map s).

(** [ref_count++] and [ref_count--].  The count is an [int] in the source
    and an integer here; the two agree as long as the count stays within
    [int], which it does in every state reached by at most 2^31 - 1 calls,
    since a call adds at most one reference. *)
Definition td_add_ref (d : Z) (data : tun_ctx_outer_id_data)
  : tun_ctx_outer_id_data :=
  mk_tun_data (td_outer_id data) (td_ip_dst data) (td_ip_src data)
              (td_tun_id data) (td_ref_count data + d).

Definition netdev_dpdk_tun_outer_id_get_ref (ip_dst ip_src tun_id : Z)
  (s : tun_ctx_outer_id_t) : Z * tun_ctx_outer_id_t :=
  match tun_to_outer_id_find ip_dst ip_src tun_id s with
  | Some data =>
      (td_outer_id data,
       mk_tun_ctx (outer_id_to_tun_map s)
                  (update_first (tun_key_eqb ip_dst ip_src tun_id)
                                (td_add_ref 1) (tun_to_outer_id_map s))
                  (tun_pool s))
  | None => (INVALID_OUTER_ID, s)
  end.

Definition netdev_dpdk_tun_outer_id_alloc (ip_dst ip_src tun_id : Z)
  (s : tun_ctx_outer_id_t) : Z * tun_ctx_outer_id_t :=
  let pool :=
    match tun_pool s with
    | Some p => p
    | None => id_pool_create 1 MAX_OUTER_ID
    end in
  match id_pool_alloc_id pool with
  | None =>
      (INVALID_OUTER_ID,
       mk_tun_ctx (outer_id_to_tun_map s) (tun_to_outer_id_map s) (Some pool))
  | Some (outer_id, pool') =>
      (outer_id,
       netdev_dpdk_tun_data_insert outer_id ip_dst ip_src tun_id
         (mk_tun_ctx (outer_id_to_tun_map s)
                     (mk_tun_data outer_id ip_dst ip_src tun_id 1
                        :: tun_to_outer_id_map s)
                     (Some pool')))
  end.

Definition netdev_dpdk_tun_outer_id_unref (ip_dst ip_src tun_id : Z)
  (s : tun_ctx_outer_id_t) : tun_ctx_outer_id_t :=
  match tun_to_outer_id_find ip_dst ip_src tun_id s with
  | Some data =>
      let ref_count := td_ref_count data - 1 in
      if ref_count =? 0
      then
        let s := netdev_dpdk_tun_data_del (td_outer_id data) s in
        mk_tun_ctx (outer_id_to_tun_map s)
                   (remove_first (tun_key_eqb ip_dst ip_src tun_id)
                                 (tun_to_outer_id_map s))
                   (option_map (fun p => id_pool_free_id p (td_outer_id data))
                               (tun_pool s))
      else
        mk_tun_ctx (outer_id_to_tun_map s)
                   (update_first (tun_key_eqb ip_dst ip_src tun_id)
                                 (td_add_ref (-1)) (tun_to_outer_id_map s))
                   (tun_pool s)
  | None => s
  end.

(** If we have already allocated outer_id for the tun we just inc the
    refcnt.  If no such tun exits we allocate a new outer id and set refcnt
    to 1. *)
Definition netdev_dpdk_tun_id_get_ref (ip_dst ip_src tun_id : Z)
  (s : tun_ctx_outer_id_t) : Z * tun_ctx_outer_id_t :=
  let '(outer_id, s') := netdev_dpdk_tun_outer_id_get_ref ip_dst ip_src tun_id s in
  if outer_id =? INVALID_OUTER_ID
  then netdev_dpdk_tun_outer_id_alloc ip_dst ip_src tun_id s'
  else (outer_id, s').

Definition netdev_dpdk_tun_id_unref (ip_dst ip_src tun_id : Z)
  (s : tun_ctx_outer_id_t) : tun_ctx_outer_id_t :=
  netdev_dpdk_tun_outer_id_unref ip_dst ip_src tun_id s.

(** The reference count of a 3-tuple, when the forward map holds it. *)
Definition tun_ref_count (ip_dst ip_src tun_id : Z) (s : tun_ctx_outer_id_t)
  : option Z :=
  option_map td_ref_count (tun_to_outer_id_find ip_dst ip_src tun_id s).

(** Whether the pool holds [id] as allocated. *)
Definition tun_id_allocated (id : Z) (s : tun_ctx_outer_id_t) : bool :=
  match tun_pool s with
  | Some p => id_in id (pool_used p)
  | None => false
  end.

(** Every outer-id an index entry carries is allocated in the pool. *)
Definition tun_ctx_consistent (s : tun_ctx_outer_id_t) : bool :=
  forallb (fun d => tun_id_allocated (td_outer_id d) s) (outer_id_to_tun_map s)
  && forallb (fun d => tun_id_allocated (td_outer_id d) s)
             (tun_to_outer_id_map s).

(* ================================================================= *)
(** ** Miss-context store *)

Definition MARK_PREPROCESS_CT : Z := 1.
Definition MARK_PREPROCESS_FLOW_CT : Z := 2.
Definition MARK_PREPROCESS_FLOW : Z := 4.
Definition MARK_PREPROCESS_VXLAN : Z := 8.

(** The union of [struct mark_to_miss_ctx_data], with the members this file
    accesses.  Each save function writes every such member of its view. *)
Inductive miss_ctx_body : Type :=
| Body_ct (ct_mark_ ct_zone_ ct_state_ outer_id : Z)
| Body_flow (outer_id hw_id : Z) (is_port : bool) (in_port_ : Z).

(** [mc_addr] is the address of the node: two nodes of equal contents are
    still two nodes.  The [rte_flow] array of the conntrack view lies behind
    the members of the flow view and keeps its contents across a change of
    view. *)
Record mark_to_miss_ctx_data : Type := mk_miss_ctx
  { mc_addr : Z;
    mc_mark : Z;
    mc_type : Z;
    mc_body : miss_ctx_body;
    mc_rte_flow : list (option rte_flow) }.

(** The file has TWO maps of this name: the file-scope
    [static struct cmap mark_to_ct_ctx] and the member
    [mark_preprocess_info.mark_to_ct_ctx]. *)
Record miss_ctx_state : Type := mk_miss_state
  { mark_to_ct_ctx : list mark_to_miss_ctx_data;
    mark_preprocess_info_mark_to_ct_ctx : list mark_to_miss_ctx_data;
    miss_next_addr : Z }.

(** Both maps are [CMAP_INITIALIZER] when the program starts. *)
Definition miss_ctx_init : miss_ctx_state := mk_miss_state [] [] 1.

(** [xzalloc(sizeof *data)]. *)
Definition miss_ctx_zero (addr : Z) : mark_to_miss_ctx_data :=
  mk_miss_ctx addr 0 0 (Body_ct 0 0 0 0) [None; None].

Definition netdev_dpdk_find_miss_ctx (mark : Z) (s : miss_ctx_state)
  : option mark_to_miss_ctx_data :=
  find (fun data => mc_mark data =? mark)
       (mark_preprocess_info_mark_to_ct_ctx s).

(** Returns the address of the node found, or of a new node. *)
Definition netdev_dpdk_get_flow_miss_ctx (mark : Z) (s : miss_ctx_state)
  : Z * miss_ctx_state :=
  match netdev_dpdk_find_miss_ctx mark s with
  | Some data => (mc_addr data, s)
  | None =>
      (miss_next_addr s,
       mk_miss_state (miss_ctx_zero (miss_next_addr s) :: mark_to_ct_ctx s)
                     (mark_preprocess_info_mark_to_ct_ctx s)
                     (miss_next_addr s + 1))
  end.

(** A store through the pointer [addr], whichever map the node is in. *)
Definition miss_ctx_store_at (addr : Z)
  (f : mark_to_miss_ctx_data -> mark_to_miss_ctx_data) (s : miss_ctx_state)
  : miss_ctx_state :=
  mk_miss_state
    (update_first (fun d => mc_addr d =? addr) f (mark_to_ct_ctx s))
    (update_first (fun d => mc_addr d =? addr) f
                  (mark_preprocess_info_mark_to_ct_ctx s))
    (miss_next_addr s).

Definition miss_ctx_load (addr : Z) (s : miss_ctx_state)
  : option mark_to_miss_ctx_data :=
  match find (fun d => mc_addr d =? addr) (mark_to_ct_ctx s) with
  | Some d => Some d
  | None => find (fun d => mc_addr d =? addr)
                 (mark_preprocess_info_mark_to_ct_ctx s)
  end.

Definition CT_OFFLOAD_DIR_INIT : nat := 0%nat.
Definition CT_OFFLOAD_DIR_REP : nat := 1%nat.

(** The arguments are converted to the parameter types [uint32_t],
    [uint16_t], [uint8_t] and [uint8_t]. *)
Definition netdev_dpdk_save_ct_miss_ctx (mark : Z) (flow : option rte_flow)
  (ct_mark_ ct_zone_ ct_state_ outer_id : Z) (reply : bool)
  (s : miss_ctx_state) : Z * miss_ctx_state :=
  let '(addr, s) := netdev_dpdk_get_flow_miss_ctx mark s in
  let s := miss_ctx_store_at addr
             (fun d => mk_miss_ctx (mc_addr d) mark MARK_PREPROCESS_CT
                         (Body_ct (ct_mark_ mod 4294967296)
                                  (to_uint16 ct_zone_) (to_uint8 ct_state_)
                                  (to_uint8 outer_id))
                         (mc_rte_flow d)) s in
  let idx := if reply then CT_OFFLOAD_DIR_REP else CT_OFFLOAD_DIR_INIT in
  match miss_ctx_load addr s with
  | Some d =>
      if is_some (nth idx (mc_rte_flow d) None)
      then (-1, s)
      else (0, miss_ctx_store_at addr
                 (fun d => mk_miss_ctx (mc_addr d) (mc_mark d) (mc_type d)
                             (mc_body d)
                             (list_set (mc_rte_flow d) idx flow)) s)
  | None => (-1, s)
  end.

Definition netdev_dpdk_save_flow_miss_ctx (mark hw_id : Z) (is_port : bool)
  (outer_id in_port_ : Z) (has_ct : bool) (s : miss_ctx_state)
  : Z * miss_ctx_state :=
  let '(addr, s) := netdev_dpdk_get_flow_miss_ctx mark s in
  (0, miss_ctx_store_at addr
        (fun d => mk_miss_ctx (mc_addr d) mark
                    (if has_ct then MARK_PREPROCESS_FLOW_CT
                     else MARK_PREPROCESS_FLOW)
                    (Body_flow (to_uint16 outer_id) (hw_id mod 4294967296)
                               is_port (in_port_ mod 4294967296))
                    (mc_rte_flow d)) s).

(** The loop runs over [mark_preprocess_info.mark_to_ct_ctx]; the node it
    finds is handed to [cmap_remove] on the file-scope [mark_to_ct_ctx]. *)
Definition netdev_dpdk_del_miss_ctx (mark : Z) (s : miss_ctx_state)
  : miss_ctx_state :=
  match netdev_dpdk_find_miss_ctx mark s with
  | Some data =>
      mk_miss_state
        (remove_first (fun d => mc_addr d =? mc_addr data) (mark_to_ct_ctx s))
        (mark_preprocess_info_mark_to_ct_ctx s)
        (miss_next_addr s)
  | None => s
  end.

(** The conntrack payload of the spec's round trip. *)
Record ct_payload : Type := mk_ct_payload
  { p_ct_mark : Z;
    p_ct_zone : Z;
    p_ct_state : Z;
    p_outer_id : Z }.

Definition ct_payload_of (d : mark_to_miss_ctx_data) : option ct_payload :=
  match mc_body d with
  | Body_ct a b c e => Some (mk_ct_payload a b c e)
  | Body_flow _ _ _ _ => None
  end.

(** The Ethernet item of a compiled pattern: the addresses and type with
    their masks when an address is masked, the match-any item otherwise. *)
Definition eth_item_view (m : match_) : item_view :=
  if negb (eth_addr_is_zero (dl_src (m_masks m)))
     || negb (eth_addr_is_zero (dl_dst (m_masks m)))
  then mk_item_view RTE_FLOW_ITEM_TYPE_ETH
         (Some (V_eth (mk_eth (dl_dst (m_flow m)) (dl_src (m_flow m))
                              (dl_type (m_flow m)))))
         (Some (V_eth (mk_eth (dl_dst (m_masks m)) (dl_src (m_masks m))
                              (dl_type (m_masks m)))))
  else mk_item_view RTE_FLOW_ITEM_TYPE_ETH None None.

(* ================================================================= *)
(** ** Vocabulary of the statements *)

(** Successive additions of handles to one identity record. *)
Fixpoint ufid_hw_offload_add_rte_flows (drv : driver)
  (hw_offload : ufid_hw_offload) (adds : list (rte_flow * netdev))
  : M ufid_hw_offload :=
  match adds with
  | [] => ret hw_offload
  | (fl, nd) :: rest =>
      hw' <- ufid_hw_offload_add_rte_flow drv hw_offload fl nd ;;
      ufid_hw_offload_add_rte_flows drv hw' rest
  end.

(** The world after one more driver call. *)
Definition world_logged (w : world) (e : hw_event) (next : rte_flow) : world :=
  mk_world (port_map w) (dpdk_phy_ports_amount w) (ufid_to_portid_map w)
           next (hw_log w ++ [e]).

Definition is_create (e : hw_event) : bool :=
  match e with
  | Ev_create _ _ _ _ _ => true
  | Ev_destroy _ _ _ => false
  end.

Definition is_destroy (e : hw_event) : bool := negb (is_create e).

(** The handle a destroy call names. *)
Definition destroyed_flow (e : hw_event) : option (netdev * rte_flow) :=
  match e with
  | Ev_destroy nd fl _ => Some (nd, fl)
  | Ev_create _ _ _ _ _ => None
  end.

(** The handle a successful create call returned. *)
Definition created_flow (e : hw_event) : option (netdev * rte_flow) :=
  match e with
  | Ev_create nd _ _ _ (Some fl) => Some (nd, fl)
  | _ => None
  end.

(** The destroy calls for a list of handles, made one after the other when
    the driver has received [log]. *)
Fixpoint destroy_events (drv : driver) (log : list hw_event)
  (flows : list (netdev * rte_flow)) : list hw_event :=
  match flows with
  | [] => []
  | (nd, fl) :: rest =>
      let e := Ev_destroy nd fl (drv_destroy drv log nd fl) in
      e :: destroy_events drv (log ++ [e]) rest
  end.

(** The handles the orchestrator has not given up after the calls of
    [log]: a handle counts from the create call that returned it to the
    first destroy call that names it.  This reads the calls only: the
    orchestrator forgets a handle at its destroy call whatever status the
    driver returns, and whether the driver released it is not recorded. *)
Fixpoint live_flows (log : list hw_event) (live : list rte_flow)
  : list rte_flow :=
  match log with
  | [] => live
  | Ev_create _ _ _ _ (Some fl) :: rest => live_flows rest (fl :: live)
  | Ev_create _ _ _ _ None :: rest => live_flows rest live
  | Ev_destroy _ fl _ :: rest =>
      live_flows rest (filter (fun x => negb (x =? fl)) live)
  end.

(** The identity record of [ufid] on the port [dp_port]. *)
Definition hw_offload_of (dp_port : odp_port_t) (ufid : ovs_u128) (w : world)
  : option ufid_hw_offload :=
  match netdev_rte_port_search dp_port (port_map w) with
  | Some p => ufid_hw_offload_find ufid (rp_ufid_to_rte p)
  | None => None
  end.

(** A computation all of whose runs relate the state before to the state
    after by [R]. *)
Definition relates {A : Type} (R : world -> world -> Prop) (m : M A) : Prop :=
  forall w, R w (snd (m w)).

(** The reverse map keeps what it holds for [ufid], when it holds a port. *)
Definition keeps_port_of (ufid : ovs_u128) (w w' : world) : Prop :=
  ufid_to_portid_search ufid (ufid_to_portid_map w) <> INVALID_ODP_PORT ->
  ufid_to_portid_map w' = ufid_to_portid_map w.

(** What a creation returns in state [w], and the state it leaves. *)
Definition create_result (drv : driver) (w : world) (nd : netdev)
  (attr : rte_flow_attr) (items : list item_view) (acts : list action_view)
  : option rte_flow :=
  if drv_create drv (hw_log w) nd attr items acts
  then Some (hw_next_flow w) else None.

Definition after_create (drv : driver) (w : world) (nd : netdev)
  (attr : rte_flow_attr) (items : list item_view) (acts : list action_view)
  : world :=
  world_logged w
    (Ev_create nd attr items acts (create_result drv w nd attr items acts))
    (if drv_create drv (hw_log w) nd attr items acts
     then hw_next_flow w + 1 else hw_next_flow w).

Definition set_hw_log (w : world) (log : list hw_event) : world :=
  mk_world (port_map w) (dpdk_phy_ports_amount w) (ufid_to_portid_map w)
           (hw_next_flow w) log.

(** A handle an event created is not below [n]. *)
Definition fresh_from (n : rte_flow) (e : hw_event) : bool :=
  match created_flow e with
  | Some (_, fl) => n <=? fl
  | None => true
  end.

(** From [w] to [w'] the driver received exactly the calls [cs], all of
    them creations returning handles the driver had not handed out in [w];
    the reverse map, the port count, the port numbers and every identity
    record are as in [w]. *)
Definition creates_only (w w' : world) (cs : list hw_event) : Prop :=
  ufid_to_portid_map w' = ufid_to_portid_map w /\
  dpdk_phy_ports_amount w' = dpdk_phy_ports_amount w /\
  map rp_dp_port (port_map w') = map rp_dp_port (port_map w) /\
  map rp_ufid_to_rte (port_map w') = map rp_ufid_to_rte (port_map w) /\
  hw_log w' = hw_log w ++ cs /\
  forallb is_create cs = true /\
  forallb (fresh_from (hw_next_flow w)) cs = true /\
  hw_next_flow w <= hw_next_flow w'.

(** The state before any port or flow is registered. *)
Definition world_init : world := mk_world [] 0 [] 1 [].

(* ================================================================= *)
(** ** Concrete inputs of the examples *)

(** A driver that accepts every flow and every destruction, on ports that
    are all uplinks with one receive queue. *)
Definition accepting_driver : driver :=
  mk_driver (fun _ _ _ _ _ => true) (fun _ _ _ => 0) (fun _ => true)
            (fun _ => 1).


(** An IPv4/UDP match on exact ports 1234 -> 53. *)
Definition udp_match : match_ :=
  mk_match
    (set_tp_dst (set_tp_src (set_nw_proto (set_dl_type flow_zero ETH_TYPE_IP)
                                          IPPROTO_UDP) 1234) 53)
    (set_tp_dst (set_tp_src (set_nw_proto (set_dl_type flow_zero 0xffff) 0xff)
                            OVS_BE16_MAX) OVS_BE16_MAX).

(** The same match, also on VLAN 100. *)
Definition vlan_udp_match : match_ :=
  mk_match (set_vlans0_tci (m_flow udp_match) 0x1064)
           (set_vlans0_tci (m_masks udp_match) 0x1fff).

(** An IPv4 match on protocol 47 (GRE) that still masks the source port. *)
Definition gre_ports_match : match_ :=
  mk_match
    (set_tp_src (set_nw_proto (set_dl_type flow_zero ETH_TYPE_IP) 47) 1234)
    (set_tp_src (set_nw_proto (set_dl_type flow_zero 0xffff) 0xff)
                OVS_BE16_MAX).

(** A physical port and a VXLAN tunnel port as [port_add] leaves them, with
    no flow and no default flow yet. *)
Definition phy_port (dp_port : odp_port_t) (nd : netdev) (dpdk_port_id : Z)
  : netdev_rte_port :=
  mk_rte_port dp_port dpdk_port_id nd RTE_PORT_TYPE_DPDK 0 4 0 []
              (repeat None (Z.to_nat RTE_FLOW_MAX_TABLES)).

Definition vxlan_port (dp_port : odp_port_t) (nd : netdev) : netdev_rte_port :=
  mk_rte_port dp_port 0 nd RTE_PORT_TYPE_VXLAN VXLAN_TABLE_ID 0 4294967040 []
              (repeat None (Z.to_nat RTE_FLOW_MAX_TABLES)).

(** One uplink (datapath port 1, netdev 101) and one tunnel port (datapath
    port 2, netdev 102). *)
Definition tunnel_pop_world : world :=
  mk_world [phy_port 1 101 0; vxlan_port 2 102] 1 [] 1 [].

(** A match on everything arriving on datapath port 1. *)
Definition port1_match : match_ :=
  mk_match (set_in_port flow_zero 1) flow_zero.

Definition the_ufid : ovs_u128 := (0, 7).

Definition the_info : offload_info := mk_info 5 false.

(** A driver that refuses the per-table default flow (priority 1 in a
    non-root group) and accepts everything else. *)
Definition no_default_flow_driver : driver :=
  mk_driver (fun _ _ attr _ _ =>
               negb ((attr_priority attr =? 1) && negb (attr_group attr =? 0)))
            (fun _ _ _ => 0) (fun _ => true) (fun _ => 4).

(** Three uplinks (datapath ports 1, 2, 3 on netdevs 101, 102, 103) and a
    tunnel port (datapath port 10, netdev 110). *)
Definition fan_out_world : world :=
  mk_world [phy_port 1 101 0; phy_port 2 102 1; phy_port 3 103 2;
            vxlan_port 10 110] 3 [] 1 [].

(** A driver that refuses every flow on the second uplink. *)
Definition uplink2_failing_driver : driver :=
  mk_driver (fun _ nd _ _ _ => negb (nd =? 102))
            (fun _ _ _ => 0) (fun _ => true) (fun _ => 4).

(** A match on IPv4 traffic of VNI 42 arriving on the tunnel port. *)
Definition vxlan_match : match_ :=
  mk_match
    (set_tunnel (set_dl_type (set_in_port flow_zero 10) ETH_TYPE_IP)
                (mk_flow_tnl 0x0a000002 0x0a000001 42 0 0 64 0 4789 0))
    (set_tunnel (set_dl_type flow_zero 0xffff)
                (mk_flow_tnl 0xffffffff 0xffffffff 0xffffffffffffffff
                             0 0 0 0 0 0)).

(** What a driver call was about: the netdev, the group and priority of a
    creation with its result, or the handle of a destruction. *)
Inductive call_summary : Type :=
| Created (nd : netdev) (group priority transfer : Z) (res : option rte_flow)
| Destroyed (nd : netdev) (fl : rte_flow).

Definition summary (e : hw_event) : call_summary :=
  match e with
  | Ev_create nd attr _ _ res =>
      Created nd (attr_group attr) (attr_priority attr) (attr_transfer attr) res
  | Ev_destroy nd fl _ => Destroyed nd fl
  end.

(** The state after a first put of [the_ufid] on port 1, outputting to
    port 1: the flow has handle 1, recorded for [the_ufid]. *)
Definition modified_world : world :=
  Eval vm_compute in
    snd (netdev_rte_offloads_flow_put accepting_driver 101 port1_match
           (Some [OVS_ACTION_ATTR_OUTPUT 1]) the_ufid the_info
           tunnel_pop_world).

Definition modified_port : netdev_rte_port :=
  Eval vm_compute in
    match netdev_rte_port_search 1 (port_map modified_world) with
    | Some p => p
    | None => phy_port 1 101 0
    end.


(** A match on everything arriving on datapath port 2. *)
Definition port2_match : match_ :=
  mk_match (set_in_port flow_zero 2) flow_zero.

(** A clone action: push a tunnel header of three bytes and output to
    datapath port 1. *)
Definition clone_actions : nl_actions_t :=
  Some [OVS_ACTION_ATTR_CLONE
          [OVS_ACTION_ATTR_TUNNEL_PUSH [1; 2; 3] 3; OVS_ACTION_ATTR_OUTPUT 1]].

(** The tunnel-port match, also matching on the packet mark. *)
Definition marked_vxlan_match : match_ :=
  mk_match (m_flow vxlan_match)
           (set_pkt_mark (m_masks vxlan_match) 0xffffffff).

(* ================================================================= *)
(** ** Vocabulary of the further statements *)

(** [INT_MAX] of [<limits.h>], the largest value of the [int] that holds
    the element counts, the allocated sizes and the reference counts. *)
Definition INT_MAX : Z := 2147483647.

(** Items appended to a pattern array, and actions to an action array, one
    call after the other. *)
Definition add_flow_pattern_seq (patterns : flow_patterns)
  (adds : list rte_flow_item) : flow_patterns :=
  fold_left (fun p i => add_flow_pattern p (item_type i) (item_spec i)
                                         (item_mask i))
            adds patterns.

Definition add_flow_action_seq (actions : flow_actions)
  (adds : list rte_flow_action) : flow_actions :=
  fold_left (fun a i => add_flow_action a (act_type i) (act_conf i))
            adds actions.

(** The allocation holds the elements in use, and it is the smallest of 8,
    16, 32, ... that does: it is 8, or less than twice the count. *)
Definition fits (cnt current_max : Z) : Prop :=
  0 < cnt <= current_max /\ (current_max = 8 \/ current_max < 2 * cnt) /\
  exists k : nat, current_max = 8 * 2 ^ Z.of_nat k.

(** The item the L4 step emits for a resolved protocol, if any. *)
Definition l4_item_type (proto : Z) : list rte_flow_item_type :=
  if proto =? IPPROTO_TCP then [RTE_FLOW_ITEM_TYPE_TCP]
  else if proto =? IPPROTO_UDP then [RTE_FLOW_ITEM_TYPE_UDP]
  else if proto =? IPPROTO_SCTP then [RTE_FLOW_ITEM_TYPE_SCTP]
  else if proto =? IPPROTO_ICMP then [RTE_FLOW_ITEM_TYPE_ICMP]
  else [].

(** The match masks a transport port or the TCP flags. *)
Definition masks_l4 (m : match_) : bool :=
  nonzero (tp_src (m_masks m)) || nonzero (tp_dst (m_masks m)) ||
  nonzero (tcp_flags (m_masks m)).

(** A transport port is masked, but not in full. *)
Definition partial_port_mask (m : match_) : bool :=
  (nonzero (tp_src (m_masks m)) && negb (tp_src (m_masks m) =? OVS_BE16_MAX)) ||
  (nonzero (tp_dst (m_masks m)) && negb (tp_dst (m_masks m) =? OVS_BE16_MAX)).

(** The match asks for a VLAN item. *)
Definition matches_vlan (m : match_) : bool :=
  nonzero (vlans0_tci (m_masks m)) && nonzero (vlans0_tci (m_flow m)).

Definition is_ipv4_item (v : item_view) : bool :=
  match view_type v with
  | RTE_FLOW_ITEM_TYPE_IPV4 => true
  | _ => false
  end.



(** A handle as the records keep it, beside the netdev it is stored with. *)
Definition as_recorded (a : rte_flow * netdev) : netdev * rte_flow :=
  (snd a, fst a).

(** The identity registry as a whole: for every registered port, in the
    order of [port_map], its datapath port number and its identity records. *)
Definition port_records (w : world)
  : list (odp_port_t * list ufid_hw_offload) :=
  map (fun p => (rp_dp_port p, rp_ufid_to_rte p)) (port_map w).

(** The identity record of a flow put that recorded the handle [fl]. *)
Definition single_record (ufid : ovs_u128) (nd : netdev) (fl : rte_flow)
  : ufid_hw_offload :=
  mk_hw_offload ufid 1 1 [mk_params (Some fl) nd].

(** The handles a flow put finds recorded for [ufid] on its ingress port. *)
Definition old_flows (ufid : ovs_u128) (dp_port : odp_port_t) (w : world)
  : list (netdev * rte_flow) :=
  match hw_offload_of dp_port ufid w with
  | Some old => recorded_flows old
  | None => []
  end.

(** The state the action scan of the VXLAN port function starts from. *)
Definition vxlan_scan_init : vxlan_locals :=
  mk_vx_locals 0 0 (mk_port_id 0 0) false.

(** The status a flow put on a VXLAN port returns, read off the registries
    alone: 0 without actions, -1 without a physical port, the error of the
    outer or of the inner pattern translation, and otherwise what the action
    scan leaves in [ret]. *)
Definition vxlan_put_status (w : world) (m : match_) (nl_actions : nl_actions_t)
  : Z :=
  if no_actions nl_actions then 0
  else if dpdk_phy_ports_amount w =? 0 then -1
  else
    let '(r, patterns, _, _) :=
      add_vport_vxlan_flow_patterns Slot_outer flow_patterns_init m in
    if nonzero r then r
    else
      let '(r, _, _, _) := add_flow_patterns Slot_inner patterns m in
      if nonzero r then r
      else vx_ret (vxlan_scan_actions (port_map w) (nl_attrs nl_actions)
                                      vxlan_scan_init).


(** [netdev_dpdk_outer_id_unref]: release a reference by outer-id, through
    the reverse map. *)
Definition netdev_dpdk_outer_id_unref (outer_id : Z) (s : tun_ctx_outer_id_t)
  : tun_ctx_outer_id_t :=
  match netdev_dpdk_tun_data_find outer_id s with
  | Some data =>
      netdev_dpdk_tun_outer_id_unref (td_ip_dst data) (td_ip_src data)
                                     (td_tun_id data) s
  | None => s
  end.

(** The calls that change the outer-id table, and the state a sequence of
    them leads to from the initial state of the program. *)
Inductive tun_op : Type :=
| Tun_get_ref (ip_dst ip_src tun_id : Z)
| Tun_unref (ip_dst ip_src tun_id : Z)
| Tun_unref_id (outer_id : Z).

Definition tun_step (s : tun_ctx_outer_id_t) (op : tun_op)
  : tun_ctx_outer_id_t :=
  match op with
  | Tun_get_ref ip_dst ip_src tun_id =>
      snd (netdev_dpdk_tun_id_get_ref ip_dst ip_src tun_id s)
  | Tun_unref ip_dst ip_src tun_id =>
      netdev_dpdk_tun_id_unref ip_dst ip_src tun_id s
  | Tun_unref_id outer_id => netdev_dpdk_outer_id_unref outer_id s
  end.

Definition tun_run (ops : list tun_op) : tun_ctx_outer_id_t :=
  fold_left tun_step ops tun_ctx_outer_id_init.

(** What identifies a node of either index: its outer-id and its 3-tuple. *)
Definition td_ident (d : tun_ctx_outer_id_data) : Z * (Z * Z * Z) :=
  (td_outer_id d, (td_ip_dst d, td_ip_src d, td_tun_id d)).

(** The outer-id table is well formed: the pool is the one this file
    creates; the two indexes hold the same identities in the same order; no
    outer-id and no 3-tuple occurs twice; every node of the forward index is
    referenced at least once and carries an id of the pool's range that the
    pool holds as allocated. *)
Definition tun_ctx_wf (s : tun_ctx_outer_id_t) : Prop :=
  match tun_pool s with
  | Some p => pool_base p = 1 /\ pool_n_ids p = MAX_OUTER_ID
  | None => tun_to_outer_id_map s = []
  end /\
  map td_ident (outer_id_to_tun_map s) = map td_ident (tun_to_outer_id_map s) /\
  Forall (fun d => td_ref_count d = 0) (outer_id_to_tun_map s) /\
  NoDup (map fst (map td_ident (tun_to_outer_id_map s))) /\
  NoDup (map snd (map td_ident (tun_to_outer_id_map s))) /\
  Forall (fun d => 1 <= td_ref_count d /\
                   1 <= td_outer_id d <= MAX_OUTER_ID /\
                   tun_id_allocated (td_outer_id d) s = true)
         (tun_to_outer_id_map s).

(** The calls that change the miss-context store, and the state a sequence
    of them leads to from the initial state of the program. *)
Inductive miss_op : Type :=
| Miss_save_ct (mark : Z) (flow : option rte_flow)
               (ct_mark_ ct_zone_ ct_state_ outer_id : Z) (reply : bool)
| Miss_save_flow (mark hw_id : Z) (is_port : bool) (outer_id in_port_ : Z)
                 (has_ct : bool)
| Miss_del (mark : Z).

Definition miss_step (s : miss_ctx_state) (op : miss_op) : miss_ctx_state :=
  match op with
  | Miss_save_ct mark flow a b c e reply =>
      snd (netdev_dpdk_save_ct_miss_ctx mark flow a b c e reply s)
  | Miss_save_flow mark hw_id is_port outer_id in_port_ has_ct =>
      snd (netdev_dpdk_save_flow_miss_ctx mark hw_id is_port outer_id in_port_
                                          has_ct s)
  | Miss_del mark => netdev_dpdk_del_miss_ctx mark s
  end.

Definition miss_run (ops : list miss_op) : miss_ctx_state :=
  fold_left miss_step ops miss_ctx_init.

Definition is_miss_save (op : miss_op) : bool :=
  match op with
  | Miss_del _ => false
  | _ => true
  end.


(* ================================================================= *)
(** ** Port registration *)

From Stdlib Require String.
Import String.StringSyntax.
Delimit Scope string_scope with string.

(** What the port functions take from files that are not at hand, as
    parameters: the type name of a netdev ([netdev_get_type]), its DPDK
    port id ([netdev_dpdk_get_port_id]), the first reserved mark
    ([MIN_RESERVED_MARK]), and whether [xzalloc] returns memory in a given
    state. *)
Record netdev_provider : Type := mk_provider
  { netdev_get_type : netdev -> String.string;
    netdev_dpdk_get_port_id : netdev -> Z;
    MIN_RESERVED_MARK : Z;
    xzalloc_returns : world -> bool }.

(** The calls the port functions make on the map [mark_to_rte_port], whose
    nodes are the [mark_node] members of the ports, and on the class of a
    netdev.  A port is named by its datapath number at the time of the
    call; the hash of a node is its exception mark. *)
Inductive port_call : Type :=
| Call_mark_insert (dp_port : odp_port_t) (exception_mark : Z)
| Call_mark_remove (dp_port : odp_port_t) (exception_mark : Z)
| Call_vxlan_init (netdev_ : netdev).

Definition set_dpdk_phy_ports_amount (w : world) (v : Z) : world :=
  mk_world (port_map w) v (ufid_to_portid_map w) (hw_next_flow w) (hw_log w).

(** A port as [xzalloc] and [cmap_init] leave it. *)
Definition rte_port_zeroed : netdev_rte_port :=
  mk_rte_port 0 0 0 RTE_PORT_TYPE_UNKNOWN 0 0 0 []
              (repeat None (Z.to_nat RTE_FLOW_MAX_TABLES)).

(** The three assignments after the label [next] of [netdev_rte_port_set]. *)
Definition rte_port_set_fields (netdev_ : netdev) (dp_port : odp_port_t)
  (port_type : rte_port_type) (p : netdev_rte_port) : netdev_rte_port :=
  mk_rte_port dp_port (rp_dpdk_port_id p) netdev_ port_type (rp_table_id p)
              (rp_dpdk_num_queues p) (rp_exception_mark p)
              (rp_ufid_to_rte p) (rp_default_rte_flow p).

Definition set_rp_dpdk (p : netdev_rte_port) (num_queues port_id : Z)
  : netdev_rte_port :=
  mk_rte_port (rp_dp_port p) port_id (rp_netdev p) (rp_rte_port_type p)
              (rp_table_id p) num_queues (rp_exception_mark p)
              (rp_ufid_to_rte p) (rp_default_rte_flow p).

Definition set_rp_vxlan (p : netdev_rte_port) (table_id exception_mark : Z)
  : netdev_rte_port :=
  mk_rte_port (rp_dp_port p) (rp_dpdk_port_id p) (rp_netdev p)
              (rp_rte_port_type p) table_id (rp_dpdk_num_queues p)
              exception_mark (rp_ufid_to_rte p) (rp_default_rte_flow p).

(** Vport netdev flow pointers are set to the userspace calls. *)
Definition netdev_rte_offloads_vxlan_init (netdev_ : netdev)
  : list port_call :=
  [Call_vxlan_init netdev_].

Section Ports.

Variable drv : driver.
Variable env : netdev_provider.

(** [#define VXLAN_EXCEPTION_MARK (MIN_RESERVED_MARK + 0)]. *)
Definition VXLAN_EXCEPTION_MARK : Z := MIN_RESERVED_MARK env + 0.

(** Allocate a new entry in port_map for dp_port (if not already allocated)
    and set it with netdev, dp_port and port_type parameters.  The second
    result is the output parameter [rte_port]: the port found or allocated,
    named by its datapath number, or NULL. *)
Definition netdev_rte_port_set (netdev_ : netdev) (dp_port : odp_port_t)
  (port_type : rte_port_type) : M (Z * option odp_port_t) :=
  w <- get_world ;;
  match netdev_rte_port_search dp_port (port_map w) with
  | Some _ =>
      port_modify dp_port (rte_port_set_fields netdev_ dp_port port_type) ;;;
      ret (0, Some dp_port)
  | None =>
      if xzalloc_returns env w
      then
        modify (fun w =>
                  set_port_map w
                    (rte_port_set_fields netdev_ dp_port port_type
                                         rte_port_zeroed :: port_map w)) ;;;
        ret (0, Some dp_port)
      else ret (ENOMEM, None)
  end.

(** Called when adding a new dpif netdev port.  The second result lists the
    calls on the mark map and on the netdev class. *)
Definition netdev_rte_offloads_port_add (netdev_ : netdev)
  (dp_port : odp_port_t) : M (Z * list port_call) :=
  let type := netdev_get_type env netdev_ in
  if String.eqb "dpdk" type
  then
    '(ret_, rte_port) <-
      netdev_rte_port_set netdev_ dp_port RTE_PORT_TYPE_DPDK ;;
    match rte_port with
    | None => ret (ret_, [])
    | Some rte_port =>
        port_modify rte_port
          (fun p => set_rp_dpdk p (to_uint16 (drv_n_rxq drv netdev_))
                      (to_uint16 (netdev_dpdk_get_port_id env netdev_))) ;;;
        modify (fun w =>
                  set_dpdk_phy_ports_amount w
                    ((dpdk_phy_ports_amount w + 1) mod 4294967296)) ;;;
        ret (ret_, [])
    end
  else if String.eqb "vxlan" type
  then
    '(ret_, rte_port) <-
      netdev_rte_port_set netdev_ dp_port RTE_PORT_TYPE_VXLAN ;;
    match rte_port with
    | None => ret (ret_, [])
    | Some rte_port =>
        let exception_mark := VXLAN_EXCEPTION_MARK mod 4294967296 in
        port_modify rte_port
          (fun p => set_rp_vxlan p VXLAN_TABLE_ID exception_mark) ;;;
        ret (ret_,
             Call_mark_insert rte_port exception_mark
             :: netdev_rte_offloads_vxlan_init netdev_)
    end
  else ret (0, []).

(** The cursor walks the identity records of the port in the order of the
    map. *)
Fixpoint netdev_rte_port_clean_all_loop (records : list ufid_hw_offload)
  : M unit :=
  match records with
  | [] => ret tt
  | data :: rest =>
      netdev_rte_port_ufid_hw_offload_free drv data ;;;
      netdev_rte_port_clean_all_loop rest
  end.

Definition netdev_rte_port_clean_all (rte_port : netdev_rte_port) : M unit :=
  netdev_rte_port_clean_all_loop (rp_ufid_to_rte rte_port).

Fixpoint del_default_rules_loop (rte_port : netdev_rte_port)
  (tables : list nat) : M unit :=
  match tables with
  | [] => ret tt
  | i :: rest =>
      match nth i (rp_default_rte_flow rte_port) None with
      | Some fl =>
          netdev_dpdk_rte_flow_destroy drv (rp_netdev rte_port) fl ;;;
          del_default_rules_loop rte_port rest
      | None => del_default_rules_loop rte_port rest
      end
  end.

(** Go over all the default rules and free if exists.  The port is out of
    [port_map] by then and freed next, so the NULL the loop stores in each
    entry is seen by nobody. *)
Definition netdev_rte_port_del_default_rules (rte_port : netdev_rte_port)
  : M unit :=
  del_default_rules_loop rte_port (seq 0 (Z.to_nat RTE_FLOW_MAX_TABLES)).

(** Called when deleting a dpif netdev port. *)
Definition netdev_rte_offloads_port_del (dp_port : odp_port_t)
  : M (Z * list port_call) :=
  w <- get_world ;;
  match netdev_rte_port_search dp_port (port_map w) with
  | None => ret (ENODEV, [])
  | Some rte_port =>
      netdev_rte_port_clean_all rte_port ;;;
      modify (fun w =>
                set_port_map w
                  (remove_first (fun d => rp_dp_port rte_port =? rp_dp_port d)
                                (port_map w))) ;;;
      match rp_rte_port_type rte_port with
      | RTE_PORT_TYPE_DPDK =>
          netdev_rte_port_del_default_rules rte_port ;;;
          modify (fun w =>
                    set_dpdk_phy_ports_amount w
                      ((dpdk_phy_ports_amount w - 1) mod 4294967296)) ;;;
          ret (0, [])
      | RTE_PORT_TYPE_VXLAN =>
          ret (0, [Call_mark_remove (rp_dp_port rte_port)
                                    (rp_exception_mark rte_port)])
      | RTE_PORT_TYPE_UNKNOWN => ret (0, [])
      end
  end.

Definition netdev_rte_offloads_flow_del (netdev_ : netdev) (ufid : ovs_u128)
  : M Z :=
  netdev_offloads_flow_del drv ufid.

Definition netdev_rte_vport_flow_del (netdev_ : netdev) (ufid : ovs_u128)
  : M Z :=
  netdev_offloads_flow_del drv ufid.

(** The requests the datapath makes of this file. *)
Inductive offload_op : Type :=
| Op_port_add (netdev_ : netdev) (dp_port : odp_port_t)
| Op_port_del (dp_port : odp_port_t)
| Op_flow_put (netdev_ : netdev) (m : match_) (actions : nl_actions_t)
              (ufid : ovs_u128) (info : offload_info)
| Op_flow_del (netdev_ : netdev) (ufid : ovs_u128)
| Op_vport_flow_put (m : match_) (actions : nl_actions_t) (ufid : ovs_u128)
                    (info : offload_info)
| Op_vport_flow_del (netdev_ : netdev) (ufid : ovs_u128).

Definition offload_step (w : world) (op : offload_op) : world :=
  match op with
  | Op_port_add netdev_ dp_port =>
      snd (netdev_rte_offloads_port_add netdev_ dp_port w)
  | Op_port_del dp_port => snd (netdev_rte_offloads_port_del dp_port w)
  | Op_flow_put netdev_ m actions ufid info =>
      snd (netdev_rte_offloads_flow_put drv netdev_ m actions ufid info w)
  | Op_flow_del netdev_ ufid =>
      snd (netdev_rte_offloads_flow_del netdev_ ufid w)
  | Op_vport_flow_put m actions ufid info =>
      snd (netdev_rte_vport_flow_put drv m actions ufid info w)
  | Op_vport_flow_del netdev_ ufid =>
      snd (netdev_rte_vport_flow_del netdev_ ufid w)
  end.

(** The state after a sequence of requests, from the state before any port
    or flow is registered. *)
Definition offload_run (ops : list offload_op) : world :=
  fold_left offload_step ops world_init.

End Ports.

(** The port type [netdev_rte_offloads_port_add] gives a netdev of a given
    type name; other names are not registered. *)
Definition port_type_of_name (type : String.string) : rte_port_type :=
  if String.eqb "dpdk" type then RTE_PORT_TYPE_DPDK
  else if String.eqb "vxlan" type then RTE_PORT_TYPE_VXLAN
  else RTE_PORT_TYPE_UNKNOWN.

(** The default flows a port holds, by table. *)
Definition default_flows (p : netdev_rte_port) : list (netdev * rte_flow) :=
  flat_map (fun i => match nth i (rp_default_rte_flow p) None with
                     | Some fl => [(rp_netdev p, fl)]
                     | None => []
                     end)
           (seq 0 (Z.to_nat RTE_FLOW_MAX_TABLES)).

(** The port [netdev_rte_offloads_port_add] leaves for a netdev, from the
    port [p] it found or allocated. *)
Definition port_as_added (drv : driver) (env : netdev_provider)
  (netdev_ : netdev) (dp_port : odp_port_t) (p : netdev_rte_port)
  : netdev_rte_port :=
  match port_type_of_name (netdev_get_type env netdev_) with
  | RTE_PORT_TYPE_DPDK =>
      set_rp_dpdk (rte_port_set_fields netdev_ dp_port RTE_PORT_TYPE_DPDK p)
                  (to_uint16 (drv_n_rxq drv netdev_))
                  (to_uint16 (netdev_dpdk_get_port_id env netdev_))
  | RTE_PORT_TYPE_VXLAN =>
      set_rp_vxlan (rte_port_set_fields netdev_ dp_port RTE_PORT_TYPE_VXLAN p)
                   VXLAN_TABLE_ID (VXLAN_EXCEPTION_MARK env mod 4294967296)
  | RTE_PORT_TYPE_UNKNOWN => p
  end.

(** The port whose fields a registration of [dp_port] keeps: the one
    registered, or a zeroed one. *)
Definition port_before_add (dp_port : odp_port_t) (w : world)
  : netdev_rte_port :=
  match netdev_rte_port_search dp_port (port_map w) with
  | Some p => p
  | None => rte_port_zeroed
  end.

(** The same datapath numbers are registered, in the same order. *)
Definition same_dp_ports (w w' : world) : Prop :=
  map rp_dp_port (port_map w') = map rp_dp_port (port_map w).

(** Netdevs 102 and 105 are VXLAN tunnel netdevs, 104 is a tap device, the
    others are DPDK netdevs with port ids counted from netdev 101; memory
    is always available. *)
Definition example_provider : netdev_provider :=
  mk_provider
    (fun nd => if (nd =? 102) || (nd =? 105) then "vxlan"
               else if nd =? 104 then "tap" else "dpdk")%string
    (fun nd => nd - 101) 4294967040 (fun _ => true).

(** The same netdevs when no memory is available. *)
Definition exhausted_provider : netdev_provider :=
  mk_provider (netdev_get_type example_provider)
              (netdev_dpdk_get_port_id example_provider)
              (MIN_RESERVED_MARK example_provider) (fun _ => false).

(* ================================================================= *)
(** * Properties *)

(** ** List-backed maps *)

Lemma find_update_first_same {A : Type} (p : A -> bool) (f : A -> A)
  (l : list A) (x : A) :
  find p l = Some x -> p (f x) = true ->
  find p (update_first p f l) = Some (f x).
Proof.
  induction l as [|y t IH]; simpl; intros Hf Hp; [discriminate|].
  destruct (p y) eqn:E.
  - inversion Hf; subst. simpl. now rewrite Hp.
  - simpl. rewrite E. auto.
Qed.

Lemma find_none_update_first {A : Type} (p q : A -> bool) (f : A -> A)
  (l : list A) :
  (forall x, p (f x) = p x) ->
  find p l = None -> find p (update_first q f l) = None.
Proof.
  intros Hp. induction l as [|y t IH]; simpl; intros Hf; [reflexivity|].
  destruct (p y) eqn:E; [discriminate|].
  destruct (q y); simpl.
  - rewrite Hp, E. exact Hf.
  - rewrite E. auto.
Qed.

Lemma id_in_filter_neq (id : Z) (l : list Z) :
  id_in id (filter (fun x => negb (x =? id)) l) = false.
Proof.
  unfold id_in. induction l as [|y t IH]; simpl; [reflexivity|].
  destruct (y =? id) eqn:E; simpl; [exact IH|].
  rewrite IH. rewrite Z.eqb_sym, E. reflexivity.
Qed.

(** ** Tunnel outer-id contexts *)

Lemma id_pool_scan_fresh (used : list Z) (fuel : nat) (cand id : Z) :
  id_pool_scan used fuel cand = Some id -> id_in id used = false.
Proof.
  revert cand. induction fuel as [|n IH]; simpl; intros cand H; [discriminate|].
  destruct (id_in cand used) eqn:E.
  - eauto.
  - inversion H; subst. exact E.
Qed.

Lemma id_pool_alloc_id_fresh (pool pool' : id_pool) (id : Z) :
  id_pool_alloc_id pool = Some (id, pool') ->
  id_in id (pool_used pool) = false /\
  pool' = mk_pool (pool_base pool) (pool_n_ids pool) (id :: pool_used pool).
Proof.
  unfold id_pool_alloc_id.
  destruct (id_pool_scan _ _ _) as [i|] eqn:E; [|discriminate].
  intros H; inversion H; subst. split; [|reflexivity].
  eapply id_pool_scan_fresh; eassumption.
Qed.

Lemma tun_key_eqb_refl (ip_dst ip_src tun_id outer_id ref : Z) :
  tun_key_eqb ip_dst ip_src tun_id
    (mk_tun_data outer_id ip_dst ip_src tun_id ref) = true.
Proof. unfold tun_key_eqb; simpl. now rewrite !Z.eqb_refl. Qed.

Lemma find_outer_id_not_allocated (id : Z) (used : list Z)
  (l : list tun_ctx_outer_id_data) :
  forallb (fun d => id_in (td_outer_id d) used) l = true ->
  id_in id used = false ->
  find (fun data => td_outer_id data =? id) l = None.
Proof.
  intros Hall Hid. induction l as [|d t IH]; simpl in *; [reflexivity|].
  apply andb_true_iff in Hall as [Hd Ht].
  destruct (td_outer_id d =? id) eqn:E.
  - apply Z.eqb_eq in E. congruence.
  - auto.
Qed.

Lemma consistent_without_pool (s : tun_ctx_outer_id_t) :
  tun_ctx_consistent s = true -> tun_pool s = None ->
  outer_id_to_tun_map s = [] /\ tun_to_outer_id_map s = [].
Proof.
  unfold tun_ctx_consistent, tun_id_allocated. intros H Hp. rewrite Hp in H.
  apply andb_true_iff in H as [H1 H2].
  destruct (outer_id_to_tun_map s); [|discriminate].
  destruct (tun_to_outer_id_map s); [|discriminate]. auto.
Qed.

(** C7.  Two allocations against one tunnel 3-tuple that the forward map
    does not hold yet, the first of which obtains an id from the pool: the
    second returns the same outer-id and the reference count is 2; after one
    unref the count is 1, the id is still allocated and both index entries
    are still there; after the second unref the id is back in the pool and
    neither the forward nor the reverse map holds an entry. *)
Theorem tun_outer_id_shared_reference
  (ip_dst ip_src tun_id : Z) (s : tun_ctx_outer_id_t) :
  tun_ctx_consistent s = true ->
  tun_to_outer_id_find ip_dst ip_src tun_id s = None ->
  fst (netdev_dpdk_tun_id_get_ref ip_dst ip_src tun_id s) <> INVALID_OUTER_ID ->
  let '(id1, s1) := netdev_dpdk_tun_id_get_ref ip_dst ip_src tun_id s in
  let '(id2, s2) := netdev_dpdk_tun_id_get_ref ip_dst ip_src tun_id s1 in
  let s3 := netdev_dpdk_tun_outer_id_unref ip_dst ip_src tun_id s2 in
  let s4 := netdev_dpdk_tun_outer_id_unref ip_dst ip_src tun_id s3 in
  id2 = id1 /\
  tun_ref_count ip_dst ip_src tun_id s1 = Some 1 /\
  tun_ref_count ip_dst ip_src tun_id s2 = Some 2 /\
  (tun_ref_count ip_dst ip_src tun_id s3 = Some 1 /\
   tun_id_allocated id1 s3 = true /\
   option_map td_outer_id (tun_to_outer_id_find ip_dst ip_src tun_id s3)
     = Some id1 /\
   netdev_dpdk_tun_data_find id1 s3
     = Some (mk_tun_data id1 ip_dst ip_src tun_id 0)) /\
  (tun_id_allocated id1 s4 = false /\
   tun_to_outer_id_find ip_dst ip_src tun_id s4 = None /\
   netdev_dpdk_tun_data_find id1 s4 = None).
Proof.
  intros Hcons Hnew Hvalid.
  unfold netdev_dpdk_tun_id_get_ref at 1.
  unfold netdev_dpdk_tun_id_get_ref in Hvalid.
  unfold netdev_dpdk_tun_outer_id_get_ref at 1.
  unfold netdev_dpdk_tun_outer_id_get_ref in Hvalid.
  rewrite Hnew in *. rewrite Z.eqb_refl in *.
  unfold netdev_dpdk_tun_outer_id_alloc in *.
  set (pool := match tun_pool s with
               | Some p => p
               | None => id_pool_create 1 MAX_OUTER_ID
               end) in *.
  destruct (id_pool_alloc_id pool) as [[id pool']|] eqn:Ealloc;
    [|simpl in Hvalid; congruence].
  simpl in Hvalid.
  apply id_pool_alloc_id_fresh in Ealloc as [Hfresh ->].
  assert (Hrev : find (fun data => td_outer_id data =? id)
                      (outer_id_to_tun_map s) = None).
  { destruct (tun_pool s) as [p|] eqn:Ep.
    - subst pool. unfold tun_ctx_consistent, tun_id_allocated in Hcons.
      rewrite Ep in Hcons. apply andb_true_iff in Hcons as [H1 _].
      eapply find_outer_id_not_allocated; eassumption.
    - destruct (consistent_without_pool s Hcons Ep) as [-> _]. reflexivity. }
  assert (Hne : (id =? INVALID_OUTER_ID) = false) by now apply Z.eqb_neq.
  unfold netdev_dpdk_tun_data_insert, netdev_dpdk_tun_id_get_ref,
    netdev_dpdk_tun_outer_id_get_ref, netdev_dpdk_tun_outer_id_unref,
    netdev_dpdk_tun_data_del, netdev_dpdk_tun_data_find, tun_ref_count,
    tun_id_allocated, tun_to_outer_id_find, td_add_ref.
  repeat (progress (simpl; rewrite ?tun_key_eqb_refl, ?Z.eqb_refl, ?Hne)).
  rewrite id_in_filter_neq.
  repeat split; try reflexivity; [exact Hnew | exact Hrev].
Qed.

Lemma tun_outer_id_shared_reference_witness :
  tun_ctx_consistent tun_ctx_outer_id_init = true /\
  let '(id1, s1) :=
    netdev_dpdk_tun_id_get_ref 0x0a000002 0x0a000001 42
                               tun_ctx_outer_id_init in
  let '(id2, s2) := netdev_dpdk_tun_id_get_ref 0x0a000002 0x0a000001 42 s1 in
  let s3 := netdev_dpdk_tun_outer_id_unref 0x0a000002 0x0a000001 42 s2 in
  let s4 := netdev_dpdk_tun_outer_id_unref 0x0a000002 0x0a000001 42 s3 in
  id2 = id1 /\
  tun_ref_count 0x0a000002 0x0a000001 42 s1 = Some 1 /\
  tun_ref_count 0x0a000002 0x0a000001 42 s2 = Some 2 /\
  (tun_ref_count 0x0a000002 0x0a000001 42 s3 = Some 1 /\
   tun_id_allocated id1 s3 = true /\
   option_map td_outer_id
     (tun_to_outer_id_find 0x0a000002 0x0a000001 42 s3) = Some id1 /\
   netdev_dpdk_tun_data_find id1 s3
   = Some (mk_tun_data id1 0x0a000002 0x0a000001 42 0)) /\
  (tun_id_allocated id1 s4 = false /\
   tun_to_outer_id_find 0x0a000002 0x0a000001 42 s4 = None /\
   netdev_dpdk_tun_data_find id1 s4 = None).
Proof.
  split; [reflexivity|].
  apply (tun_outer_id_shared_reference 0x0a000002 0x0a000001 42
           tun_ctx_outer_id_init).
  - reflexivity.
  - reflexivity.
  - vm_compute. discriminate.
Defined.

(** ** Miss-context store *)

(** Nothing ever inserts into [mark_preprocess_info.mark_to_ct_ctx]: each
    operation leaves it empty. *)
Lemma save_ct_keeps_info_map_empty (mark : Z) (flow : option rte_flow)
  (a b c e : Z) (reply : bool) (s : miss_ctx_state) :
  mark_preprocess_info_mark_to_ct_ctx s = [] ->
  mark_preprocess_info_mark_to_ct_ctx
    (snd (netdev_dpdk_save_ct_miss_ctx mark flow a b c e reply s)) = [].
Proof.
  intros H. unfold netdev_dpdk_save_ct_miss_ctx, netdev_dpdk_get_flow_miss_ctx,
    netdev_dpdk_find_miss_ctx. rewrite H. simpl.
  destruct (miss_ctx_load _ _) as [d|]; [|reflexivity].
  destruct (is_some _); reflexivity.
Qed.

Lemma save_flow_keeps_info_map_empty (mark hw_id : Z) (is_port : bool)
  (outer_id in_port_ : Z) (has_ct : bool) (s : miss_ctx_state) :
  mark_preprocess_info_mark_to_ct_ctx s = [] ->
  mark_preprocess_info_mark_to_ct_ctx
    (snd (netdev_dpdk_save_flow_miss_ctx mark hw_id is_port outer_id in_port_
                                         has_ct s)) = [].
Proof.
  intros H. unfold netdev_dpdk_save_flow_miss_ctx,
    netdev_dpdk_get_flow_miss_ctx, netdev_dpdk_find_miss_ctx.
  rewrite H. reflexivity.
Qed.

Lemma del_keeps_info_map_empty (mark : Z) (s : miss_ctx_state) :
  mark_preprocess_info_mark_to_ct_ctx s = [] ->
  mark_preprocess_info_mark_to_ct_ctx (netdev_dpdk_del_miss_ctx mark s) = [].
Proof.
  intros H. unfold netdev_dpdk_del_miss_ctx, netdev_dpdk_find_miss_ctx.
  rewrite H. simpl. exact H.
Qed.

(** With that map empty, a lookup finds nothing, whatever was saved. *)
Lemma find_miss_ctx_after_save_ct (mark m : Z) (flow : option rte_flow)
  (a b c e : Z) (reply : bool) (s : miss_ctx_state) :
  mark_preprocess_info_mark_to_ct_ctx s = [] ->
  netdev_dpdk_find_miss_ctx m
    (snd (netdev_dpdk_save_ct_miss_ctx mark flow a b c e reply s)) = None.
Proof.
  intros H. unfold netdev_dpdk_find_miss_ctx.
  now rewrite save_ct_keeps_info_map_empty.
Qed.

(** C2, at the spec's own example.  Saving the conntrack payload with zone 3
    under mark 7 in the initial store succeeds and the payload sits in a node
    of the file-scope map, yet the lookup of mark 7, which reads the other
    map, finds nothing.  The deletion of mark 7 looks into that other map
    too, so it leaves the node where it is. *)
Theorem miss_ctx_save_then_find_misses :
  let '(r, s) :=
    netdev_dpdk_save_ct_miss_ctx 7 (Some 1) 5 3 2 0 false miss_ctx_init in
  r = 0 /\
  option_map ct_payload_of
    (find (fun d => mc_mark d =? 7) (mark_to_ct_ctx s))
    = Some (Some (mk_ct_payload 5 3 2 0)) /\
  netdev_dpdk_find_miss_ctx 7 s = None /\
  netdev_dpdk_find_miss_ctx 7 (netdev_dpdk_del_miss_ctx 7 s) = None /\
  netdev_dpdk_del_miss_ctx 7 s = s.
Proof. vm_compute. repeat split. Qed.

(** ** Pattern compiler *)

Lemma nonzero_false_iff (z : Z) : nonzero z = false <-> z = 0.
Proof.
  unfold nonzero. destruct (z =? 0) eqn:E; simpl.
  - apply Z.eqb_eq in E. tauto.
  - apply Z.eqb_neq in E. split; [discriminate | tauto].
Qed.

Lemma nonzero_true_iff (z : Z) : nonzero z = true <-> z <> 0.
Proof.
  unfold nonzero. destruct (z =? 0) eqn:E; simpl.
  - apply Z.eqb_eq in E. split; [discriminate | tauto].
  - apply Z.eqb_neq in E. tauto.
Qed.

Lemma port_mask_accepted (mask : Z) :
  mask = 0 \/ mask = OVS_BE16_MAX ->
  nonzero mask && negb (mask =? OVS_BE16_MAX) = false.
Proof. intros [-> | ->]; reflexivity. Qed.

(** C6.  When the resolved protocol is none of ICMP, UDP, SCTP and TCP and
    the match masks the transport source port, the transport destination
    port or the TCP flags, the pattern translation returns the error -1, the
    compiled item array does not exist and [netdev_rte_offloads_add_flow]
    gives up before any driver call. *)
Theorem add_flow_patterns_rejects_unsupported_l4
  (drv : driver) (slot : items_slot) (patterns : flow_patterns) (m : match_) :
  resolved_proto m <> IPPROTO_ICMP ->
  resolved_proto m <> IPPROTO_UDP ->
  resolved_proto m <> IPPROTO_SCTP ->
  resolved_proto m <> IPPROTO_TCP ->
  tp_src (m_masks m) <> 0 \/ tp_dst (m_masks m) <> 0 \/
  tcp_flags (m_masks m) <> 0 ->
  fst (fst (fst (add_flow_patterns slot patterns m))) = -1 /\
  add_flow_compile_patterns m = None /\
  forall nd nl_actions ufid info w,
    netdev_rte_offloads_add_flow drv nd m nl_actions ufid info w
    = (None, info, w).
Proof.
  intros Hi Hu Hs Ht Hmask.
  assert (Hports : nonzero (tp_src (m_masks m)) || nonzero (tp_dst (m_masks m))
                   || nonzero (tcp_flags (m_masks m)) = true).
  { destruct Hmask as [H | [H | H]]; apply nonzero_true_iff in H; rewrite H;
      rewrite ?orb_true_r, ?orb_true_l; reflexivity. }
  assert (Hpat : forall sl p, fst (fst (fst (add_flow_patterns sl p m))) = -1).
  { intros sl p. unfold add_flow_patterns, resolved_proto in *.
    destruct (negb (eth_addr_is_zero (dl_src (m_masks m)))
              || negb (eth_addr_is_zero (dl_dst (m_masks m))));
      destruct (nonzero (vlans0_tci (m_masks m))
                && nonzero (vlans0_tci (m_flow m)));
      destruct (dl_type (m_flow m) =? ETH_TYPE_IP); cbv zeta beta iota;
      cbn [fi_ipv4 next_proto_id set_fi_ipv4];
      apply Z.eqb_neq in Hi, Hu, Hs, Ht; rewrite Hi, Hu, Hs, Ht, Hports;
      reflexivity. }
  split; [apply Hpat|].
  assert (Hc : add_flow_compile_patterns m = None).
  { unfold add_flow_compile_patterns.
    specialize (Hpat Slot_inner flow_patterns_init).
    destruct (add_flow_patterns Slot_inner flow_patterns_init m)
      as [[[r p] sp] mk]. simpl in Hpat. subst r. reflexivity. }
  split; [exact Hc|].
  intros. unfold netdev_rte_offloads_add_flow. rewrite Hc. reflexivity.
Qed.

Lemma add_flow_patterns_rejects_unsupported_l4_witness :
  fst (fst (fst (add_flow_patterns Slot_inner flow_patterns_init
                                   gre_ports_match))) = -1 /\
  add_flow_compile_patterns gre_ports_match = None.
Proof.
  destruct (add_flow_patterns_rejects_unsupported_l4
              accepting_driver Slot_inner flow_patterns_init gre_ports_match)
    as [H1 [H2 _]].
  1-4: vm_compute; discriminate.
  - left. vm_compute. discriminate.
  - split; assumption.
Defined.

(** C5, as stated, fails: an IPv4/UDP match with exact ports that also
    matches a VLAN tag compiles to five items, with a VLAN item between the
    Ethernet and the IPv4 item. *)
Lemma udp_patterns_with_vlan_counterexample :
  dl_type (m_flow vlan_udp_match) = ETH_TYPE_IP /\
  resolved_proto vlan_udp_match = IPPROTO_UDP /\
  tp_src (m_masks vlan_udp_match) = OVS_BE16_MAX /\
  tp_dst (m_masks vlan_udp_match) = OVS_BE16_MAX /\
  option_map (map view_type) (add_flow_compile_patterns vlan_udp_match)
  = Some [RTE_FLOW_ITEM_TYPE_ETH; RTE_FLOW_ITEM_TYPE_VLAN;
          RTE_FLOW_ITEM_TYPE_IPV4; RTE_FLOW_ITEM_TYPE_UDP;
          RTE_FLOW_ITEM_TYPE_END] /\
  option_map (map view_type) (add_flow_compile_patterns vlan_udp_match)
  <> Some [RTE_FLOW_ITEM_TYPE_ETH; RTE_FLOW_ITEM_TYPE_IPV4;
           RTE_FLOW_ITEM_TYPE_UDP; RTE_FLOW_ITEM_TYPE_END].
Proof. vm_compute. repeat split; discriminate. Qed.

(** C5, amended.  For a match whose ethertype is IPv4, whose resolved
    protocol is UDP, which does not match a VLAN tag (the TCI or its mask is
    zero) and whose transport port masks are each absent or full-width, the
    compiled pattern is exactly ETH, IPV4, UDP, END; the IPv4 item carries
    the match's tos, ttl, protocol and addresses, and its mask has the
    next-protocol byte cleared to zero. *)
Theorem udp_patterns_exact (m : match_) :
  dl_type (m_flow m) = ETH_TYPE_IP ->
  resolved_proto m = IPPROTO_UDP ->
  vlans0_tci (m_masks m) = 0 \/ vlans0_tci (m_flow m) = 0 ->
  tp_src (m_masks m) = 0 \/ tp_src (m_masks m) = OVS_BE16_MAX ->
  tp_dst (m_masks m) = 0 \/ tp_dst (m_masks m) = OVS_BE16_MAX ->
  add_flow_compile_patterns m
  = Some [ eth_item_view m;
           mk_item_view RTE_FLOW_ITEM_TYPE_IPV4
             (Some (V_ipv4 (mk_ipv4 (nw_tos (m_flow m)) (nw_ttl (m_flow m))
                                    (nw_proto (m_flow m)) (nw_src (m_flow m))
                                    (nw_dst (m_flow m)))))
             (Some (V_ipv4 (mk_ipv4 (nw_tos (m_masks m)) (nw_ttl (m_masks m))
                                    0 (nw_src (m_masks m))
                                    (nw_dst (m_masks m)))));
           mk_item_view RTE_FLOW_ITEM_TYPE_UDP
             (Some (V_l4 (L4_udp (mk_udp (tp_src (m_flow m))
                                         (tp_dst (m_flow m))))))
             (Some (V_l4 (L4_udp (mk_udp (tp_src (m_masks m))
                                         (tp_dst (m_masks m))))));
           mk_item_view RTE_FLOW_ITEM_TYPE_END None None ].
Proof.
  intros Hip Hudp Hvlan Hsrc Hdst.
  unfold add_flow_compile_patterns, add_flow_patterns, eth_item_view.
  unfold resolved_proto in Hudp. rewrite Hip in *.
  rewrite Z.eqb_refl in *.
  assert (Hv : nonzero (vlans0_tci (m_masks m))
               && nonzero (vlans0_tci (m_flow m)) = false).
  { destruct Hvlan as [-> | ->]; simpl; auto using andb_false_r. }
  rewrite Hv.
  destruct (negb (eth_addr_is_zero (dl_src (m_masks m)))
            || negb (eth_addr_is_zero (dl_dst (m_masks m))));
    cbv zeta beta iota; cbn [fi_ipv4 next_proto_id set_fi_ipv4];
    rewrite Hudp; rewrite (port_mask_accepted _ Hsrc);
    rewrite (port_mask_accepted _ Hdst); reflexivity.
Qed.

Lemma udp_patterns_exact_witness :
  option_map (map view_type) (add_flow_compile_patterns udp_match)
  = Some [RTE_FLOW_ITEM_TYPE_ETH; RTE_FLOW_ITEM_TYPE_IPV4;
          RTE_FLOW_ITEM_TYPE_UDP; RTE_FLOW_ITEM_TYPE_END].
Proof.
  rewrite (udp_patterns_exact udp_match);
    [ reflexivity
    | reflexivity
    | reflexivity
    | left; reflexivity
    | right; reflexivity
    | right; reflexivity ].
Defined.

(** ** Stateful computations *)

Section Relates.

Context (R : world -> world -> Prop).
Hypothesis R_refl : forall w, R w w.
Hypothesis R_trans : forall a b c, R a b -> R b c -> R a c.

Lemma relates_ret {A : Type} (a : A) : relates R (ret a).
Proof. intros w. apply R_refl. Qed.

Lemma relates_get_world : relates R get_world.
Proof. intros w. apply R_refl. Qed.

Lemma relates_bind {A B : Type} (m : M A) (k : A -> M B) :
  relates R m -> (forall a, relates R (k a)) -> relates R (bind m k).
Proof.
  intros Hm Hk w. unfold bind. specialize (Hm w).
  destruct (m w) as [a w1]. simpl in Hm.
  eapply R_trans; [exact Hm | apply Hk].
Qed.

Lemma relates_modify (f : world -> world) :
  (forall w, R w (f w)) -> relates R (modify f).
Proof. intros H w. apply H. Qed.

End Relates.

(** One step of a proof that a monadic program is in a relation: peel a
    bind, or split on the scrutinee the program branches on. *)
Ltac relates_step Hrefl Htrans :=
  match goal with
  | |- relates _ (ret _) => apply relates_ret; exact Hrefl
  | |- relates _ get_world => apply relates_get_world; exact Hrefl
  | |- relates _ (bind _ _) =>
      apply relates_bind; [exact Htrans | | intros ?]
  | |- relates _ (match ?x with _ => _ end) => destruct x eqn:?
  | |- relates _ (let (_, _) := ?x in _) => destruct x eqn:?
  end.

(** ** Flow identity records *)

Section IdentityRecords.

Variable drv : driver.

Lemma destroy_eq (nd : netdev) (fl : rte_flow) (w : world) :
  netdev_dpdk_rte_flow_destroy drv nd fl w
  = (drv_destroy drv (hw_log w) nd fl,
     world_logged w (Ev_destroy nd fl (drv_destroy drv (hw_log w) nd fl))
                  (hw_next_flow w)).
Proof. reflexivity. Qed.

Lemma add_rte_flow_invariant (hw : ufid_hw_offload) (fl : rte_flow)
  (nd : netdev) (w : world) :
  0 <= curr_idx hw <= max_flows hw ->
  let hw' := fst (ufid_hw_offload_add_rte_flow drv hw fl nd w) in
  max_flows hw' = max_flows hw /\ hw_ufid hw' = hw_ufid hw /\
  0 <= curr_idx hw' <= max_flows hw'.
Proof.
  intros H. unfold ufid_hw_offload_add_rte_flow.
  destruct (curr_idx hw <? max_flows hw) eqn:E; simpl.
  - apply Z.ltb_lt in E. repeat split; lia.
  - repeat split; lia.
Qed.

Lemma add_rte_flows_invariant (adds : list (rte_flow * netdev)) :
  forall (hw : ufid_hw_offload) (w : world),
    0 <= curr_idx hw <= max_flows hw ->
    let hw' := fst (ufid_hw_offload_add_rte_flows drv hw adds w) in
    max_flows hw' = max_flows hw /\ 0 <= curr_idx hw' <= max_flows hw'.
Proof.
  induction adds as [|[fl nd] rest IH]; intros hw w H; simpl.
  - split; [reflexivity | exact H].
  - unfold bind.
    pose proof (add_rte_flow_invariant hw fl nd w H) as Hstep.
    destruct (ufid_hw_offload_add_rte_flow drv hw fl nd w) as [hw1 w1].
    simpl in Hstep. destruct Hstep as [Hm [_ Hc]].
    specialize (IH hw1 w1 Hc). simpl in IH. rewrite Hm in IH. exact IH.
Qed.

(** An addition to a full record changes nothing in the record and hands
    the handle to the driver's destroy entry point at once. *)
Lemma add_rte_flow_when_full (hw : ufid_hw_offload) (fl : rte_flow)
  (nd : netdev) (w : world) :
  curr_idx hw = max_flows hw ->
  ufid_hw_offload_add_rte_flow drv hw fl nd w
  = (hw, world_logged w (Ev_destroy nd fl (drv_destroy drv (hw_log w) nd fl))
                      (hw_next_flow w)).
Proof.
  intros H. unfold ufid_hw_offload_add_rte_flow.
  rewrite H, Z.ltb_irrefl. reflexivity.
Qed.

(** C8.  A record created with capacity [capacity] and then offered any
    sequence of handles keeps that capacity and a fill count between 0 and
    it; and when the fill count has reached the capacity, one more handle is
    not recorded (the record is returned as it was) but goes straight to the
    driver's flow_destroy, the only effect on the state. *)
Theorem ufid_hw_offload_fill_bounded (capacity : Z) (ufid : ovs_u128)
  (adds : list (rte_flow * netdev)) (fl : rte_flow) (nd : netdev) (w : world) :
  0 <= capacity ->
  let '(hw, w1) :=
    ufid_hw_offload_add_rte_flows drv
      (netdev_rte_port_ufid_hw_offload_alloc capacity ufid) adds w in
  max_flows hw = capacity /\
  0 <= curr_idx hw <= capacity /\
  (curr_idx hw = max_flows hw ->
   ufid_hw_offload_add_rte_flow drv hw fl nd w1
   = (hw,
      world_logged w1 (Ev_destroy nd fl (drv_destroy drv (hw_log w1) nd fl))
                   (hw_next_flow w1))).
Proof.
  intros Hcap.
  pose proof (add_rte_flows_invariant adds
                (netdev_rte_port_ufid_hw_offload_alloc capacity ufid) w) as H.
  simpl in H. specialize (H (conj (Z.le_refl 0) Hcap)).
  destruct (ufid_hw_offload_add_rte_flows drv _ adds w) as [hw w1].
  simpl in H. destruct H as [Hm Hc].
  repeat split; try lia.
  apply add_rte_flow_when_full.
Qed.

End IdentityRecords.

Lemma ufid_hw_offload_fill_bounded_witness :
  let '(hw, w1) :=
    ufid_hw_offload_add_rte_flows accepting_driver
      (netdev_rte_port_ufid_hw_offload_alloc 1 (0, 7)) [(10, 1); (11, 1)]
      world_init in
  curr_idx hw = 1 /\ recorded_flows hw = [(1, 10)] /\
  hw_log w1 = [Ev_destroy 1 11 0] /\
  snd (ufid_hw_offload_add_rte_flow accepting_driver hw 12 1 w1)
  = world_logged w1 (Ev_destroy 1 12 0) (hw_next_flow w1).
Proof.
  pose proof (ufid_hw_offload_fill_bounded accepting_driver 1 (0, 7)
                [(10, 1); (11, 1)] 12 1 world_init ltac:(lia)) as H.
  destruct (ufid_hw_offload_add_rte_flows accepting_driver _ _ world_init)
    as [hw w1] eqn:E.
  vm_compute in E. inversion E; subst hw w1. clear E.
  destruct H as [_ [_ H]]. rewrite (H eq_refl).
  repeat split.
Defined.

(** ** Relations every step of the orchestrator respects *)

Section OrchestratorRelates.

Variable drv : driver.
Context (R : world -> world -> Prop).
Hypothesis R_refl : forall w, R w w.
Hypothesis R_trans : forall a b c, R a b -> R b c -> R a c.
Hypothesis R_create : forall nd attr items acts,
    relates R (netdev_dpdk_rte_flow_create drv nd attr items acts).
Hypothesis R_default : forall dp tid v,
    relates R (port_modify dp (set_default_rte_flow_at tid v)).

Ltac step := relates_step R_refl R_trans.

Lemma relates_mark_rss nd info items actions c port_id flow_attr :
  relates R (netdev_rte_offload_mark_rss drv nd info items actions c port_id
                                         flow_attr).
Proof.
  unfold netdev_rte_offload_mark_rss, add_flow_rss_action.
  repeat first [apply R_create | step].
Qed.

Lemma relates_offload_flow nd info items actions c flow_attr :
  relates R (netdev_rte_offload_flow drv nd info items actions c flow_attr).
Proof.
  unfold netdev_rte_offload_flow. repeat first [apply R_create | step].
Qed.

Lemma relates_add_default_flow rte_port vport :
  relates R (netdev_rte_offload_add_default_flow drv rte_port vport).
Proof.
  unfold netdev_rte_offload_add_default_flow, add_flow_rss_action.
  apply R_create.
Qed.

Lemma relates_add_jump_to_non_root_table nd info :
  relates R (netdev_dpdk_add_jump_to_non_root_table drv nd info).
Proof.
  unfold netdev_dpdk_add_jump_to_non_root_table. apply relates_offload_flow.
Qed.

Lemma relates_add_flow nd m nl_actions ufid info :
  relates R (netdev_rte_offloads_add_flow drv nd m nl_actions ufid info).
Proof.
  unfold netdev_rte_offloads_add_flow.
  repeat first [ apply relates_mark_rss
               | apply relates_offload_flow
               | apply relates_add_jump_to_non_root_table
               | apply relates_add_default_flow
               | apply R_default
               | step ].
Qed.

Hypothesis R_destroy : forall nd fl,
    relates R (netdev_dpdk_rte_flow_destroy drv nd fl).
Hypothesis R_port_modify : forall dp f, relates R (port_modify dp f).

Lemma relates_free_loop hw idxs :
  relates R (hw_offload_free_loop drv hw idxs).
Proof.
  induction idxs as [|i rest IH]; simpl.
  - step.
  - repeat first [apply R_destroy | exact IH | step].
Qed.

Lemma relates_hw_offload_free hw :
  relates R (netdev_rte_port_ufid_hw_offload_free drv hw).
Proof.
  unfold netdev_rte_port_ufid_hw_offload_free.
  repeat first [apply relates_free_loop | step].
Qed.

Lemma relates_add_rte_flow_at dp ufid fl nd :
  relates R (ufid_hw_offload_add_rte_flow_at drv dp ufid fl nd).
Proof.
  unfold ufid_hw_offload_add_rte_flow_at, ufid_hw_offload_add_rte_flow,
    hw_offload_modify.
  repeat first [apply R_destroy | apply R_port_modify | step].
Qed.

Variable put_ufid : ovs_u128.
Hypothesis R_portid_add : forall dp,
    relates R (ufid_to_portid_add put_ufid dp).

Lemma relates_flow_put nd m actions info :
  relates R (netdev_rte_offloads_flow_put drv nd m actions put_ufid info).
Proof.
  unfold netdev_rte_offloads_flow_put.
  repeat first [ apply relates_hw_offload_free
               | apply relates_add_flow
               | apply relates_add_rte_flow_at
               | apply R_port_modify
               | apply R_portid_add
               | step ].
Qed.

Lemma relates_vxlan_offload_uplink rte_port items bitmap data st :
  relates R (vxlan_offload_uplink drv rte_port put_ufid items bitmap data st).
Proof.
  unfold vxlan_offload_uplink.
  repeat first [ apply relates_mark_rss
               | apply relates_add_rte_flow_at
               | apply R_create
               | step ].
Qed.

Lemma relates_vxlan_fan_out rte_port items bitmap ports :
  forall st,
    relates R (vxlan_fan_out drv rte_port put_ufid items bitmap ports st).
Proof.
  induction ports as [|data rest IH]; intros st; simpl.
  - step.
  - repeat first [apply relates_vxlan_offload_uplink | apply IH | step].
Qed.

Lemma relates_vxlan_put rte_port m nl_actions info :
  relates R (netdev_vport_vxlan_add_rte_flow_offload drv rte_port m nl_actions
                                                     put_ufid info).
Proof.
  unfold netdev_vport_vxlan_add_rte_flow_offload.
  repeat first [ apply relates_hw_offload_free
               | apply relates_vxlan_fan_out
               | apply R_port_modify
               | apply R_portid_add
               | step ].
Qed.

Lemma relates_vport_flow_put m actions info :
  relates R (netdev_rte_vport_flow_put drv m actions put_ufid info).
Proof.
  unfold netdev_rte_vport_flow_put.
  repeat first [apply relates_vxlan_put | step].
Qed.

End OrchestratorRelates.

(** ** The ufid-to-port reverse map *)

Lemma keeps_port_of_refl (ufid : ovs_u128) (w : world) : keeps_port_of ufid w w.
Proof. intros _. reflexivity. Qed.

Lemma keeps_port_of_trans (ufid : ovs_u128) (a b c : world) :
  keeps_port_of ufid a b -> keeps_port_of ufid b c -> keeps_port_of ufid a c.
Proof.
  unfold keeps_port_of. intros Hab Hbc Ha.
  specialize (Hab Ha). rewrite <- Hab. apply Hbc. now rewrite Hab.
Qed.

Lemma ufid_to_portid_add_present (ufid : ovs_u128) (dp_port : odp_port_t)
  (w : world) :
  ufid_to_portid_search ufid (ufid_to_portid_map w) <> INVALID_ODP_PORT ->
  ufid_to_portid_add ufid dp_port w = (dp_port, w).
Proof.
  intros H. unfold ufid_to_portid_add.
  apply Z.eqb_neq in H. rewrite H. reflexivity.
Qed.

Lemma find_none_of_empty_filter {A : Type} (p : A -> bool) (l : list A) :
  length (filter p l) = 0%nat -> find p l = None.
Proof.
  induction l as [|x t IH]; simpl; [reflexivity|].
  destruct (p x); simpl; [discriminate | exact IH].
Qed.

Lemma find_remove_first_single {A : Type} (p : A -> bool) (l : list A) :
  length (filter p l) = 1%nat -> find p (remove_first p l) = None.
Proof.
  induction l as [|x t IH]; simpl; intros H; [reflexivity|].
  destruct (p x) eqn:E.
  - simpl in H. injection H as H. now apply find_none_of_empty_filter.
  - simpl. rewrite E. auto.
Qed.

Lemma ovs_u128_equals_refl (u : ovs_u128) : ovs_u128_equals u u = true.
Proof. unfold ovs_u128_equals. now rewrite !Z.eqb_refl. Qed.

(** C10.  When the reverse map already holds a port for [ufid], adding a
    mapping for [ufid] with any port returns that port and changes nothing;
    so a flow_put of [ufid], through whichever ingress port and on either
    kind of port, leaves the reverse map as it was, still giving the
    original port.  Once the mapping is removed (the map holding one node for
    [ufid]) the ufid is unmapped and an addition stores the port supplied. *)
Theorem ufid_to_portid_add_keeps_original_port (drv : driver)
  (ufid : ovs_u128) (dp_port : odp_port_t) (w : world) :
  ufid_to_portid_search ufid (ufid_to_portid_map w) <> INVALID_ODP_PORT ->
  ufid_to_portid_add ufid dp_port w = (dp_port, w) /\
  (forall nd m actions info,
      ufid_to_portid_map
        (snd (netdev_rte_offloads_flow_put drv nd m actions ufid info w))
      = ufid_to_portid_map w) /\
  (forall m actions info,
      ufid_to_portid_map
        (snd (netdev_rte_vport_flow_put drv m actions ufid info w))
      = ufid_to_portid_map w) /\
  (length (filter (fun d => ovs_u128_equals ufid (uo_ufid d))
                  (ufid_to_portid_map w)) = 1%nat ->
   let w1 := snd (ufid_to_portid_remove ufid w) in
   ufid_to_portid_search ufid (ufid_to_portid_map w1) = INVALID_ODP_PORT /\
   ufid_to_portid_search ufid
     (ufid_to_portid_map (snd (ufid_to_portid_add ufid dp_port w1)))
   = dp_port).
Proof.
  intros Hpresent.
  assert (Hcreate : forall nd attr items acts,
             relates (keeps_port_of ufid)
                     (netdev_dpdk_rte_flow_create drv nd attr items acts)).
  { intros nd attr items acts w0 _.
    unfold netdev_dpdk_rte_flow_create, bind, get_world.
    destruct (drv_create drv (hw_log w0) nd attr items acts); reflexivity. }
  assert (Hmodify : forall dp f,
             relates (keeps_port_of ufid) (port_modify dp f)).
  { intros dp f w0 _. reflexivity. }
  assert (Hdestroy : forall nd fl,
             relates (keeps_port_of ufid)
                     (netdev_dpdk_rte_flow_destroy drv nd fl)).
  { intros nd fl w0 _. reflexivity. }
  assert (Hadd : forall dp,
             relates (keeps_port_of ufid) (ufid_to_portid_add ufid dp)).
  { intros dp w0 H0. now rewrite ufid_to_portid_add_present. }
  split; [now apply ufid_to_portid_add_present|].
  split; [|split].
  - intros nd m actions info.
    apply (relates_flow_put drv (keeps_port_of ufid)
             (keeps_port_of_refl ufid) (keeps_port_of_trans ufid)
             Hcreate (fun dp tid v => Hmodify dp _) Hdestroy Hmodify ufid Hadd
             nd m actions info w Hpresent).
  - intros m actions info.
    apply (relates_vport_flow_put drv (keeps_port_of ufid)
             (keeps_port_of_refl ufid) (keeps_port_of_trans ufid)
             Hcreate Hdestroy Hmodify ufid Hadd m actions info w Hpresent).
  - intros Hone. unfold ufid_to_portid_remove.
    assert (Hget : exists d, ufid_to_portid_get ufid (ufid_to_portid_map w)
                             = Some d).
    { unfold ufid_to_portid_search in Hpresent.
      destruct (ufid_to_portid_get ufid (ufid_to_portid_map w)) as [d|];
        [eauto | congruence]. }
    destruct Hget as [d Hd]. rewrite Hd. cbn [snd set_ufid_to_portid_map
                                                ufid_to_portid_map].
    assert (Hgone : ufid_to_portid_search ufid
                      (remove_first
                         (fun d0 => ovs_u128_equals ufid (uo_ufid d0))
                         (ufid_to_portid_map w)) = INVALID_ODP_PORT).
    { unfold ufid_to_portid_search, ufid_to_portid_get.
      now rewrite find_remove_first_single. }
    split; [exact Hgone|].
    unfold ufid_to_portid_add. cbn [ufid_to_portid_map set_ufid_to_portid_map].
    rewrite Hgone. simpl.
    unfold ufid_to_portid_search, ufid_to_portid_get. simpl.
    now rewrite ovs_u128_equals_refl.
Qed.

Lemma ufid_to_portid_add_keeps_original_port_witness :
  ufid_to_portid_search the_ufid (ufid_to_portid_map modified_world) = 1 /\
  ufid_to_portid_add the_ufid 2 modified_world = (2, modified_world) /\
  ufid_to_portid_search the_ufid
    (ufid_to_portid_map
       (snd (netdev_rte_offloads_flow_put accepting_driver 102 port2_match
               (Some [OVS_ACTION_ATTR_OUTPUT 1]) the_ufid the_info
               modified_world))) = 1.
Proof.
  assert (Hpresent : ufid_to_portid_search the_ufid
                       (ufid_to_portid_map modified_world)
                     <> INVALID_ODP_PORT) by (vm_compute; discriminate).
  destruct (ufid_to_portid_add_keeps_original_port accepting_driver the_ufid 2
              modified_world Hpresent) as [Hadd [Hput _]].
  split; [reflexivity|]. split; [exact Hadd|].
  rewrite Hput. reflexivity.
Defined.

(** ** Flow put without actions *)

(** The two functions that install a flow for a tunnel port look at the
    action list first: with a NULL or empty one they return 0 and leave the
    state as it is, whatever the match. *)
Lemma vxlan_flow_put_without_actions (drv : driver)
  (rte_port : netdev_rte_port) (m : match_) (nl_actions : nl_actions_t)
  (ufid : ovs_u128) (info : offload_info) (w : world) :
  no_actions nl_actions = true ->
  netdev_vport_vxlan_add_rte_flow_offload drv rte_port m nl_actions ufid info w
  = (0, info, w) /\
  forall vport ratio,
    netdev_add_rte_flow_offload drv m nl_actions ufid vport ratio w = (0, w).
Proof.
  intros H. unfold netdev_vport_vxlan_add_rte_flow_offload,
    netdev_add_rte_flow_offload.
  rewrite H. split; reflexivity.
Qed.

(** The entry point registered for tunnel ports validates the match before
    it looks at the actions. *)
Lemma vport_flow_put_without_actions (drv : driver) (m : match_)
  (nl_actions : nl_actions_t) (ufid : ovs_u128) (info : offload_info)
  (w : world) :
  no_actions nl_actions = true ->
  netdev_rte_vport_flow_put drv m nl_actions ufid info w
  = (if nonzero (netdev_rte_offloads_validate_flow m true)
     then EOPNOTSUPP else 0, info, w).
Proof.
  intros H. unfold netdev_rte_vport_flow_put.
  destruct (nonzero _); [reflexivity|].
  unfold bind, get_world.
  destruct (netdev_rte_port_search _ _) as [p|]; [|reflexivity].
  destruct (rp_rte_port_type p); try reflexivity.
  unfold netdev_vport_vxlan_add_rte_flow_offload. now rewrite H.
Qed.

(** C9, where it fails.  Datapath port 10 is a VXLAN port.  A put on it
    with an empty action list whose match also masks the packet mark does
    not return 0: the validation comes first and answers EOPNOTSUPP. *)
Lemma vport_flow_put_without_actions_counterexample :
  option_map rp_rte_port_type
             (netdev_rte_port_search (in_port (m_flow marked_vxlan_match))
                                     (port_map fan_out_world))
  = Some RTE_PORT_TYPE_VXLAN /\
  no_actions (Some []) = true /\
  fst (fst (netdev_rte_vport_flow_put accepting_driver marked_vxlan_match
              (Some []) the_ufid the_info fan_out_world)) = EOPNOTSUPP /\
  fst (fst (netdev_rte_vport_flow_put accepting_driver marked_vxlan_match
              (Some []) the_ufid the_info fan_out_world)) <> 0.
Proof. vm_compute. repeat split; discriminate. Qed.

(** C9, as amended.  A flow put on a VXLAN virtual port whose match passes
    the validation for tunnel ports and whose action list is NULL or empty
    returns 0 at once: the state, with every identity record, the reverse
    map and the driver's call log, is the state before, so nothing was
    destroyed, allocated or sent to the driver.  The functions behind the
    entry point, [netdev_vport_vxlan_add_rte_flow_offload] and
    [netdev_add_rte_flow_offload], do the same. *)
Theorem vport_flow_put_without_actions_validated (drv : driver)
  (m : match_) (nl_actions : nl_actions_t) (ufid : ovs_u128)
  (info : offload_info) (w : world) :
  no_actions nl_actions = true ->
  netdev_rte_offloads_validate_flow m true = 0 ->
  netdev_rte_vport_flow_put drv m nl_actions ufid info w = (0, info, w) /\
  (forall rte_port,
      netdev_vport_vxlan_add_rte_flow_offload drv rte_port m nl_actions ufid
                                              info w
      = (0, info, w)) /\
  (forall vport ratio,
      netdev_add_rte_flow_offload drv m nl_actions ufid vport ratio w
      = (0, w)).
Proof.
  intros Hno Hvalid. split; [|split].
  - rewrite (vport_flow_put_without_actions drv m nl_actions ufid info w Hno).
    now rewrite Hvalid.
  - intros rte_port.
    apply (vxlan_flow_put_without_actions drv rte_port m nl_actions ufid info
             w Hno).
  - apply (vxlan_flow_put_without_actions drv (vxlan_port 0 0) m nl_actions
             ufid info w Hno).
Qed.

Lemma vport_flow_put_without_actions_validated_witness :
  netdev_rte_vport_flow_put uplink2_failing_driver vxlan_match (Some [])
                            the_ufid the_info fan_out_world
  = (0, the_info, fan_out_world) /\
  netdev_rte_vport_flow_put uplink2_failing_driver vxlan_match None
                            the_ufid the_info fan_out_world
  = (0, the_info, fan_out_world).
Proof.
  split.
  - apply (vport_flow_put_without_actions_validated uplink2_failing_driver
             vxlan_match (Some []) the_ufid the_info fan_out_world);
      reflexivity.
  - apply (vport_flow_put_without_actions_validated uplink2_failing_driver
             vxlan_match None the_ufid the_info fan_out_world);
      reflexivity.
Defined.

(** ** Tunnel pop with a failing default flow *)

(** C3, evaluated.  Port 1 is an uplink, port 2 a VXLAN port, and the driver
    refuses the default flow of the VXLAN table.  A flow put of a tunnel-pop
    flow on port 1 installs the specific flow (handle 1), fails to create the
    default flow, and then returns 0 with handle 1 recorded and never
    destroyed. *)
Theorem tunnel_pop_default_flow_failure_is_ignored :
  let '(r, info, w) :=
    netdev_rte_offloads_flow_put no_default_flow_driver 101 port1_match
      (Some [OVS_ACTION_ATTR_TUNNEL_POP 2]) the_ufid the_info
      tunnel_pop_world in
  r = 0 /\
  map summary (hw_log w)
  = [Created 101 0 0 1 (Some 1); Created 101 VXLAN_TABLE_ID 1 0 None] /\
  option_map recorded_flows (hw_offload_of 1 the_ufid w) = Some [(101, 1)] /\
  live_flows (hw_log w) [] = [1] /\
  option_map (fun p => default_rte_flow_at p VXLAN_TABLE_ID)
             (netdev_rte_port_search 1 (port_map w)) = Some None.
Proof. vm_compute. repeat split. Qed.

(** ** Fan-out over the uplinks *)

(** C4, where it holds: with the driver refusing every flow on the second
    of three uplinks, a put whose output port is registered tries the decap
    form and then the mark+RSS form on that uplink, skips it, records the
    handles of uplinks 1 and 3 and returns 0. *)
Lemma vxlan_fan_out_skips_failing_uplink :
  let '(r, info, w) :=
    netdev_rte_vport_flow_put uplink2_failing_driver vxlan_match
      (Some [OVS_ACTION_ATTR_OUTPUT 1]) the_ufid the_info fan_out_world in
  r = 0 /\
  map summary (hw_log w)
  = [Created 101 VXLAN_TABLE_ID 0 1 (Some 1);
     Created 102 VXLAN_TABLE_ID 0 1 None;
     Created 102 VXLAN_TABLE_ID 0 0 None;
     Created 103 VXLAN_TABLE_ID 0 1 (Some 2)] /\
  option_map (fun hw => map snd (recorded_flows hw))
             (hw_offload_of 10 the_ufid w) = Some [1; 2].
Proof. vm_compute. repeat split. Qed.

(** C4, evaluated where it fails.  All three uplinks accept the flow, but
    the action list outputs to datapath port 7, which is not registered: the
    action scan skips the output and leaves EINVAL in [ret]; the fan-out
    then installs and records a handle on every uplink, and the put returns
    EINVAL. *)
Theorem vxlan_fan_out_returns_stale_error :
  let '(r, info, w) :=
    netdev_rte_vport_flow_put accepting_driver vxlan_match
      (Some [OVS_ACTION_ATTR_OUTPUT 7]) the_ufid the_info fan_out_world in
  r = EINVAL /\
  map summary (hw_log w)
  = [Created 101 VXLAN_TABLE_ID 0 1 (Some 1);
     Created 102 VXLAN_TABLE_ID 0 1 (Some 2);
     Created 103 VXLAN_TABLE_ID 0 1 (Some 3)] /\
  option_map (fun hw => map snd (recorded_flows hw))
             (hw_offload_of 10 the_ufid w) = Some [1; 2; 3] /\
  is_hwol info = true.
Proof. vm_compute. repeat split. Qed.

(** ** Flow modification *)

Section Modification.

Variable drv : driver.

Lemma create_eq nd attr items acts w :
  netdev_dpdk_rte_flow_create drv nd attr items acts w
  = (create_result drv w nd attr items acts,
     after_create drv w nd attr items acts).
Proof.
  unfold netdev_dpdk_rte_flow_create, after_create, create_result, bind,
    get_world, log_event, modify, ret, world_logged.
  simpl. destruct (drv_create drv (hw_log w) nd attr items acts); reflexivity.
Qed.

Lemma creates_only_refl w : creates_only w w [].
Proof.
  unfold creates_only. rewrite app_nil_r.
  repeat split; try reflexivity; lia.
Qed.

Lemma forallb_fresh_weaken (n n' : Z) (cs : list hw_event) :
  n <= n' -> forallb (fresh_from n') cs = true ->
  forallb (fresh_from n) cs = true.
Proof.
  intros Hn. induction cs as [|e t IH]; simpl; [reflexivity|].
  intros H. apply andb_true_iff in H as [He Ht].
  rewrite (IH Ht), andb_true_r.
  unfold fresh_from in *. destruct (created_flow e) as [[nd fl]|]; [|reflexivity].
  apply Z.leb_le in He. apply Z.leb_le. lia.
Qed.

Lemma creates_only_trans w1 w2 w3 cs1 cs2 :
  creates_only w1 w2 cs1 -> creates_only w2 w3 cs2 ->
  creates_only w1 w3 (cs1 ++ cs2).
Proof.
  unfold creates_only.
  intros (A1 & A2 & A3 & A4 & A5 & A6 & A7 & A8)
         (B1 & B2 & B3 & B4 & B5 & B6 & B7 & B8).
  repeat split; try congruence; try lia.
  - rewrite B5, A5, app_assoc. reflexivity.
  - rewrite forallb_app, A6, B6. reflexivity.
  - rewrite forallb_app, A7. simpl.
    eapply forallb_fresh_weaken; eassumption.
Qed.

Lemma creates_only_create nd attr items acts w :
  creates_only w (after_create drv w nd attr items acts)
    [Ev_create nd attr items acts (create_result drv w nd attr items acts)].
Proof.
  unfold creates_only, after_create, create_result, world_logged. simpl.
  repeat split; try reflexivity.
  - unfold fresh_from. simpl.
    destruct (drv_create drv (hw_log w) nd attr items acts); simpl;
      [rewrite Z.leb_refl|]; reflexivity.
  - destruct (drv_create drv (hw_log w) nd attr items acts); lia.
Qed.

Lemma map_update_first_same {A B : Type} (g : A -> B) (p : A -> bool)
  (f : A -> A) (l : list A) :
  (forall x, g (f x) = g x) -> map g (update_first p f l) = map g l.
Proof.
  intros H. induction l as [|x t IH]; simpl; [reflexivity|].
  destruct (p x); simpl; [rewrite H | rewrite IH]; reflexivity.
Qed.

Lemma creates_only_default dp tid v w :
  creates_only w (snd (port_modify dp (set_default_rte_flow_at tid v) w)) [].
Proof.
  unfold creates_only, port_modify, modify, set_port_map. simpl.
  rewrite app_nil_r.
  repeat split; try reflexivity; try lia;
    apply map_update_first_same; reflexivity.
Qed.

Lemma port_modify_eq dp f w :
  port_modify dp f w = (tt, snd (port_modify dp f w)).
Proof. reflexivity. Qed.

Ltac norm H :=
  repeat (progress (cbv beta iota in H; cbn [fst snd is_some negb] in H;
                    rewrite ?create_eq in H)).

Ltac chain :=
  match goal with
  | |- creates_only ?w ?w _ => apply creates_only_refl
  | |- creates_only _ (after_create _ ?w1 ?nd ?attr ?items ?acts) _ =>
      eapply creates_only_trans;
      [| exact (creates_only_create nd attr items acts w1)]; chain
  | |- creates_only _ (snd (port_modify ?dp (set_default_rte_flow_at ?tid ?v)
                                        ?w1)) _ =>
      eapply creates_only_trans;
      [| exact (creates_only_default dp tid v w1)]; chain
  end.

Ltac leaf :=
  match goal with
  | H : (_, _, _) = (_, _, _) |- _ =>
      let H1 := fresh in
      let H2 := fresh in
      let H3 := fresh in
      apply pair_equal_spec in H; destruct H as [H1 H3];
      apply pair_equal_spec in H1; destruct H1 as [H1 H2];
      subst
  end;
  eexists; split;
  [ chain
  | let fl := fresh "fl" in
    let Hfl := fresh "Hfl" in
    intros fl Hfl; try discriminate;
    repeat rewrite map_app; cbn [map created_flow app];
    repeat match goal with
           | E : create_result _ _ _ _ _ _ = _ |- _ => rewrite E
           end;
    try rewrite Hfl; cbn [created_flow In];
    try (inversion Hfl; subst); tauto ].

Ltac rest H :=
  match type of H with
  | context [create_result ?a ?b ?c ?d ?e ?f] =>
      destruct (create_result a b c d e f) eqn:?; norm H; [|leaf]
  end;
  match type of H with
  | context [has_bit ?a ATTR_TUNNEL_POP] =>
      destruct (has_bit a ATTR_TUNNEL_POP); [|leaf]
  end;
  match type of H with
  | context [netdev_rte_port_search ?a ?b] =>
      destruct (netdev_rte_port_search a b); [|leaf]
  end;
  match type of H with
  | context [lc_vport ?a] => destruct (lc_vport a); [|leaf]
  end;
  match type of H with
  | context [negb ?a] => destruct (negb a); [|leaf]
  end;
  norm H; rewrite port_modify_eq in H; norm H; leaf.

(** What [netdev_rte_offloads_add_flow] does to the state: creations only,
    and the handle it returns, if any, is one that was created on [nd]. *)
Lemma add_flow_creates_only nd m nl_actions ufid info w res info' w' :
  netdev_rte_offloads_add_flow drv nd m nl_actions ufid info w
  = (res, info', w') ->
  exists cs,
    creates_only w w' cs /\
    forall fl, res = Some fl -> In (Some (nd, fl)) (map created_flow cs).
Proof.
  unfold netdev_rte_offloads_add_flow.
  destruct (add_flow_compile_patterns m) as [items|].
  2:{ unfold ret. intros H. leaf. }
  unfold netdev_rte_offload_mark_rss, netdev_dpdk_add_jump_to_non_root_table,
    netdev_rte_offload_flow, netdev_rte_offload_add_default_flow,
    add_flow_rss_action.
  unfold bind, ret, get_world.
  intros H. norm H.
  set (l := add_flow_translate_actions _ _ _) in H.
  destruct (nonzero (lc_result l)).
  { norm H. leaf. }
  destruct (has_bit (lc_action_bitmap l) ATTR_CLONE).
  - norm H.
    destruct (create_result drv w nd _ _ _) as [jf|] eqn:Ejump; norm H;
      [|leaf].
    rest H.
  - norm H. rest H.
Qed.

Lemma free_loop_eq hw idxs :
  forall w,
    hw_offload_free_loop drv hw idxs w
    = (tt, set_hw_log w
             (hw_log w ++
              destroy_events drv (hw_log w)
                (flat_map (fun i =>
                             let d := nth i (rte_flow_data hw) null_params in
                             match rfp_flow d with
                             | Some fl => [(rfp_netdev d, fl)]
                             | None => []
                             end) idxs))).
Proof.
  induction idxs as [|i rest IH]; intros w; simpl.
  - unfold ret, set_hw_log. rewrite app_nil_r. now destruct w.
  - destruct (rfp_flow (nth i (rte_flow_data hw) null_params)) as [fl|];
      simpl; [|apply IH].
    unfold bind. rewrite destroy_eq. rewrite IH.
    unfold set_hw_log, world_logged. simpl. rewrite <- app_assoc. reflexivity.
Qed.

Lemma free_eq hw w :
  netdev_rte_port_ufid_hw_offload_free drv hw w
  = (0, set_hw_log w
          (hw_log w ++ destroy_events drv (hw_log w) (recorded_flows hw))).
Proof.
  unfold netdev_rte_port_ufid_hw_offload_free, bind.
  rewrite free_loop_eq. reflexivity.
Qed.

Lemma find_update_first_map {A : Type} (p : A -> bool) (f : A -> A)
  (l : list A) :
  (forall x, p (f x) = p x) ->
  find p (update_first p f l) = option_map f (find p l).
Proof.
  intros Hp. induction l as [|x t IH]; simpl; [reflexivity|].
  destruct (p x) eqn:E; simpl.
  - now rewrite Hp, E.
  - now rewrite E.
Qed.

Lemma portid_add_eq ufid dp w :
  ufid_to_portid_add ufid dp w = (dp, snd (ufid_to_portid_add ufid dp w)).
Proof. unfold ufid_to_portid_add. now destruct (negb _). Qed.

Lemma portid_add_frame ufid dp w :
  port_map (snd (ufid_to_portid_add ufid dp w)) = port_map w /\
  hw_log (snd (ufid_to_portid_add ufid dp w)) = hw_log w /\
  hw_next_flow (snd (ufid_to_portid_add ufid dp w)) = hw_next_flow w.
Proof. unfold ufid_to_portid_add. now destruct (negb _). Qed.

End Modification.

(** ** A modification of a flow with a clone action *)

(** C1, evaluated.  Port 1 is an uplink and the driver accepts every call.
    A put whose action is a clone (tunnel push, then output to port 1)
    creates two flows: the jump rule in group 0 (handle 1) and the flow
    itself in group 1 (handle 2); the variable that held handle 1 is
    overwritten, and the record of capacity 1 holds handle 2 alone.  The
    second put of the same ufid destroys handle 2, the one handle recorded,
    and creates handles 3 and 4.  No destroy call names handle 1: the old
    jump rule stays installed beside the new flows. *)
Theorem flow_put_clone_keeps_old_jump_flow :
  let put :=
    netdev_rte_offloads_flow_put accepting_driver 101 port1_match
                                 clone_actions the_ufid the_info in
  let '(r1, _, w1) := put tunnel_pop_world in
  let '(r2, _, w2) := put w1 in
  r1 = 0 /\ r2 = 0 /\
  map summary (hw_log w1)
  = [Created 101 0 1 1 (Some 1); Created 101 1 0 1 (Some 2)] /\
  option_map recorded_flows (hw_offload_of 1 the_ufid w1) = Some [(101, 2)] /\
  map summary (hw_log w2)
  = [Created 101 0 1 1 (Some 1); Created 101 1 0 1 (Some 2);
     Destroyed 101 2;
     Created 101 0 1 1 (Some 3); Created 101 1 0 1 (Some 4)] /\
  option_map recorded_flows (hw_offload_of 1 the_ufid w2) = Some [(101, 4)] /\
  ~ In (Some (101, 1)) (map destroyed_flow (hw_log w2)).
Proof.
  vm_compute. repeat split.
  intros [H | [H | [H | [H | [H | []]]]]]; discriminate H.
Qed.

(* ================================================================= *)
(** * Further properties of the code *)

(** ** Growth of the pattern and action arrays *)

Lemma fits_step (cnt current_max : Z) :
  cnt = 0 \/ fits cnt current_max ->
  fits (cnt + 1)
       (if cnt =? 0 then 8
        else if cnt =? current_max then current_max * 2 else current_max).
Proof.
  intros [-> | (Hc & Hm & k & Hk)].
  - simpl. repeat split; try lia. exists 0%nat. reflexivity.
  - destruct (cnt =? 0) eqn:E0; [apply Z.eqb_eq in E0; lia|].
    destruct (cnt =? current_max) eqn:E.
    + apply Z.eqb_eq in E. subst cnt. repeat split; try lia.
      exists (S k). rewrite Nat2Z.inj_succ, Z.pow_succ_r by lia. lia.
    + apply Z.eqb_neq in E. repeat split; try lia. now exists k.
Qed.

Lemma add_flow_pattern_seq_inv (adds : list rte_flow_item) :
  forall p,
    pat_cnt p = 0 \/ fits (pat_cnt p) (pat_current_max p) ->
    let q := add_flow_pattern_seq p adds in
    pat_items q = pat_items p ++ adds /\
    pat_cnt q = pat_cnt p + Z.of_nat (length adds) /\
    (pat_cnt q = 0 \/ fits (pat_cnt q) (pat_current_max q)).
Proof.
  induction adds as [|[ty sp mk] rest IH]; intros p Hp q; subst q.
  - simpl. rewrite app_nil_r, Z.add_0_r. auto.
  - change (add_flow_pattern_seq p (mk_item ty sp mk :: rest))
      with (add_flow_pattern_seq (add_flow_pattern p ty sp mk) rest).
    destruct (IH (add_flow_pattern p ty sp mk)) as (I1 & I2 & I3).
    { right. apply fits_step. exact Hp. }
    split; [|split].
    + rewrite I1. simpl. now rewrite <- app_assoc.
    + rewrite I2. cbn [pat_cnt add_flow_pattern length].
      rewrite Nat2Z.inj_succ. lia.
    + exact I3.
Qed.

Lemma add_flow_action_seq_inv (adds : list rte_flow_action) :
  forall a,
    act_cnt a = 0 \/ fits (act_cnt a) (act_current_max a) ->
    let q := add_flow_action_seq a adds in
    act_list q = act_list a ++ adds /\
    act_cnt q = act_cnt a + Z.of_nat (length adds) /\
    (act_cnt q = 0 \/ fits (act_cnt q) (act_current_max q)).
Proof.
  induction adds as [|[ty cf] rest IH]; intros a Ha q; subst q.
  - simpl. rewrite app_nil_r, Z.add_0_r. auto.
  - change (add_flow_action_seq a (mk_action ty cf :: rest))
      with (add_flow_action_seq (add_flow_action a ty cf) rest).
    destruct (IH (add_flow_action a ty cf)) as (I1 & I2 & I3).
    { right. apply fits_step. exact Ha. }
    split; [|split].
    + rewrite I1. simpl. now rewrite <- app_assoc.
    + rewrite I2. cbn [act_cnt add_flow_action length].
      rewrite Nat2Z.inj_succ. lia.
    + exact I3.
Qed.

(** An allocation that fits at most 2^30 elements is of at most 2^30
    elements itself, so the doubling that led to it stayed within [int]. *)
Lemma fits_int_range (cnt current_max : Z) :
  fits cnt current_max -> cnt <= 1073741824 ->
  current_max <= 1073741824 /\ current_max <= INT_MAX.
Proof.
  intros (Hc & [-> | Hm] & k & Hk) Hb; [unfold INT_MAX; lia|].
  assert (Hlt : 2 ^ (Z.of_nat k + 3) < 2 ^ 31).
  { rewrite Z.pow_add_r by lia. change (2 ^ 3) with 8.
    change (2 ^ 31) with 2147483648. lia. }
  apply Z.pow_lt_mono_r_iff in Hlt; [|lia|lia].
  assert (Hle : 2 ^ (Z.of_nat k + 3) <= 2 ^ 30)
    by (apply Z.pow_le_mono_r; lia).
  rewrite Z.pow_add_r in Hle by lia. change (2 ^ 3) with 8 in Hle.
  change (2 ^ 30) with 1073741824 in Hle. unfold INT_MAX. lia.
Qed.

(** X1.  Whatever items, up to 2^30 of them, are appended to an empty
    pattern array, and whatever actions to an empty action array, also
    after the array was freed and refilled: the array holds exactly the
    appended elements in the order of the calls, the count is their number,
    and from the first element on the allocated size is at least the count,
    so every write [items[cnt]] lands inside the allocation; the size is 8
    doubled some number of times, never more than needed (8, or less than
    twice the count) and at most 2^30, so neither the count nor the
    doubled size leaves the range of the [int] that holds it. *)
Theorem flow_arrays_grow_in_bounds (first adds : list rte_flow_item)
  (afirst aadds : list rte_flow_action) :
  Z.of_nat (length first) <= 1073741824 ->
  Z.of_nat (length adds) <= 1073741824 ->
  Z.of_nat (length afirst) <= 1073741824 ->
  Z.of_nat (length aadds) <= 1073741824 ->
  let p1 := add_flow_pattern_seq flow_patterns_init first in
  let p := add_flow_pattern_seq (free_flow_patterns p1) adds in
  let a1 := add_flow_action_seq flow_actions_init afirst in
  let a := add_flow_action_seq (free_flow_actions a1) aadds in
  (pat_items p = adds /\ pat_cnt p = Z.of_nat (length adds) /\
   (adds = [] \/
    fits (pat_cnt p) (pat_current_max p) /\ pat_current_max p <= INT_MAX) /\
   (first = [] \/
    fits (pat_cnt p1) (pat_current_max p1) /\
    pat_current_max p1 <= INT_MAX)) /\
  (act_list a = aadds /\ act_cnt a = Z.of_nat (length aadds) /\
   (aadds = [] \/
    fits (act_cnt a) (act_current_max a) /\ act_current_max a <= INT_MAX) /\
   (afirst = [] \/
    fits (act_cnt a1) (act_current_max a1) /\
    act_current_max a1 <= INT_MAX)).
Proof.
  intros Hf Ha Haf Haa p1 p a1 a.
  assert (Hpat : forall l q,
             pat_cnt q = 0 -> Z.of_nat (length l) <= 1073741824 ->
             let r := add_flow_pattern_seq q l in
             pat_items r = pat_items q ++ l /\
             pat_cnt r = Z.of_nat (length l) /\
             (l = [] \/
              fits (pat_cnt r) (pat_current_max r) /\
              pat_current_max r <= INT_MAX)).
  { intros l q Hq Hl r.
    destruct (add_flow_pattern_seq_inv l q) as (H1 & H2 & H3);
      [now left|]. fold r in H1, H2, H3. rewrite Hq in H2.
    split; [exact H1|]. split; [exact H2|].
    destruct l; [now left | right].
    destruct H3 as [H3 | H3]; [rewrite H2 in H3; simpl in H3; lia|].
    split; [exact H3|]. apply (fits_int_range (pat_cnt r)); [exact H3|].
    now rewrite H2. }
  assert (Hact : forall l q,
             act_cnt q = 0 -> Z.of_nat (length l) <= 1073741824 ->
             let r := add_flow_action_seq q l in
             act_list r = act_list q ++ l /\
             act_cnt r = Z.of_nat (length l) /\
             (l = [] \/
              fits (act_cnt r) (act_current_max r) /\
              act_current_max r <= INT_MAX)).
  { intros l q Hq Hl r.
    destruct (add_flow_action_seq_inv l q) as (H1 & H2 & H3);
      [now left|]. fold r in H1, H2, H3. rewrite Hq in H2.
    split; [exact H1|]. split; [exact H2|].
    destruct l; [now left | right].
    destruct H3 as [H3 | H3]; [rewrite H2 in H3; simpl in H3; lia|].
    split; [exact H3|]. apply (fits_int_range (act_cnt r)); [exact H3|].
    now rewrite H2. }
  split.
  - destruct (Hpat adds (free_flow_patterns p1) eq_refl Ha) as (H1 & H2 & H3).
    destruct (Hpat first flow_patterns_init eq_refl Hf) as (_ & _ & H4).
    repeat split; assumption.
  - destruct (Hact aadds (free_flow_actions a1) eq_refl Haa)
      as (H1 & H2 & H3).
    destruct (Hact afirst flow_actions_init eq_refl Haf) as (_ & _ & H4).
    repeat split; assumption.
Qed.

Lemma flow_arrays_grow_in_bounds_witness :
  let nine := repeat (mk_item RTE_FLOW_ITEM_TYPE_END None None) 9 in
  let p := add_flow_pattern_seq
             (free_flow_patterns
                (add_flow_pattern_seq flow_patterns_init nine)) nine in
  pat_cnt p = 9 /\ pat_current_max p = 16 /\ pat_current_max p <= INT_MAX.
Proof.
  pose proof (flow_arrays_grow_in_bounds
                (repeat (mk_item RTE_FLOW_ITEM_TYPE_END None None) 9)
                (repeat (mk_item RTE_FLOW_ITEM_TYPE_END None None) 9) [] []
                ltac:(simpl; lia) ltac:(simpl; lia) ltac:(simpl; lia)
                ltac:(simpl; lia)) as [(_ & Hcnt & [H | [_ Hmax]] & _) _].
  - discriminate H.
  - cbv zeta. split; [exact Hcnt|]. split; [reflexivity | exact Hmax].
Defined.

(** ** The item sequence of a compiled match *)

(** X2.  Which items the pattern part of a flow put hands to the driver, for
    every match.  The translation fails exactly when the match masks a
    transport port or the TCP flags while the resolved protocol is none of
    TCP, UDP, SCTP and ICMP, or when it masks a transport port partially.
    Otherwise the items are, in this order: ETH; VLAN when the VLAN TCI and
    its mask are both non-zero; IPV4 when the ethertype is IPv4; the item of
    the resolved protocol when it is one of the four; END. *)
Theorem add_flow_patterns_item_sequence (m : match_) :
  option_map (map view_type) (add_flow_compile_patterns m)
  = if (match l4_item_type (resolved_proto m) with
        | [] => masks_l4 m
        | _ => false
        end) || partial_port_mask m
    then None
    else Some ([RTE_FLOW_ITEM_TYPE_ETH]
               ++ (if matches_vlan m then [RTE_FLOW_ITEM_TYPE_VLAN] else [])
               ++ (if dl_type (m_flow m) =? ETH_TYPE_IP
                   then [RTE_FLOW_ITEM_TYPE_IPV4] else [])
               ++ l4_item_type (resolved_proto m)
               ++ [RTE_FLOW_ITEM_TYPE_END]).
Proof.
  unfold add_flow_compile_patterns, add_flow_patterns, l4_item_type,
    resolved_proto, masks_l4, partial_port_mask, matches_vlan.
  destruct (negb (eth_addr_is_zero (dl_src (m_masks m)))
            || negb (eth_addr_is_zero (dl_dst (m_masks m))));
    destruct (nonzero (vlans0_tci (m_masks m))
              && nonzero (vlans0_tci (m_flow m)));
    destruct (dl_type (m_flow m) =? ETH_TYPE_IP);
    cbv zeta beta iota; cbn [fi_ipv4 next_proto_id set_fi_ipv4];
    repeat match goal with
           | |- context [to_uint8 ?x =? ?c] => destruct (to_uint8 x =? c)
           end;
    cbn [negb andb orb Z.eqb IPPROTO_TCP IPPROTO_UDP IPPROTO_SCTP IPPROTO_ICMP];
    destruct (nonzero (tp_src (m_masks m)) || nonzero (tp_dst (m_masks m))
              || nonzero (tcp_flags (m_masks m)));
    destruct ((nonzero (tp_src (m_masks m))
               && negb (tp_src (m_masks m) =? OVS_BE16_MAX))
              || (nonzero (tp_dst (m_masks m))
                  && negb (tp_dst (m_masks m) =? OVS_BE16_MAX)));
    reflexivity.
Qed.

(** X3.  The protocol of an IPv4 match is never dropped from the pattern.
    Whenever the translation succeeds on an IPv4 match, the pattern has
    exactly one IPV4 item; it carries the tos, ttl, protocol and addresses
    of the match with their masks, except that the protocol mask is cleared
    when an L4 item follows (the item type then stands for the protocol) and
    is the match's own protocol mask when none follows. *)
Theorem ipv4_item_keeps_protocol (m : match_) (items : list item_view) :
  dl_type (m_flow m) = ETH_TYPE_IP ->
  add_flow_compile_patterns m = Some items ->
  filter is_ipv4_item items
  = [mk_item_view RTE_FLOW_ITEM_TYPE_IPV4
       (Some (V_ipv4 (mk_ipv4 (nw_tos (m_flow m)) (nw_ttl (m_flow m))
                              (nw_proto (m_flow m)) (nw_src (m_flow m))
                              (nw_dst (m_flow m)))))
       (Some (V_ipv4 (mk_ipv4 (nw_tos (m_masks m)) (nw_ttl (m_masks m))
                              (match l4_item_type (resolved_proto m) with
                               | [] => nw_proto (m_masks m)
                               | _ => 0
                               end)
                              (nw_src (m_masks m)) (nw_dst (m_masks m)))))].
Proof.
  intros Hip.
  unfold add_flow_compile_patterns, add_flow_patterns, l4_item_type,
    resolved_proto.
  rewrite Hip, Z.eqb_refl.
  destruct (negb (eth_addr_is_zero (dl_src (m_masks m)))
            || negb (eth_addr_is_zero (dl_dst (m_masks m))));
    destruct (nonzero (vlans0_tci (m_masks m))
              && nonzero (vlans0_tci (m_flow m)));
    cbv zeta beta iota; cbn [fi_ipv4 next_proto_id set_fi_ipv4];
    repeat match goal with
           | |- context [to_uint8 ?x =? ?c] => destruct (to_uint8 x =? c)
           end;
    cbn [negb andb orb];
    destruct (nonzero (tp_src (m_masks m)) || nonzero (tp_dst (m_masks m))
              || nonzero (tcp_flags (m_masks m)));
    destruct ((nonzero (tp_src (m_masks m))
               && negb (tp_src (m_masks m) =? OVS_BE16_MAX))
              || (nonzero (tp_dst (m_masks m))
                  && negb (tp_dst (m_masks m) =? OVS_BE16_MAX)));
    cbn [nonzero Z.eqb negb]; intros H; try discriminate H;
    injection H as <-; reflexivity.
Qed.

Lemma ipv4_item_keeps_protocol_witness :
  option_map (filter is_ipv4_item) (add_flow_compile_patterns udp_match)
  = Some [mk_item_view RTE_FLOW_ITEM_TYPE_IPV4
            (Some (V_ipv4 (mk_ipv4 0 0 IPPROTO_UDP 0 0)))
            (Some (V_ipv4 (mk_ipv4 0 0 0 0 0)))].
Proof.
  destruct (add_flow_compile_patterns udp_match) as [items|] eqn:E;
    [|vm_compute in E; discriminate E].
  cbn [option_map]. f_equal.
  exact (ipv4_item_keeps_protocol udp_match items eq_refl E).
Defined.




(** ** Validation of a match *)

Lemma flow_tnl_and_zero (t : flow_tnl) :
  flow_tnl_is_all_zeros (flow_tnl_and t flow_tnl_zero) = true.
Proof.
  unfold flow_tnl_is_all_zeros, flow_tnl_and. simpl.
  rewrite !Z.land_0_r. reflexivity.
Qed.

(** X5.  The two modes of the validation differ by the tunnel test alone: a
    match is accepted for a physical port exactly when it is accepted for a
    tunnel port and its tunnel fields are all zero under its mask.  The
    verdict is 0 or -1, and a match that wildcards every field is accepted in
    both modes, whatever the flow. *)
Theorem validate_flow_modes (m : match_) (fl : flow) (is_tun : bool) :
  (netdev_rte_offloads_validate_flow m false = 0 <->
   netdev_rte_offloads_validate_flow m true = 0 /\
   flow_tnl_is_all_zeros (flow_tnl_and (tunnel (m_flow m))
                                       (tunnel (m_masks m))) = true) /\
  (netdev_rte_offloads_validate_flow m is_tun = 0 \/
   netdev_rte_offloads_validate_flow m is_tun = -1) /\
  netdev_rte_offloads_validate_flow (mk_match fl flow_zero) is_tun = 0.
Proof.
  split; [|split].
  - unfold netdev_rte_offloads_validate_flow. cbn [negb andb].
    destruct (flow_tnl_is_all_zeros _); cbn [negb].
    + tauto.
    + split; [discriminate | intros [_ H]; discriminate H].
  - unfold netdev_rte_offloads_validate_flow.
    repeat match goal with
           | |- context [if ?c then _ else _] => destruct c
           end; auto.
  - unfold netdev_rte_offloads_validate_flow.
    cbn [m_flow m_masks]. change (tunnel flow_zero) with flow_tnl_zero.
    rewrite flow_tnl_and_zero. cbn [nw_frag flow_zero].
    rewrite Z.land_0_r. destruct is_tun; reflexivity.
Qed.

(** ** Flow identity records: what is recorded and what is released *)

Lemma destroyed_flow_destroy_events drv flows :
  forall log, map destroyed_flow (destroy_events drv log flows) = map Some flows.
Proof.
  induction flows as [|[nd fl] t IH]; intros log; simpl; [reflexivity|].
  now rewrite IH.
Qed.

Lemma destroy_events_app drv a b :
  forall log,
    destroy_events drv log (a ++ b)
    = destroy_events drv log a
      ++ destroy_events drv (log ++ destroy_events drv log a) b.
Proof.
  induction a as [|[nd fl] t IH]; intros log; simpl.
  - now rewrite app_nil_r.
  - rewrite IH. rewrite <- app_assoc. reflexivity.
Qed.

(** X6.  Releasing an identity record returns 0 whatever the driver answers.
    It makes one destroy call for every handle the record holds, in the
    order of the array, each on the netdev stored beside the handle, and no
    other call; the registries and the driver's handle counter are
    untouched. *)
Theorem hw_offload_free_releases_every_handle (drv : driver)
  (hw : ufid_hw_offload) (w : world) :
  let '(r, w') := netdev_rte_port_ufid_hw_offload_free drv hw w in
  r = 0 /\
  (exists calls,
      hw_log w' = hw_log w ++ calls /\
      map destroyed_flow calls = map Some (recorded_flows hw)) /\
  port_map w' = port_map w /\
  ufid_to_portid_map w' = ufid_to_portid_map w /\
  dpdk_phy_ports_amount w' = dpdk_phy_ports_amount w /\
  hw_next_flow w' = hw_next_flow w.
Proof.
  rewrite free_eq. cbn [set_hw_log hw_log port_map ufid_to_portid_map
                        dpdk_phy_ports_amount hw_next_flow].
  split; [reflexivity|]. split; [|repeat split].
  eexists. split; [reflexivity|]. apply destroyed_flow_destroy_events.
Qed.

Lemma nth_list_set_same {A : Type} (l : list A) (i : nat) (v d : A) :
  (i < length l)%nat -> nth i (list_set l i v) d = v.
Proof.
  revert i. induction l as [|x t IH]; intros [|i] H; simpl in *; try lia.
  - reflexivity.
  - apply IH. lia.
Qed.

Lemma nth_list_set_other {A : Type} (l : list A) (i j : nat) (v d : A) :
  i <> j -> nth j (list_set l i v) d = nth j l d.
Proof.
  revert i j. induction l as [|x t IH]; intros [|i] [|j] H; simpl;
    try reflexivity; try lia.
  apply IH. lia.
Qed.

Lemma length_list_set {A : Type} (l : list A) (i : nat) (v : A) :
  length (list_set l i v) = length l.
Proof.
  revert i. induction l as [|x t IH]; intros [|i]; simpl; auto.
Qed.

Lemma flat_map_ext_on {A B : Type} (f g : A -> list B) (l : list A) :
  (forall a, In a l -> f a = g a) -> flat_map f l = flat_map g l.
Proof.
  induction l as [|x t IH]; intros H; simpl; [reflexivity|].
  rewrite (H x) by now left. rewrite IH; [reflexivity|].
  intros a Ha. apply H. now right.
Qed.

Lemma recorded_flows_add (ufid : ovs_u128) (mx k : Z)
  (data : list rte_flow_params) (fl : rte_flow) (nd : netdev) :
  0 <= k -> (Z.to_nat k < length data)%nat ->
  recorded_flows (mk_hw_offload ufid mx (k + 1)
                    (list_set data (Z.to_nat k) (mk_params (Some fl) nd)))
  = recorded_flows (mk_hw_offload ufid mx k data) ++ [(nd, fl)].
Proof.
  intros Hk Hlen. unfold recorded_flows. cbn [curr_idx rte_flow_data].
  replace (Z.to_nat (k + 1)) with (Z.to_nat k + 1)%nat by lia.
  rewrite seq_app, flat_map_app. cbn [seq flat_map Nat.add].
  rewrite nth_list_set_same by exact Hlen. cbn [rfp_flow rfp_netdev app].
  f_equal. apply flat_map_ext_on. intros i Hi. apply in_seq in Hi.
  rewrite nth_list_set_other by lia. reflexivity.
Qed.

Lemma add_rte_flows_trace (drv : driver) (adds : list (rte_flow * netdev)) :
  forall (hw : ufid_hw_offload) (w : world),
    0 <= curr_idx hw <= max_flows hw ->
    length (rte_flow_data hw) = Z.to_nat (max_flows hw) ->
    let room := Z.to_nat (max_flows hw - curr_idx hw) in
    let '(hw', w') := ufid_hw_offload_add_rte_flows drv hw adds w in
    recorded_flows hw'
    = recorded_flows hw ++ map as_recorded (firstn room adds) /\
    w' = set_hw_log w
           (hw_log w ++ destroy_events drv (hw_log w)
                          (map as_recorded (skipn room adds))).
Proof.
  induction adds as [|[fl nd] rest IH]; intros hw w Hc Hlen room; subst room.
  - cbn [ufid_hw_offload_add_rte_flows]. unfold ret.
    rewrite firstn_nil, skipn_nil. cbn [map destroy_events].
    rewrite !app_nil_r. split; [reflexivity | now destruct w].
  - cbn [ufid_hw_offload_add_rte_flows]. unfold bind.
    unfold ufid_hw_offload_add_rte_flow.
    destruct (curr_idx hw <? max_flows hw) eqn:E.
    + apply Z.ltb_lt in E. unfold ret.
      match goal with
      | |- context [ufid_hw_offload_add_rte_flows drv ?h rest w] =>
          specialize (IH h w)
      end.
      cbn [curr_idx max_flows rte_flow_data] in IH.
      rewrite length_list_set in IH.
      specialize (IH ltac:(lia) Hlen).
      destruct (ufid_hw_offload_add_rte_flows drv _ rest w) as [hw' w'].
      destruct IH as [I1 I2].
      replace (Z.to_nat (max_flows hw - curr_idx hw))
        with (S (Z.to_nat (max_flows hw - (curr_idx hw + 1)))) by lia.
      cbn [firstn skipn map as_recorded fst snd].
      split; [|exact I2].
      rewrite I1.
      destruct hw as [u mx k data]. cbn [hw_ufid max_flows curr_idx
                                         rte_flow_data] in *.
      rewrite recorded_flows_add by lia.
      rewrite <- app_assoc. reflexivity.
    + apply Z.ltb_ge in E. unfold bind. rewrite destroy_eq. unfold ret.
      match goal with
      | |- context [ufid_hw_offload_add_rte_flows drv hw rest ?x] =>
          specialize (IH hw x Hc Hlen)
      end.
      destruct (ufid_hw_offload_add_rte_flows drv hw rest _) as [hw' w'].
      destruct IH as [I1 I2].
      replace (Z.to_nat (max_flows hw - curr_idx hw)) with 0%nat in * by lia.
      cbn [firstn skipn map as_recorded fst snd destroy_events] in *.
      split; [exact I1|]. rewrite I2.
      unfold set_hw_log, world_logged. cbn [hw_log port_map
        dpdk_phy_ports_amount ufid_to_portid_map hw_next_flow].
      rewrite <- app_assoc. reflexivity.
Qed.

(** X7.  Which handles a record keeps.  Of the handles offered one after
    the other to a record created with capacity [capacity], the first
    [capacity] are recorded, in order and each with its netdev; every later
    one is handed to the driver's destroy entry point, in order, and these
    destroy calls are the only change of the state. *)
Theorem ufid_hw_offload_keeps_first_handles (drv : driver) (capacity : Z)
  (ufid : ovs_u128) (adds : list (rte_flow * netdev)) (w : world) :
  0 <= capacity ->
  let '(hw, w') :=
    ufid_hw_offload_add_rte_flows drv
      (netdev_rte_port_ufid_hw_offload_alloc capacity ufid) adds w in
  recorded_flows hw = map as_recorded (firstn (Z.to_nat capacity) adds) /\
  w' = set_hw_log w
         (hw_log w ++
          destroy_events drv (hw_log w)
            (map as_recorded (skipn (Z.to_nat capacity) adds))).
Proof.
  intros Hcap.
  pose proof (add_rte_flows_trace drv adds
                (netdev_rte_port_ufid_hw_offload_alloc capacity ufid) w) as H.
  cbn [netdev_rte_port_ufid_hw_offload_alloc curr_idx max_flows
       rte_flow_data] in H.
  rewrite repeat_length, Z.sub_0_r in H.
  specialize (H ltac:(lia) eq_refl).
  destruct (ufid_hw_offload_add_rte_flows drv _ adds w) as [hw w'].
  exact H.
Qed.

Lemma ufid_hw_offload_keeps_first_handles_witness :
  let '(hw, w') :=
    ufid_hw_offload_add_rte_flows accepting_driver
      (netdev_rte_port_ufid_hw_offload_alloc 2 the_ufid)
      [(10, 101); (11, 102); (12, 103)] world_init in
  recorded_flows hw = [(101, 10); (102, 11)] /\
  hw_log w' = [Ev_destroy 103 12 0].
Proof.
  pose proof (ufid_hw_offload_keeps_first_handles accepting_driver 2 the_ufid
                [(10, 101); (11, 102); (12, 103)] world_init ltac:(lia)) as H.
  destruct (ufid_hw_offload_add_rte_flows accepting_driver _ _ world_init)
    as [hw w'].
  destruct H as [H1 H2]. rewrite H1, H2. split; reflexivity.
Defined.

(** ** The registries across a flow put and a flow delete *)

Lemma update_first_map {A B : Type} (g : A -> B) (p : A -> bool)
  (q : B -> bool) (f : A -> A) (h : B -> B) (l : list A) :
  (forall x, p x = q (g x)) -> (forall x, g (f x) = h (g x)) ->
  map g (update_first p f l) = update_first q h (map g l).
Proof.
  intros Hp Hf. induction l as [|x t IH]; simpl; [reflexivity|].
  rewrite <- Hp. destruct (p x); simpl; [now rewrite Hf | now rewrite IH].
Qed.

Lemma update_first_twice {A : Type} (p : A -> bool) (f g : A -> A)
  (l : list A) :
  (forall x, p (f x) = p x) ->
  update_first p g (update_first p f l) = update_first p (fun x => g (f x)) l.
Proof.
  intros Hp. induction l as [|x t IH]; simpl; [reflexivity|].
  destruct (p x) eqn:E; simpl.
  - now rewrite Hp, E.
  - now rewrite E, IH.
Qed.

Lemma update_first_ext {A : Type} (p : A -> bool) (f g : A -> A)
  (l : list A) :
  (forall x, p x = true -> f x = g x) -> update_first p f l = update_first p g l.
Proof.
  intros H. induction l as [|x t IH]; simpl; [reflexivity|].
  destruct (p x) eqn:E; [now rewrite H | now rewrite IH].
Qed.

Lemma remove_first_none {A : Type} (p : A -> bool) (l : list A) :
  find p l = None -> remove_first p l = l.
Proof.
  induction l as [|x t IH]; simpl; [reflexivity|].
  destruct (p x); [discriminate|]. intros H. now rewrite IH.
Qed.

Lemma search_port_records (dp : odp_port_t) (w : world) :
  option_map rp_ufid_to_rte (netdev_rte_port_search dp (port_map w))
  = option_map snd (find (fun x => dp =? fst x) (port_records w)).
Proof.
  unfold netdev_rte_port_search, port_records.
  induction (port_map w) as [|p t IH]; simpl; [reflexivity|].
  destruct (dp =? rp_dp_port p); [reflexivity | exact IH].
Qed.

Lemma port_records_modify (dp : odp_port_t)
  (f : netdev_rte_port -> netdev_rte_port)
  (g : list ufid_hw_offload -> list ufid_hw_offload) (w : world) :
  (forall p, rp_dp_port (f p) = rp_dp_port p) ->
  (forall p, rp_ufid_to_rte (f p) = g (rp_ufid_to_rte p)) ->
  port_records (snd (port_modify dp f w))
  = update_first (fun x => dp =? fst x) (fun x => (fst x, g (snd x)))
                 (port_records w).
Proof.
  intros Hk Hr. unfold port_records, port_modify, modify.
  cbn [snd port_map set_port_map].
  apply update_first_map; [reflexivity|].
  intros p. cbn [fst snd]. now rewrite Hk, Hr.
Qed.

Lemma port_records_same (w w' : world) :
  map rp_dp_port (port_map w') = map rp_dp_port (port_map w) ->
  map rp_ufid_to_rte (port_map w') = map rp_ufid_to_rte (port_map w) ->
  port_records w' = port_records w.
Proof.
  unfold port_records. generalize (port_map w) as l, (port_map w') as l'.
  induction l as [|p t IH]; intros [|p' t'] Hk Hr; simpl in *;
    try discriminate; [reflexivity|].
  injection Hk as Hk1 Hk2. injection Hr as Hr1 Hr2.
  rewrite Hk1, Hr1. f_equal. now apply IH.
Qed.

Lemma update_first_ext_first {A : Type} (p : A -> bool) (f g : A -> A)
  (l : list A) (x0 : A) :
  find p l = Some x0 -> f x0 = g x0 ->
  update_first p f l = update_first p g l.
Proof.
  induction l as [|x t IH]; simpl; [discriminate|].
  destruct (p x); intros H E.
  - injection H as ->. now rewrite E.
  - now rewrite IH.
Qed.

Lemma search_key (dp : odp_port_t) (l : list netdev_rte_port)
  (p : netdev_rte_port) :
  netdev_rte_port_search dp l = Some p -> rp_dp_port p = dp.
Proof.
  unfold netdev_rte_port_search. intros H. apply find_some in H as [_ H].
  apply Z.eqb_eq in H. auto.
Qed.

Lemma find_port_records (dp : odp_port_t) (w : world) (p : netdev_rte_port) :
  netdev_rte_port_search dp (port_map w) = Some p ->
  find (fun x => dp =? fst x) (port_records w)
  = Some (rp_dp_port p, rp_ufid_to_rte p).
Proof.
  unfold netdev_rte_port_search, port_records.
  induction (port_map w) as [|q t IH]; simpl; [discriminate|].
  destruct (dp =? rp_dp_port q); [now intros [= ->] | exact IH].
Qed.

Lemma port_records_search (dp : odp_port_t) (w : world)
  (l : list ufid_hw_offload) :
  option_map snd (find (fun x => dp =? fst x) (port_records w)) = Some l ->
  exists p, netdev_rte_port_search dp (port_map w) = Some p /\
            rp_ufid_to_rte p = l.
Proof.
  rewrite <- search_port_records.
  destruct (netdev_rte_port_search dp (port_map w)) as [p|]; [|discriminate].
  intros [= <-]. eauto.
Qed.

Lemma snd_ufid_hw_offload_remove (ufid : ovs_u128) (l : list ufid_hw_offload) :
  snd (ufid_hw_offload_remove ufid l)
  = remove_first (fun d => ovs_u128_equals ufid (hw_ufid d)) l.
Proof.
  unfold ufid_hw_offload_remove, ufid_hw_offload_find.
  destruct (find _ l) eqn:E; [reflexivity|].
  cbn [snd]. symmetry. now apply remove_first_none.
Qed.

(** Recording the handle of a put in the fresh record at the head of the
    port's records. *)
Lemma add_rte_flow_at_records drv dp ufid fl nd w p rest :
  netdev_rte_port_search dp (port_map w) = Some p ->
  rp_ufid_to_rte p = netdev_rte_port_ufid_hw_offload_alloc 1 ufid :: rest ->
  let w' := snd (ufid_hw_offload_add_rte_flow_at drv dp ufid fl nd w) in
  hw_log w' = hw_log w /\ hw_next_flow w' = hw_next_flow w /\
  ufid_to_portid_map w' = ufid_to_portid_map w /\
  dpdk_phy_ports_amount w' = dpdk_phy_ports_amount w /\
  port_records w'
  = update_first (fun x => dp =? fst x)
      (fun x => (fst x,
                 update_first (fun d => ovs_u128_equals ufid (hw_ufid d))
                              (fun _ => single_record ufid nd fl) (snd x)))
      (port_records w).
Proof.
  intros Hp Hr w'. subst w'.
  unfold ufid_hw_offload_add_rte_flow_at, ufid_hw_offload_add_rte_flow,
    hw_offload_modify, bind, get_world, ret.
  cbv beta iota. rewrite Hp, Hr.
  unfold ufid_hw_offload_find, netdev_rte_port_ufid_hw_offload_alloc.
  cbn [find hw_ufid]. rewrite ovs_u128_equals_refl.
  cbn [curr_idx max_flows Z.ltb Z.compare snd fst].
  repeat split.
  apply port_records_modify; reflexivity.
Qed.

Lemma portid_add_map ufid dp x y :
  ufid_to_portid_map x = ufid_to_portid_map y ->
  ufid_to_portid_map (snd (ufid_to_portid_add ufid dp x))
  = ufid_to_portid_map (snd (ufid_to_portid_add ufid dp y)).
Proof.
  intros H. unfold ufid_to_portid_add. rewrite H.
  destruct (negb _); cbn [snd ufid_to_portid_map set_ufid_to_portid_map];
    now rewrite ?H.
Qed.

Lemma portid_add_amount ufid dp x :
  dpdk_phy_ports_amount (snd (ufid_to_portid_add ufid dp x))
  = dpdk_phy_ports_amount x.
Proof. unfold ufid_to_portid_add. now destruct (negb _). Qed.

(** Everything a flow put on a registered port does to the state. *)
Lemma flow_put_trace drv nd m actions ufid info w rte_port :
  netdev_rte_port_search (in_port (m_flow m)) (port_map w) = Some rte_port ->
  let '(r, _, w') :=
    netdev_rte_offloads_flow_put drv nd m actions ufid info w in
  exists creates new_rec,
    hw_log w'
    = hw_log w
      ++ destroy_events drv (hw_log w) (old_flows ufid (in_port (m_flow m)) w)
      ++ creates /\
    forallb is_create creates = true /\
    forallb (fresh_from (hw_next_flow w)) creates = true /\
    ufid_to_portid_map w'
    = ufid_to_portid_map
        (snd (ufid_to_portid_add ufid (in_port (m_flow m)) w)) /\
    dpdk_phy_ports_amount w' = dpdk_phy_ports_amount w /\
    port_records w'
    = update_first (fun x => in_port (m_flow m) =? fst x)
        (fun x => (fst x,
                   new_rec
                     :: remove_first
                          (fun d => ovs_u128_equals ufid (hw_ufid d)) (snd x)))
        (port_records w) /\
    ((r = 0 /\
      exists fl, new_rec = single_record ufid nd fl /\
                 In (Some (nd, fl)) (map created_flow creates)) \/
     (r <> 0 /\ new_rec = netdev_rte_port_ufid_hw_offload_alloc 1 ufid)).
Proof.
  intros Hport.
  pose proof (search_key _ _ _ Hport) as Hkey.
  pose proof (find_port_records _ _ _ Hport) as Hrec0.
  destruct (netdev_rte_offloads_flow_put drv nd m actions ufid info w)
    as [[r info'] w'] eqn:H.
  unfold netdev_rte_offloads_flow_put in H.
  unfold bind at 1 in H. unfold get_world at 1 in H. cbv beta iota in H.
  rewrite Hport, Hkey in H.
  unfold old_flows, hw_offload_of. rewrite Hport.
  set (dp := in_port (m_flow m)) in *.
  set (um := fun d => ovs_u128_equals ufid (hw_ufid d)).
  set (alloc := netdev_rte_port_ufid_hw_offload_alloc 1 ufid) in *.
  (* the state when the new record and the reverse mapping are in place *)
  assert (Hpre :
    exists w4,
      (if netdev_rte_offloads_validate_flow m false <? 0
       then ret (EINVAL, info)
       else
         bind (netdev_rte_offloads_add_flow drv nd m actions ufid info)
              (fun x => let '(rte_flow_, info0) := x in
                        match rte_flow_ with
                        | Some fl =>
                            bind (ufid_hw_offload_add_rte_flow_at drv dp ufid
                                                                  fl nd)
                                 (fun _ => ret (0, info0))
                        | None => ret (ENODEV, info0)
                        end)) w4 = (r, info', w') /\
      hw_log w4
      = hw_log w
        ++ destroy_events drv (hw_log w)
             (match ufid_hw_offload_find ufid (rp_ufid_to_rte rte_port) with
              | Some old => recorded_flows old
              | None => []
              end) /\
      hw_next_flow w4 = hw_next_flow w /\
      ufid_to_portid_map w4
      = ufid_to_portid_map (snd (ufid_to_portid_add ufid dp w)) /\
      dpdk_phy_ports_amount w4 = dpdk_phy_ports_amount w /\
      port_records w4
      = update_first (fun x => dp =? fst x)
          (fun x => (fst x, alloc :: remove_first um (snd x)))
          (port_records w)).
  { destruct (ufid_hw_offload_find ufid (rp_ufid_to_rte rte_port))
      as [old|] eqn:Hold.
    - unfold bind at 1 in H. unfold bind at 1 in H.
      rewrite port_modify_eq in H. cbv beta iota in H.
      rewrite free_eq in H. cbv beta iota in H.
      change (0 <? 0) with false in H. cbv beta iota in H.
      unfold bind at 1 in H. rewrite port_modify_eq in H. cbv beta iota in H.
      unfold bind at 1 in H. rewrite portid_add_eq in H. cbv beta iota in H.
      eexists. split; [exact H|].
      rewrite (proj1 (proj2 (portid_add_frame _ _ _))).
      rewrite (proj2 (proj2 (portid_add_frame _ _ _))).
      split; [reflexivity|]. split; [reflexivity|].
      split; [|split].
      + apply portid_add_map. reflexivity.
      + rewrite portid_add_amount. reflexivity.
      + unfold port_records at 1.
        rewrite (proj1 (portid_add_frame _ _ _)).
        change (map (fun p => (rp_dp_port p, rp_ufid_to_rte p))
                    (port_map (snd (port_modify dp ?f ?x))))
          with (port_records (snd (port_modify dp f x))).
        rewrite (port_records_modify dp _ (fun l => alloc :: l))
          by reflexivity.
        match goal with
        | |- context [port_records (set_hw_log ?x ?l)] =>
            change (port_records (set_hw_log x l)) with (port_records x)
        end.
        rewrite (port_records_modify dp _ (remove_first um)).
        * rewrite update_first_twice by reflexivity. reflexivity.
        * reflexivity.
        * intros p. cbn [rp_ufid_to_rte set_rp_ufid_to_rte].
          apply snd_ufid_hw_offload_remove.
    - unfold bind at 1 in H. unfold ret at 1 in H. cbv beta iota in H.
      change (0 <? 0) with false in H. cbv beta iota in H.
      unfold bind at 1 in H. rewrite port_modify_eq in H. cbv beta iota in H.
      unfold bind at 1 in H. rewrite portid_add_eq in H. cbv beta iota in H.
      eexists. split; [exact H|].
      rewrite (proj1 (proj2 (portid_add_frame _ _ _))).
      rewrite (proj2 (proj2 (portid_add_frame _ _ _))).
      cbn [destroy_events]. rewrite app_nil_r.
      split; [reflexivity|]. split; [reflexivity|].
      split; [|split].
      + apply portid_add_map. reflexivity.
      + rewrite portid_add_amount. reflexivity.
      + unfold port_records at 1.
        rewrite (proj1 (portid_add_frame _ _ _)).
        change (map (fun p => (rp_dp_port p, rp_ufid_to_rte p))
                    (port_map (snd (port_modify dp ?f ?x))))
          with (port_records (snd (port_modify dp f x))).
        rewrite (port_records_modify dp _ (fun l => alloc :: l))
          by reflexivity.
        eapply update_first_ext_first; [exact Hrec0|].
        cbn [fst snd]. f_equal. f_equal. symmetry.
        apply remove_first_none. exact Hold. }
  clear H. destruct Hpre as (w4 & H & Hlog4 & Hnext4 & Hmap4 & Hamt4 & Hrec4).
  destruct (netdev_rte_offloads_validate_flow m false <? 0).
  { unfold ret in H. injection H as <- _ <-.
    exists [], alloc. rewrite app_nil_r.
    repeat split; try assumption; try reflexivity.
    right. split; [discriminate | reflexivity]. }
  unfold bind at 1 in H.
  destruct (netdev_rte_offloads_add_flow drv nd m actions ufid info w4)
    as [[res info5] w5] eqn:Hadd.
  apply add_flow_creates_only in Hadd as (cs & Hcs & Hres).
  destruct Hcs as (C1 & C2 & C3 & C4 & C5 & C6 & C7 & C8).
  pose proof (port_records_same _ _ C3 C4) as Hrec5.
  destruct res as [fl|].
  - unfold bind at 1 in H.
    assert (Hp5 : exists p5,
               netdev_rte_port_search dp (port_map w5) = Some p5 /\
               rp_ufid_to_rte p5
               = alloc :: remove_first um (rp_ufid_to_rte rte_port)).
    { apply port_records_search. rewrite Hrec5, Hrec4.
      rewrite find_update_first_map by reflexivity.
      rewrite Hrec0. reflexivity. }
    destruct Hp5 as (p5 & Hp5 & Hr5).
    pose proof (add_rte_flow_at_records drv dp ufid fl nd w5 p5 _ Hp5 Hr5)
      as Hfin.
    destruct (ufid_hw_offload_add_rte_flow_at drv dp ufid fl nd w5)
      as [u w6].
    cbn [snd] in Hfin.
    destruct Hfin as (Hlog6 & Hnext6 & Hmap6 & Hamt6 & Hrec6).
    unfold ret in H. injection H as <- _ <-.
    exists cs, (single_record ufid nd fl).
    rewrite Hlog6, C5, Hlog4, <- app_assoc, Hmap6, C1, Hamt6, C2.
    rewrite <- Hnext4.
    repeat split; try assumption.
    + rewrite Hrec6, Hrec5, Hrec4.
      rewrite update_first_twice by reflexivity.
      apply update_first_ext. intros x _. cbn [fst snd update_first].
      subst um alloc. unfold netdev_rte_port_ufid_hw_offload_alloc.
      cbn [hw_ufid]. rewrite ovs_u128_equals_refl. reflexivity.
    + left. split; [reflexivity|]. exists fl. split; [reflexivity|].
      now apply Hres.
  - unfold ret in H. injection H as <- _ <-.
    exists cs, alloc.
    rewrite C5, Hlog4, <- app_assoc, C1, C2, Hrec5. rewrite <- Hnext4.
    repeat split; try assumption.
    right. split; [discriminate | reflexivity].
Qed.

Lemma update_first_id {A : Type} (p : A -> bool) (l : list A) :
  update_first p (fun x => x) l = l.
Proof.
  induction l as [|x t IH]; simpl; [reflexivity|].
  destruct (p x); [reflexivity | now rewrite IH].
Qed.

Lemma hw_offload_of_records (dp : odp_port_t) (ufid : ovs_u128) (w : world) :
  hw_offload_of dp ufid w
  = match find (fun x => dp =? fst x) (port_records w) with
    | Some x => ufid_hw_offload_find ufid (snd x)
    | None => None
    end.
Proof.
  unfold hw_offload_of.
  pose proof (search_port_records dp w) as H.
  destruct (netdev_rte_port_search dp (port_map w)) as [p|];
    destruct (find (fun x => dp =? fst x) (port_records w)) as [x|];
    cbn [option_map] in H; try discriminate H; [|reflexivity].
  now injection H as ->.
Qed.

(** Everything a flow delete does when the reverse map leads to a
    registered port. *)
Lemma flow_del_trace drv ufid w p :
  ufid_to_portid_search ufid (ufid_to_portid_map w) <> INVALID_ODP_PORT ->
  netdev_rte_port_search (ufid_to_portid_search ufid (ufid_to_portid_map w))
                         (port_map w) = Some p ->
  exists w',
    netdev_offloads_flow_del drv ufid w = (0, w') /\
    hw_log w'
    = hw_log w
      ++ destroy_events drv (hw_log w)
           (old_flows ufid
              (ufid_to_portid_search ufid (ufid_to_portid_map w)) w) /\
    hw_next_flow w' = hw_next_flow w /\
    dpdk_phy_ports_amount w' = dpdk_phy_ports_amount w /\
    ufid_to_portid_map w'
    = remove_first (fun d => ovs_u128_equals ufid (uo_ufid d))
                   (ufid_to_portid_map w) /\
    port_records w'
    = update_first
        (fun x => ufid_to_portid_search ufid (ufid_to_portid_map w) =? fst x)
        (fun x => (fst x,
                   remove_first (fun d => ovs_u128_equals ufid (hw_ufid d))
                                (snd x)))
        (port_records w).
Proof.
  intros Hdp Hport.
  pose proof (find_port_records _ _ _ Hport) as Hrec0.
  unfold netdev_offloads_flow_del, old_flows, hw_offload_of.
  unfold bind at 1. unfold get_world at 1. cbv beta iota zeta.
  set (dp := ufid_to_portid_search ufid (ufid_to_portid_map w)) in *.
  apply Z.eqb_neq in Hdp. rewrite Hdp, Hport.
  assert (Hget : exists d, ufid_to_portid_get ufid (ufid_to_portid_map w)
                           = Some d).
  { subst dp. unfold ufid_to_portid_search in Hdp.
    destruct (ufid_to_portid_get ufid (ufid_to_portid_map w)) as [d|];
      [eauto | discriminate Hdp]. }
  destruct Hget as [d Hget].
  unfold bind at 1. unfold ufid_to_portid_remove at 1. rewrite Hget.
  cbv beta iota.
  destruct (ufid_hw_offload_find ufid (rp_ufid_to_rte p)) as [old|] eqn:Hold.
  - unfold bind at 1. rewrite port_modify_eq. cbv beta iota.
    unfold bind at 1. rewrite free_eq. unfold ret.
    eexists. split; [reflexivity|].
    repeat split.
    match goal with
    | |- port_records (set_hw_log ?x ?l) = _ =>
        change (port_records (set_hw_log x l)) with (port_records x)
    end.
    rewrite (port_records_modify dp _
               (remove_first (fun d0 => ovs_u128_equals ufid (hw_ufid d0)))).
    + reflexivity.
    + reflexivity.
    + intros q. cbn [rp_ufid_to_rte set_rp_ufid_to_rte].
      apply snd_ufid_hw_offload_remove.
  - unfold ret. eexists. split; [reflexivity|].
    cbn [destroy_events]. rewrite app_nil_r.
    repeat split.
    change (port_records (set_ufid_to_portid_map w ?l))
      with (port_records w).
    rewrite <- (update_first_id (fun x => dp =? fst x) (port_records w))
      at 1.
    eapply update_first_ext_first; [exact Hrec0|].
    cbn [fst snd]. f_equal. symmetry. now apply remove_first_none.
Qed.

Lemma ovs_u128_equals_eq (a b : ovs_u128) :
  ovs_u128_equals a b = true -> a = b.
Proof.
  unfold ovs_u128_equals. destruct a, b; simpl.
  intros H. apply andb_true_iff in H as [H1 H2].
  apply Z.eqb_eq in H1, H2. congruence.
Qed.

Lemma ovs_u128_equals_sym (a b : ovs_u128) :
  ovs_u128_equals a b = ovs_u128_equals b a.
Proof. unfold ovs_u128_equals. now rewrite (Z.eqb_sym (fst a)), (Z.eqb_sym (snd a)). Qed.

Lemma ovs_u128_equals_other (a b c : ovs_u128) :
  ovs_u128_equals a b = false -> ovs_u128_equals b c = true ->
  ovs_u128_equals a c = false.
Proof. intros H E. apply ovs_u128_equals_eq in E. now subst. Qed.

Lemma find_remove_first_other {A : Type} (p q : A -> bool) (l : list A) :
  (forall x, q x = true -> p x = false) ->
  find q (remove_first p l) = find q l.
Proof.
  intros H. induction l as [|x t IH]; simpl; [reflexivity|].
  destruct (p x) eqn:E.
  - destruct (q x) eqn:Q; [|reflexivity]. rewrite (H x Q) in E. discriminate.
  - simpl. now rewrite IH.
Qed.

Lemma find_update_first_other {A : Type} (p q : A -> bool) (f : A -> A)
  (l : list A) :
  (forall x, q (f x) = q x) -> (forall x, q x = true -> p x = false) ->
  find q (update_first p f l) = find q l.
Proof.
  intros Hf H. induction l as [|x t IH]; simpl; [reflexivity|].
  destruct (p x) eqn:E; simpl.
  - rewrite Hf. destruct (q x) eqn:Q; [|reflexivity].
    rewrite (H x Q) in E. discriminate.
  - now rewrite IH.
Qed.

(** ** The reverse map: insert, look up, remove *)

(** X8.  Adding a mapping for a ufid the reverse map does not know stores
    it: the ufid then leads to the port given, every other ufid leads where
    it led before, and removing the mapping again gives back the map as it
    was. *)
Theorem ufid_to_portid_insert_lookup_remove (ufid other : ovs_u128)
  (dp_port : odp_port_t) (w : world) :
  ufid_to_portid_search ufid (ufid_to_portid_map w) = INVALID_ODP_PORT ->
  ovs_u128_equals ufid other = false ->
  let '(r, w1) := ufid_to_portid_add ufid dp_port w in
  r = dp_port /\
  ufid_to_portid_search ufid (ufid_to_portid_map w1) = dp_port /\
  ufid_to_portid_search other (ufid_to_portid_map w1)
  = ufid_to_portid_search other (ufid_to_portid_map w) /\
  snd (ufid_to_portid_remove ufid w1) = w.
Proof.
  intros Habsent Hother. unfold ufid_to_portid_add.
  rewrite Habsent, Z.eqb_refl. cbn [negb].
  unfold ufid_to_portid_search, ufid_to_portid_get, ufid_to_portid_remove.
  cbn [ufid_to_portid_map set_ufid_to_portid_map find uo_ufid uo_dp_port].
  rewrite ovs_u128_equals_refl.
  rewrite (ovs_u128_equals_sym other ufid), Hother.
  cbn [snd remove_first uo_ufid]. rewrite ovs_u128_equals_refl.
  repeat split. unfold ufid_to_portid_get. cbn [find uo_ufid].
  rewrite ovs_u128_equals_refl. now destruct w.
Qed.

Lemma ufid_to_portid_insert_lookup_remove_witness :
  let '(r, w1) := ufid_to_portid_add (0, 8) 2 modified_world in
  r = 2 /\
  ufid_to_portid_search (0, 8) (ufid_to_portid_map w1) = 2 /\
  ufid_to_portid_search the_ufid (ufid_to_portid_map w1) = 1 /\
  snd (ufid_to_portid_remove (0, 8) w1) = modified_world.
Proof.
  exact (ufid_to_portid_insert_lookup_remove (0, 8) the_ufid 2 modified_world
           eq_refl eq_refl).
Defined.

(** ** Requests that name an unknown port or ufid *)

(** X9.  A flow put whose ingress port is not registered fails with EINVAL,
    and a flow delete fails with EINVAL when the reverse map does not know
    the ufid and with ENODEV when the port it names is not registered.  A
    put through the tunnel-port entry point on a port that is not registered
    or is not a VXLAN port is answered with 0 (EOPNOTSUPP when the match is
    not supported) and does nothing.  None of these calls changes the state
    or reaches the driver. *)
Theorem requests_on_unknown_keys (drv : driver) (nd : netdev) (m : match_)
  (actions : nl_actions_t) (ufid : ovs_u128) (info : offload_info) (w : world) :
  (netdev_rte_port_search (in_port (m_flow m)) (port_map w) = None ->
   netdev_rte_offloads_flow_put drv nd m actions ufid info w
   = (EINVAL, info, w)) /\
  (ufid_to_portid_search ufid (ufid_to_portid_map w) = INVALID_ODP_PORT \/
   netdev_rte_port_search (ufid_to_portid_search ufid (ufid_to_portid_map w))
                          (port_map w) = None ->
   netdev_offloads_flow_del drv ufid w
   = (if ufid_to_portid_search ufid (ufid_to_portid_map w)
         =? INVALID_ODP_PORT then EINVAL else ENODEV, w)) /\
  (option_map rp_rte_port_type
     (netdev_rte_port_search (in_port (m_flow m)) (port_map w))
   <> Some RTE_PORT_TYPE_VXLAN ->
   netdev_rte_vport_flow_put drv m actions ufid info w
   = (if nonzero (netdev_rte_offloads_validate_flow m true)
      then EOPNOTSUPP else 0, info, w)).
Proof.
  split; [|split].
  - intros H. unfold netdev_rte_offloads_flow_put, bind, get_world.
    now rewrite H.
  - intros H. unfold netdev_offloads_flow_del, bind, get_world.
    cbv beta iota zeta.
    destruct (_ =? INVALID_ODP_PORT) eqn:E; [reflexivity|].
    destruct H as [H | H]; [rewrite H in E; discriminate E|].
    now rewrite H.
  - intros H. unfold netdev_rte_vport_flow_put.
    destruct (nonzero _); [reflexivity|].
    unfold bind, get_world.
    destruct (netdev_rte_port_search _ _) as [p|]; [|reflexivity].
    cbn [option_map] in H.
    destruct (rp_rte_port_type p); try reflexivity.
    now contradiction H.
Qed.

Lemma requests_on_unknown_keys_witness :
  netdev_rte_offloads_flow_put accepting_driver 109 port1_match
    (Some [OVS_ACTION_ATTR_OUTPUT 1]) the_ufid the_info world_init
  = (EINVAL, the_info, world_init) /\
  netdev_offloads_flow_del accepting_driver the_ufid tunnel_pop_world
  = (EINVAL, tunnel_pop_world) /\
  netdev_rte_vport_flow_put accepting_driver port1_match
    (Some [OVS_ACTION_ATTR_OUTPUT 1]) the_ufid the_info tunnel_pop_world
  = (0, the_info, tunnel_pop_world).
Proof.
  split; [|split].
  - apply (proj1 (requests_on_unknown_keys accepting_driver 109 port1_match
                    (Some [OVS_ACTION_ATTR_OUTPUT 1]) the_ufid the_info
                    world_init)).
    reflexivity.
  - apply (proj1 (proj2 (requests_on_unknown_keys accepting_driver 109
                           port1_match None the_ufid the_info
                           tunnel_pop_world))).
    left. reflexivity.
  - apply (proj2 (proj2 (requests_on_unknown_keys accepting_driver 109
                           port1_match (Some [OVS_ACTION_ATTR_OUTPUT 1])
                           the_ufid the_info tunnel_pop_world))).
    vm_compute. discriminate.
Defined.

(** ** Flow delete, and a put undone by a delete *)

(** X10.  A flow delete of a ufid the reverse map leads to a registered port
    for returns 0.  It removes the reverse mapping and the identity record of
    the ufid on that port, makes exactly one destroy call for every handle
    the record held, in order, and nothing else: no creation, and no other
    record of any port is touched. *)
Theorem flow_del_releases_offload (drv : driver) (ufid : ovs_u128) (w : world)
  (p : netdev_rte_port) :
  ufid_to_portid_search ufid (ufid_to_portid_map w) <> INVALID_ODP_PORT ->
  netdev_rte_port_search (ufid_to_portid_search ufid (ufid_to_portid_map w))
                         (port_map w) = Some p ->
  let dp := ufid_to_portid_search ufid (ufid_to_portid_map w) in
  let '(r, w') := netdev_offloads_flow_del drv ufid w in
  r = 0 /\
  (exists calls,
      hw_log w' = hw_log w ++ calls /\
      map destroyed_flow calls = map Some (old_flows ufid dp w)) /\
  ufid_to_portid_map w'
  = remove_first (fun d => ovs_u128_equals ufid (uo_ufid d))
                 (ufid_to_portid_map w) /\
  port_records w'
  = update_first (fun x => dp =? fst x)
      (fun x => (fst x,
                 remove_first (fun d => ovs_u128_equals ufid (hw_ufid d))
                              (snd x)))
      (port_records w) /\
  (forall dp' ufid',
      dp' <> dp \/ ovs_u128_equals ufid ufid' = false ->
      hw_offload_of dp' ufid' w' = hw_offload_of dp' ufid' w) /\
  dpdk_phy_ports_amount w' = dpdk_phy_ports_amount w.
Proof.
  intros Hdp Hport dp.
  destruct (flow_del_trace drv ufid w p Hdp Hport)
    as (w' & -> & Hlog & _ & Hamt & Hmap & Hrec).
  fold dp in Hlog, Hrec.
  split; [reflexivity|]. split; [|split; [exact Hmap|split; [exact Hrec|]]].
  - eexists. split; [exact Hlog|]. apply destroyed_flow_destroy_events.
  - split; [|exact Hamt].
    intros dp' ufid' Hother. rewrite !hw_offload_of_records, Hrec.
    destruct (Z.eq_dec dp' dp) as [-> | Hne].
    + destruct Hother as [Hother | Hother]; [now contradiction Hother|].
      rewrite find_update_first_map by reflexivity.
      destruct (find (fun x => dp =? fst x) (port_records w)) as [x|];
        [|reflexivity].
      cbn [option_map snd]. unfold ufid_hw_offload_find.
      apply find_remove_first_other. intros d Hd.
      exact (ovs_u128_equals_other ufid ufid' (hw_ufid d) Hother Hd).
    + rewrite find_update_first_other; [reflexivity | reflexivity |].
      intros x Hx. apply Z.eqb_eq in Hx. apply Z.eqb_neq. congruence.
Qed.

Lemma flow_del_releases_offload_witness :
  let '(r, w') := netdev_offloads_flow_del accepting_driver the_ufid
                                           modified_world in
  r = 0 /\
  (exists calls,
      hw_log w' = hw_log modified_world ++ calls /\
      map destroyed_flow calls = [Some (101, 1)]) /\
  ufid_to_portid_map w' = [] /\
  hw_offload_of 1 the_ufid w' = None.
Proof.
  pose proof (flow_del_releases_offload accepting_driver the_ufid
                modified_world modified_port) as H.
  cbv zeta in H.
  destruct (netdev_offloads_flow_del accepting_driver the_ufid modified_world)
    as [r w'].
  destruct H as (H1 & H2 & H3 & H4 & _).
  - vm_compute. discriminate.
  - reflexivity.
  - split; [exact H1|]. split; [exact H2|]. split; [exact H3|].
    rewrite hw_offload_of_records, H4. reflexivity.
Defined.

Lemma portid_add_absent ufid dp w :
  ufid_to_portid_search ufid (ufid_to_portid_map w) = INVALID_ODP_PORT ->
  ufid_to_portid_map (snd (ufid_to_portid_add ufid dp w))
  = mk_ufid_to_odp ufid dp :: ufid_to_portid_map w.
Proof.
  intros H. unfold ufid_to_portid_add. rewrite H, Z.eqb_refl. reflexivity.
Qed.




(** X12.  A put undone by a delete.  When the ufid is new (the ingress port
    holds no record for it and the reverse map does not know it), a flow put
    followed by a flow delete of the same ufid leaves both registries exactly
    as they were before the put, whether the put succeeded or not; the
    delete returns 0.  The driver received creations from the put and then,
    from the delete, one destroy call for the handle the put recorded, or no
    call at all when the put failed and recorded nothing. *)
Theorem flow_put_then_del_restores_registries (drv : driver) (nd : netdev)
  (m : match_) (actions : nl_actions_t) (ufid : ovs_u128)
  (info : offload_info) (w : world) (rte_port : netdev_rte_port) :
  netdev_rte_port_search (in_port (m_flow m)) (port_map w) = Some rte_port ->
  ufid_hw_offload_find ufid (rp_ufid_to_rte rte_port) = None ->
  ufid_to_portid_search ufid (ufid_to_portid_map w) = INVALID_ODP_PORT ->
  in_port (m_flow m) <> INVALID_ODP_PORT ->
  let '(r, _, w1) :=
    netdev_rte_offloads_flow_put drv nd m actions ufid info w in
  let '(r2, w2) := netdev_offloads_flow_del drv ufid w1 in
  r2 = 0 /\
  port_records w2 = port_records w /\
  ufid_to_portid_map w2 = ufid_to_portid_map w /\
  dpdk_phy_ports_amount w2 = dpdk_phy_ports_amount w /\
  exists creates destroys,
    hw_log w2 = hw_log w ++ creates ++ destroys /\
    forallb is_create creates = true /\
    ((r = 0 /\
      exists fl, In (Some (nd, fl)) (map created_flow creates) /\
                 map destroyed_flow destroys = [Some (nd, fl)]) \/
     (r <> 0 /\ destroys = [])).
Proof.
  intros Hport Hnone Habsent Hvalid.
  pose proof (flow_put_trace drv nd m actions ufid info w rte_port Hport) as H.
  pose proof (find_port_records _ _ _ Hport) as Hrec0.
  pose proof (search_key _ _ _ Hport) as Hkey.
  destruct (netdev_rte_offloads_flow_put drv nd m actions ufid info w)
    as [[r info'] w1].
  destruct H as (creates & new_rec & Hlog & Hcr & _ & Hmap & Hamt & Hrec & Hnew).
  set (dp := in_port (m_flow m)) in *.
  assert (Holds : old_flows ufid dp w = []).
  { unfold old_flows, hw_offload_of. now rewrite Hport, Hnone. }
  rewrite Holds in Hlog. cbn [destroy_events app] in Hlog.
  rewrite portid_add_absent in Hmap by exact Habsent.
  assert (Hu : hw_ufid new_rec = ufid).
  { destruct Hnew as [(_ & fl & -> & _) | (_ & ->)]; reflexivity. }
  assert (Hs1 : ufid_to_portid_search ufid (ufid_to_portid_map w1) = dp).
  { rewrite Hmap. unfold ufid_to_portid_search, ufid_to_portid_get.
    cbn [find uo_ufid]. now rewrite ovs_u128_equals_refl. }
  assert (Hf1 : find (fun x => dp =? fst x) (port_records w1)
                = Some (dp, new_rec :: rp_ufid_to_rte rte_port)).
  { rewrite Hrec, find_update_first_map by reflexivity.
    rewrite Hrec0. cbn [option_map fst snd]. rewrite Hkey.
    now rewrite (remove_first_none _ _ Hnone). }
  assert (Hp1 : exists p1, netdev_rte_port_search dp (port_map w1) = Some p1).
  { destruct (port_records_search dp w1 (new_rec :: rp_ufid_to_rte rte_port))
      as (p1 & Hp1 & _); [now rewrite Hf1 | eauto]. }
  destruct Hp1 as [p1 Hp1].
  assert (Holds1 : old_flows ufid dp w1 = recorded_flows new_rec).
  { unfold old_flows. rewrite hw_offload_of_records, Hf1.
    unfold ufid_hw_offload_find. cbn [snd find].
    now rewrite Hu, ovs_u128_equals_refl. }
  destruct (flow_del_trace drv ufid w1 p1) as
    (w2 & -> & Hlog2 & _ & Hamt2 & Hmap2 & Hrec2).
  { rewrite Hs1. exact Hvalid. }
  { rewrite Hs1. exact Hp1. }
  rewrite Hs1 in Hlog2, Hrec2. rewrite Holds1 in Hlog2.
  split; [reflexivity|]. split; [|split; [|split]].
  - rewrite Hrec2, Hrec, update_first_twice by reflexivity.
    rewrite <- (update_first_id (fun x => dp =? fst x) (port_records w))
      at 2.
    eapply update_first_ext_first; [exact Hrec0|].
    cbn [fst snd remove_first]. rewrite Hu, ovs_u128_equals_refl.
    now rewrite (remove_first_none _ _ Hnone).
  - rewrite Hmap2, Hmap. cbn [remove_first uo_ufid].
    now rewrite ovs_u128_equals_refl.
  - congruence.
  - exists creates. eexists. split; [|split; [exact Hcr|]].
    + rewrite Hlog2, Hlog, <- app_assoc. reflexivity.
    + destruct Hnew as [(-> & fl & -> & Hin) | (Hr & ->)].
      * left. split; [reflexivity|]. exists fl. split; [exact Hin|].
        reflexivity.
      * right. split; [exact Hr | reflexivity].
Qed.

Lemma flow_put_then_del_restores_registries_witness :
  let '(r, _, w1) :=
    netdev_rte_offloads_flow_put accepting_driver 101 port1_match
      (Some [OVS_ACTION_ATTR_OUTPUT 1]) the_ufid the_info tunnel_pop_world in
  let '(r2, w2) := netdev_offloads_flow_del accepting_driver the_ufid w1 in
  r = 0 /\ r2 = 0 /\
  port_records w2 = port_records tunnel_pop_world /\
  ufid_to_portid_map w2 = [] /\
  map summary (hw_log w2) = [Created 101 0 0 1 (Some 1); Destroyed 101 1].
Proof.
  pose proof (flow_put_then_del_restores_registries accepting_driver 101
                port1_match (Some [OVS_ACTION_ATTR_OUTPUT 1]) the_ufid the_info
                tunnel_pop_world (phy_port 1 101 0) eq_refl eq_refl eq_refl)
    as H.
  destruct (netdev_rte_offloads_flow_put accepting_driver 101 port1_match
              (Some [OVS_ACTION_ATTR_OUTPUT 1]) the_ufid the_info
              tunnel_pop_world) as [[r info'] w1] eqn:E1.
  destruct (netdev_offloads_flow_del accepting_driver the_ufid w1)
    as [r2 w2] eqn:E2.
  destruct H as (H1 & H2 & H3 & _); [vm_compute; discriminate|].
  vm_compute in E1. injection E1 as <- _ <-.
  split; [reflexivity|]. split; [exact H1|]. split; [exact H2|].
  split; [exact H3|].
  vm_compute in E2. injection E2 as _ <-. reflexivity.
Defined.

(** ** Flow put on a VXLAN port *)

Lemma update_first_none {A : Type} (p : A -> bool) (f : A -> A) (l : list A) :
  find p l = None -> update_first p f l = l.
Proof.
  induction l as [|x t IH]; simpl; [reflexivity|].
  destruct (p x); [discriminate|]. intros H. now rewrite IH.
Qed.

Lemma search_same_dp_ports (dp : odp_port_t) (l l' : list netdev_rte_port) :
  map rp_dp_port l' = map rp_dp_port l ->
  is_some (netdev_rte_port_search dp l')
  = is_some (netdev_rte_port_search dp l).
Proof.
  revert l'. induction l as [|p t IH]; intros [|p' t'] Hk; simpl in *;
    try discriminate; [reflexivity|].
  injection Hk as Hk1 Hk2. rewrite Hk1.
  destruct (dp =? rp_dp_port p); [reflexivity | auto].
Qed.

(** The status and the bitmap the action scan leaves depend on which ports
    are registered only. *)
Lemma vxlan_scan_same_dp_ports (l l' : list netdev_rte_port)
  (attrs : list nlattr) :
  map rp_dp_port l' = map rp_dp_port l ->
  forall a b,
    vx_ret a = vx_ret b -> vx_action_bitmap a = vx_action_bitmap b ->
    vx_out a = vx_out b ->
    vx_ret (vxlan_scan_actions l' attrs a)
    = vx_ret (vxlan_scan_actions l attrs b) /\
    vx_action_bitmap (vxlan_scan_actions l' attrs a)
    = vx_action_bitmap (vxlan_scan_actions l attrs b) /\
    vx_out (vxlan_scan_actions l' attrs a)
    = vx_out (vxlan_scan_actions l attrs b).
Proof.
  intros Hk. induction attrs as [|x rest IH]; intros a b Hr Hb Ho; simpl.
  - auto.
  - destruct x; try (cbn [vx_ret vx_action_bitmap vx_out]; auto).
    + unfold get_output_port.
      pose proof (search_same_dp_ports port l l' Hk) as Hs.
      destruct (netdev_rte_port_search port l');
        destruct (netdev_rte_port_search port l); cbn [is_some] in Hs;
        try discriminate Hs; apply IH; cbn [vx_ret vx_action_bitmap vx_out];
        congruence.
    + rewrite Hb. destruct (negb (has_bit (vx_action_bitmap b) ATTR_CT));
        [cbn [vx_ret vx_action_bitmap vx_out]; auto|].
      apply IH; cbn [vx_ret vx_action_bitmap vx_out]; congruence.
    + destruct (ct_attrs_supported attrs);
        [|cbn [vx_ret vx_action_bitmap vx_out]; auto].
      apply IH; cbn [vx_ret vx_action_bitmap vx_out]; congruence.
Qed.

Lemma port_modify_dp_ports dp f w :
  (forall p, rp_dp_port (f p) = rp_dp_port p) ->
  map rp_dp_port (port_map (snd (port_modify dp f w)))
  = map rp_dp_port (port_map w).
Proof.
  intros H. unfold port_modify, modify. cbn [snd port_map set_port_map].
  now apply map_update_first_same.
Qed.

(** The tail of the VXLAN port function, from the pattern translation on:
    its status is what the scan leaves, whatever the fan-out does. *)
Lemma vxlan_put_tail_status drv rte_port m nl_actions ufid info flow_attr w3 :
  fst (fst
    ((let '(r, patterns, spec_outer, mask_outer) :=
        add_vport_vxlan_flow_patterns Slot_outer flow_patterns_init m in
      if nonzero r then ret (r, info)
      else
        let '(r, patterns, spec, mask) :=
          add_flow_patterns Slot_inner patterns m in
        if nonzero r then ret (r, info)
        else
          let patterns :=
            add_flow_pattern patterns RTE_FLOW_ITEM_TYPE_END None None in
          let items :=
            view_items (mk_store spec_outer mask_outer spec mask) patterns in
          w <- get_world ;;
          let l := vxlan_scan_actions (port_map w) (nl_attrs nl_actions)
                     (mk_vx_locals r 0 (mk_port_id 0 0) false) in
          if vx_out l then ret (vx_ret l, info)
          else
            '(_, _, _, info) <-
              vxlan_fan_out drv rte_port ufid items (vx_action_bitmap l)
                (port_map w)
                (flow_actions_init,
                 set_cf_output action_confs_zero (vx_port_id l),
                 flow_attr, info) ;;
            ret (vx_ret l, info)) w3))
  = let '(r, patterns, _, _) :=
      add_vport_vxlan_flow_patterns Slot_outer flow_patterns_init m in
    if nonzero r then r
    else
      let '(r, _, _, _) := add_flow_patterns Slot_inner patterns m in
      if nonzero r then r
      else vx_ret (vxlan_scan_actions (port_map w3) (nl_attrs nl_actions)
                                      vxlan_scan_init).
Proof.
  destruct (add_vport_vxlan_flow_patterns Slot_outer flow_patterns_init m)
    as [[[r patterns] so] mo].
  destruct (nonzero r); [reflexivity|].
  destruct (add_flow_patterns Slot_inner patterns m) as [[[r2 p2] sp] mk].
  destruct (nonzero r2) eqn:E; [reflexivity|].
  apply nonzero_false_iff in E. subst r2.
  unfold bind at 1. unfold get_world at 1. cbv beta iota zeta.
  fold vxlan_scan_init.
  destruct (vx_out _); [reflexivity|].
  unfold bind.
  destruct (vxlan_fan_out _ _ _ _ _ _ _ _) as [[[[a c] fa] i2] w4].
  reflexivity.
Qed.

(** The status of a flow put on a VXLAN port is a function of the
    registries: the driver has no say in it. *)
Lemma vxlan_put_status_eq drv rte_port m nl_actions ufid info w :
  fst (fst (netdev_vport_vxlan_add_rte_flow_offload drv rte_port m nl_actions
                                                    ufid info w))
  = vxlan_put_status w m nl_actions.
Proof.
  unfold netdev_vport_vxlan_add_rte_flow_offload, vxlan_put_status.
  destruct (no_actions nl_actions); [reflexivity|].
  unfold bind at 1. unfold get_world at 1. cbv beta iota.
  assert (Hpre :
    exists w2,
      (match netdev_rte_port_search (rp_dp_port rte_port) (port_map w) with
       | Some p =>
           match ufid_hw_offload_find ufid (rp_ufid_to_rte p) with
           | Some old =>
               port_modify (rp_dp_port rte_port)
                 (fun p => set_rp_ufid_to_rte p
                             (snd (ufid_hw_offload_remove ufid
                                     (rp_ufid_to_rte p)))) ;;;
               netdev_rte_port_ufid_hw_offload_free drv old
           | None => ret 0
           end
       | None => ret 0
       end) w = (0, w2) /\
      map rp_dp_port (port_map w2) = map rp_dp_port (port_map w)).
  { destruct (netdev_rte_port_search _ _) as [p|];
      [|eexists; split; reflexivity].
    destruct (ufid_hw_offload_find _ _) as [old|];
      [|eexists; split; reflexivity].
    unfold bind. rewrite port_modify_eq, free_eq.
    eexists. split; [reflexivity|].
    cbn [port_map set_hw_log]. now apply port_modify_dp_ports. }
  destruct Hpre as (w2 & Hpre & Hk2).
  unfold bind at 1. rewrite Hpre. change (0 <? 0) with false. cbv beta iota.
  destruct (dpdk_phy_ports_amount w =? 0); [reflexivity|].
  unfold bind at 1. rewrite port_modify_eq. cbv beta iota.
  unfold bind at 1. rewrite portid_add_eq. cbv beta iota.
  rewrite vxlan_put_tail_status.
  destruct (add_vport_vxlan_flow_patterns Slot_outer flow_patterns_init m)
    as [[[r patterns] so] mo].
  destruct (nonzero r); [reflexivity|].
  destruct (add_flow_patterns Slot_inner patterns m) as [[[r2 p2] sp] mk].
  destruct (nonzero r2); [reflexivity|].
  apply vxlan_scan_same_dp_ports; try reflexivity.
  rewrite (proj1 (portid_add_frame _ _ _)).
  rewrite port_modify_dp_ports by reflexivity. exact Hk2.
Qed.

(** X13.  The status of a flow put on a VXLAN port does not depend on the
    driver: whether the installs on the uplinks succeed, fall back to
    mark+RSS or fail, and whatever the destroy calls of a modification
    return, the call returns the same status. *)
Theorem vxlan_put_status_ignores_driver (drv1 drv2 : driver)
  (rte_port : netdev_rte_port) (m : match_) (nl_actions : nl_actions_t)
  (ufid : ovs_u128) (info : offload_info) (w : world) :
  fst (fst (netdev_vport_vxlan_add_rte_flow_offload drv1 rte_port m nl_actions
                                                    ufid info w))
  = fst (fst (netdev_vport_vxlan_add_rte_flow_offload drv2 rte_port m
                                                      nl_actions ufid info w)).
Proof. now rewrite !vxlan_put_status_eq. Qed.







(** ** The outer-id table in every reachable state *)

Lemma id_pool_scan_range (used : list Z) (fuel : nat) (cand id : Z) :
  id_pool_scan used fuel cand = Some id ->
  cand <= id < cand + Z.of_nat fuel.
Proof.
  revert cand. induction fuel as [|n IH]; intros cand H; simpl in H;
    [discriminate|].
  destruct (id_in cand used).
  - apply IH in H. lia.
  - injection H as <-. lia.
Qed.

Lemma id_pool_alloc_id_range (pool pool' : id_pool) (id : Z) :
  0 <= pool_n_ids pool ->
  id_pool_alloc_id pool = Some (id, pool') ->
  pool_base pool <= id < pool_base pool + pool_n_ids pool.
Proof.
  unfold id_pool_alloc_id. intros Hn.
  destruct (id_pool_scan _ _ _) as [i|] eqn:E; [|discriminate].
  intros [= <- _]. apply id_pool_scan_range in E. lia.
Qed.

Lemma tun_key_eqb_spec (a b c : Z) (d : tun_ctx_outer_id_data) :
  tun_key_eqb a b c d = true <-> snd (td_ident d) = (a, b, c).
Proof.
  unfold tun_key_eqb, td_ident. cbn [snd]. split.
  - intros H. apply andb_true_iff in H as [H H3].
    apply andb_true_iff in H as [H1 H2].
    apply Z.eqb_eq in H1, H2, H3. congruence.
  - intros [= -> -> ->]. now rewrite !Z.eqb_refl.
Qed.

Lemma Forall_update_first {A : Type} (P : A -> Prop) (p : A -> bool)
  (f : A -> A) (l : list A) :
  (forall x, P x -> p x = true -> P (f x)) ->
  Forall P l -> Forall P (update_first p f l).
Proof.
  intros Hf H. induction H as [|x t Hx Ht IH]; simpl; [constructor|].
  destruct (p x) eqn:E; constructor; auto.
Qed.

Lemma Forall_remove_first {A : Type} (P : A -> Prop) (p : A -> bool)
  (l : list A) :
  Forall P l -> Forall P (remove_first p l).
Proof.
  intros H. induction H as [|x t Hx Ht IH]; simpl; [constructor|].
  destruct (p x); [exact Ht | constructor; auto].
Qed.

Lemma remove_first_In {A : Type} (p : A -> bool) (l : list A) (x : A) :
  In x (remove_first p l) -> In x l.
Proof.
  induction l as [|y t IH]; simpl; [tauto|].
  destruct (p y); simpl; tauto.
Qed.

Lemma NoDup_map_remove_first {A B : Type} (g : A -> B) (p : A -> bool)
  (l : list A) :
  NoDup (map g l) -> NoDup (map g (remove_first p l)).
Proof.
  induction l as [|y t IH]; simpl; intros H; [constructor|].
  inversion H as [|? ? Hn Ht]; subst.
  destruct (p y); [exact Ht|]. simpl. constructor; [|auto].
  intros Hin. apply Hn. apply in_map_iff in Hin as (z & <- & Hz).
  apply in_map. eapply remove_first_In. exact Hz.
Qed.

(** Removing by id from one list and by tuple from another that holds the
    same identities takes out the same node. *)
Lemma remove_first_same_ident (fwd rev : list tun_ctx_outer_id_data)
  (a b c : Z) (d : tun_ctx_outer_id_data) :
  map td_ident rev = map td_ident fwd ->
  NoDup (map fst (map td_ident fwd)) ->
  find (tun_key_eqb a b c) fwd = Some d ->
  map td_ident (remove_first (fun x => td_outer_id x =? td_outer_id d) rev)
  = map td_ident (remove_first (tun_key_eqb a b c) fwd).
Proof.
  revert rev. induction fwd as [|x t IH]; intros [|y u] Hm Hn Hf;
    cbn [map find remove_first] in *; try discriminate.
  pose proof (f_equal (@hd _ (td_ident x)) Hm) as Hxy.
  pose proof (f_equal (@tl _) Hm) as Hm'. cbn [hd tl] in Hxy, Hm'.
  inversion Hn as [|? ? Hx Ht]; subst.
  assert (Hid : td_outer_id y = td_outer_id x)
    by exact (f_equal fst Hxy).
  destruct (tun_key_eqb a b c x) eqn:E.
  - injection Hf as <-. rewrite Hid, Z.eqb_refl. exact Hm'.
  - destruct (td_outer_id y =? td_outer_id d) eqn:E2.
    + exfalso. apply Z.eqb_eq in E2. apply Hx.
      apply find_some in Hf as [Hin _].
      rewrite map_map. apply in_map_iff. exists d. split; [|exact Hin].
      cbn [fst td_ident]. congruence.
    + cbn [map]. rewrite Hxy. f_equal. now apply IH.
Qed.

Lemma find_key_In (a b c : Z) (l : list tun_ctx_outer_id_data) :
  find (tun_key_eqb a b c) l = None ->
  ~ In (a, b, c) (map snd (map td_ident l)).
Proof.
  intros H Hin. rewrite map_map in Hin.
  apply in_map_iff in Hin as (d & Hd & Hin).
  apply (find_none _ _ H) in Hin.
  apply tun_key_eqb_spec in Hd. congruence.
Qed.

Lemma tun_wf_init : tun_ctx_wf tun_ctx_outer_id_init.
Proof.
  unfold tun_ctx_wf, tun_ctx_outer_id_init. simpl.
  repeat split; constructor.
Qed.

Lemma tun_wf_get_ref (a b c : Z) (s : tun_ctx_outer_id_t) :
  tun_ctx_wf s -> tun_ctx_wf (snd (netdev_dpdk_tun_id_get_ref a b c s)).
Proof.
  intros (Hpool & Hident & Hrev & Hids & Hkeys & Hall).
  unfold netdev_dpdk_tun_id_get_ref, netdev_dpdk_tun_outer_id_get_ref,
    tun_to_outer_id_find.
  destruct (find (tun_key_eqb a b c) (tun_to_outer_id_map s)) as [d|] eqn:Hf.
  - (* the tuple is known: one more reference *)
    assert (Hd : (td_outer_id d =? INVALID_OUTER_ID) = false).
    { apply find_some in Hf as [Hin _].
      rewrite Forall_forall in Hall. destruct (Hall d Hin) as (_ & Hr & _).
      apply Z.eqb_neq. unfold MAX_OUTER_ID, INVALID_OUTER_ID in *. lia. }
    rewrite Hd. cbn [snd].
    unfold tun_ctx_wf.
    cbn [tun_pool tun_to_outer_id_map outer_id_to_tun_map].
    rewrite (map_update_first_same td_ident) by reflexivity.
    split; [|repeat split; try assumption].
    + destruct (tun_pool s); [exact Hpool|].
      rewrite Hpool in Hf. discriminate Hf.
    + apply Forall_update_first; [|exact Hall].
      intros x (H1 & H2 & H3) _. cbn [td_add_ref td_ref_count td_outer_id].
      repeat split; try lia. exact H3.
  - (* a new tuple: allocate *)
    rewrite Z.eqb_refl. unfold netdev_dpdk_tun_outer_id_alloc.
    set (pool := match tun_pool s with
                 | Some p => p
                 | None => id_pool_create 1 MAX_OUTER_ID
                 end).
    assert (Hp : pool_base pool = 1 /\ pool_n_ids pool = MAX_OUTER_ID).
    { subst pool. destruct (tun_pool s); [exact Hpool | split; reflexivity]. }
    assert (Hused : forall d, In d (tun_to_outer_id_map s) ->
                              id_in (td_outer_id d) (pool_used pool) = true).
    { intros d Hin. rewrite Forall_forall in Hall.
      destruct (Hall d Hin) as (_ & _ & Ha).
      unfold tun_id_allocated in Ha. subst pool.
      destruct (tun_pool s); [exact Ha | discriminate Ha]. }
    destruct (id_pool_alloc_id pool) as [[id pool']|] eqn:Ealloc; cbn [snd].
    + pose proof (id_pool_alloc_id_range pool pool' id) as Hrange.
      destruct Hp as [Hb Hn]. rewrite Hb, Hn in Hrange.
      specialize (Hrange ltac:(unfold MAX_OUTER_ID; lia) Ealloc).
      apply id_pool_alloc_id_fresh in Ealloc as [Hfresh ->].
      unfold tun_ctx_wf, netdev_dpdk_tun_data_insert.
      cbn [tun_pool tun_to_outer_id_map outer_id_to_tun_map map pool_base
           pool_n_ids].
      split; [split; assumption|].
      split; [unfold td_ident at 1 3; cbn; now rewrite Hident|].
      split; [constructor; [reflexivity | exact Hrev]|].
      split; [|split].
      * cbn [td_ident fst td_outer_id]. constructor; [|exact Hids].
        intros Hin. rewrite map_map in Hin.
        apply in_map_iff in Hin as (d & Hd & Hin).
        cbn [fst td_ident] in Hd. apply Hused in Hin.
        rewrite Hd in Hin. congruence.
      * cbn [td_ident snd td_ip_dst td_ip_src td_tun_id].
        constructor; [|exact Hkeys]. now apply find_key_In.
      * constructor.
        -- cbn [td_ref_count td_outer_id]. unfold tun_id_allocated.
           cbn [tun_pool pool_used id_in existsb].
           rewrite Z.eqb_refl. unfold MAX_OUTER_ID in *.
           repeat split; try lia.
        -- rewrite Forall_forall in *. intros d Hin.
           destruct (Hall d Hin) as (H1 & H2 & _).
           repeat split; try assumption; try lia.
           unfold tun_id_allocated. cbn [tun_pool pool_used id_in existsb].
           apply Hused in Hin. unfold id_in in Hin. rewrite Hin.
           apply orb_true_r.
    + unfold tun_ctx_wf.
      cbn [tun_pool tun_to_outer_id_map outer_id_to_tun_map].
      split; [exact Hp|]. repeat split; try assumption.
      rewrite Forall_forall in *. intros d Hin.
      destruct (Hall d Hin) as (H1 & H2 & _).
      repeat split; try assumption; try lia.
      unfold tun_id_allocated. cbn [tun_pool]. now apply Hused.
Qed.

Lemma id_in_filter_other (id i : Z) (l : list Z) :
  id <> i -> id_in id (filter (fun x => negb (x =? i)) l) = id_in id l.
Proof.
  intros Hne. unfold id_in. induction l as [|y t IH]; simpl; [reflexivity|].
  destruct (y =? i) eqn:E; simpl.
  - apply Z.eqb_eq in E. subst y.
    destruct (id =? i) eqn:E2; [apply Z.eqb_eq in E2; contradiction|].
    exact IH.
  - now rewrite IH.
Qed.

Lemma Forall_update_first_found {A : Type} (P : A -> Prop) (p : A -> bool)
  (f : A -> A) (l : list A) (d : A) :
  find p l = Some d -> (P d -> P (f d)) ->
  Forall P l -> Forall P (update_first p f l).
Proof.
  intros Hf Hd H. induction H as [|x t Hx Ht IH]; simpl in *; [constructor|].
  destruct (p x).
  - injection Hf as ->. constructor; auto.
  - constructor; auto.
Qed.

Lemma tun_wf_unref (a b c : Z) (s : tun_ctx_outer_id_t) :
  tun_ctx_wf s -> tun_ctx_wf (netdev_dpdk_tun_outer_id_unref a b c s).
Proof.
  intros (Hpool & Hident & Hrev & Hids & Hkeys & Hall).
  unfold netdev_dpdk_tun_outer_id_unref, tun_to_outer_id_find.
  destruct (find (tun_key_eqb a b c) (tun_to_outer_id_map s)) as [d|] eqn:Hf;
    [|repeat split; assumption].
  assert (Hpool' : exists p, tun_pool s = Some p /\ pool_base p = 1 /\
                             pool_n_ids p = MAX_OUTER_ID).
  { destruct (tun_pool s) as [p|]; [eauto|].
    rewrite Hpool in Hf. discriminate Hf. }
  destruct Hpool' as (p & Hp & Hb & Hn).
  pose proof (find_some _ _ Hf) as [Hin Hkey].
  destruct (td_ref_count d - 1 =? 0) eqn:E.
  - (* the last reference: release the id and both nodes *)
    unfold tun_ctx_wf, netdev_dpdk_tun_data_del.
    cbn [tun_pool tun_to_outer_id_map outer_id_to_tun_map].
    rewrite Hp. cbn [option_map id_pool_free_id pool_base pool_n_ids].
    split; [split; assumption|].
    split; [now apply remove_first_same_ident|].
    split; [now apply Forall_remove_first|].
    split; [|split].
    + rewrite map_map. apply NoDup_map_remove_first.
      now rewrite <- map_map.
    + rewrite map_map. apply NoDup_map_remove_first.
      now rewrite <- map_map.
    + rewrite Forall_forall in *. intros x Hx.
      pose proof (remove_first_In _ _ _ Hx) as Hx0.
      destruct (Hall x Hx0) as (H1 & H2 & H3).
      repeat split; try assumption; try lia.
      unfold tun_id_allocated in *.
      cbn [tun_pool pool_used id_pool_free_id].
      rewrite Hp in H3. rewrite id_in_filter_other; [exact H3|].
      (* [x] is not the node removed, so its id is another *)
      intros Heq.
      assert (Hxd : td_ident x = td_ident d -> False).
      { intros Hsame.
        assert (Hkx : tun_key_eqb a b c x = true).
        { apply tun_key_eqb_spec. rewrite Hsame.
          now apply tun_key_eqb_spec. }
        clear - Hx Hkx Hkeys Hsame.
        induction (tun_to_outer_id_map s) as [|y t IH]; simpl in *; [tauto|].
        inversion Hkeys as [|? ? Hy Ht]; subst.
        destruct (tun_key_eqb a b c y) eqn:Ey.
        - apply Hy. rewrite map_map. apply in_map_iff. exists x.
          split; [|exact Hx].
          apply tun_key_eqb_spec in Ey, Hkx. rewrite Hkx. symmetry. exact Ey.
        - destruct Hx as [-> | Hx]; [congruence|]. now apply IH. }
      clear - Hx0 Hin Heq Hids Hxd.
      induction (tun_to_outer_id_map s) as [|y t IH]; simpl in *; [tauto|].
      inversion Hids as [|? ? Hy Ht]; subst.
      destruct Hx0 as [-> | Hx0], Hin as [-> | Hin].
      * now apply Hxd.
      * apply Hy. rewrite map_map. apply in_map_iff. exists d.
        split; [cbn [fst td_ident]; congruence | exact Hin].
      * apply Hy. rewrite map_map. apply in_map_iff. exists x.
        split; [cbn [fst td_ident]; congruence | exact Hx0].
      * now apply IH.
  - (* other references remain *)
    unfold tun_ctx_wf.
    cbn [tun_pool tun_to_outer_id_map outer_id_to_tun_map].
    rewrite (map_update_first_same td_ident) by reflexivity.
    rewrite Hp.
    split; [split; assumption|]. repeat split; try assumption.
    apply Z.eqb_neq in E.
    apply (Forall_update_first_found _ _ _ _ d Hf).
    + intros (H1 & H2 & H3). cbn [td_add_ref td_ref_count td_outer_id].
      repeat split; try lia. exact H3.
    + eapply Forall_impl; [|exact Hall].
      intros x (H1 & H2 & H3). repeat split; try assumption; try lia.
      unfold tun_id_allocated in *. cbn [tun_pool]. now rewrite Hp in H3.
Qed.

Lemma tun_wf_unref_id (id : Z) (s : tun_ctx_outer_id_t) :
  tun_ctx_wf s -> tun_ctx_wf (netdev_dpdk_outer_id_unref id s).
Proof.
  intros H. unfold netdev_dpdk_outer_id_unref.
  destruct (netdev_dpdk_tun_data_find id s); [|exact H].
  now apply tun_wf_unref.
Qed.

Lemma tun_wf_steps (ops : list tun_op) :
  forall s, tun_ctx_wf s -> tun_ctx_wf (fold_left tun_step ops s).
Proof.
  induction ops as [|op rest IH]; intros s H; simpl; [exact H|].
  apply IH. destruct op; simpl.
  - now apply tun_wf_get_ref.
  - now apply tun_wf_unref.
  - now apply tun_wf_unref_id.
Qed.

Lemma tun_wf_run (ops : list tun_op) : tun_ctx_wf (tun_run ops).
Proof. apply tun_wf_steps, tun_wf_init. Qed.

Lemma NoDup_map_inj {A B : Type} (g : A -> B) (l : list A) (x y : A) :
  NoDup (map g l) -> In x l -> In y l -> g x = g y -> x = y.
Proof.
  induction l as [|z t IH]; simpl; [tauto|].
  intros H Hx Hy E. inversion H as [|? ? Hz Ht]; subst.
  destruct Hx as [-> | Hx], Hy as [-> | Hy]; auto.
  - exfalso. apply Hz. rewrite E. now apply in_map.
  - exfalso. apply Hz. rewrite <- E. now apply in_map.
Qed.

Lemma find_by_id_same_ident (fwd rev : list tun_ctx_outer_id_data)
  (d : tun_ctx_outer_id_data) :
  map td_ident rev = map td_ident fwd ->
  NoDup (map fst (map td_ident fwd)) ->
  In d fwd ->
  exists e, find (fun x => td_outer_id x =? td_outer_id d) rev = Some e /\
            td_ident e = td_ident d.
Proof.
  revert rev. induction fwd as [|x t IH]; intros [|y u] Hm Hn Hin;
    cbn [map find In] in *; try discriminate; [tauto|].
  pose proof (f_equal (@hd _ (td_ident x)) Hm) as Hxy.
  pose proof (f_equal (@tl _) Hm) as Hm'. cbn [hd tl] in Hxy, Hm'.
  inversion Hn as [|? ? Hx Ht]; subst.
  assert (Hid : td_outer_id y = td_outer_id x) by exact (f_equal fst Hxy).
  destruct Hin as [-> | Hin].
  - rewrite Hid, Z.eqb_refl. eauto.
  - destruct (td_outer_id y =? td_outer_id d) eqn:E; [|now apply IH].
    exfalso. apply Z.eqb_eq in E. apply Hx.
    rewrite map_map. apply in_map_iff. exists d. split; [|exact Hin].
    cbn [fst td_ident]. congruence.
Qed.

Lemma find_remove_first_NoDup {A B : Type} (g : A -> B) (p : A -> bool)
  (l : list A) :
  (forall x y, p x = true -> p y = true -> g x = g y) ->
  NoDup (map g l) -> find p (remove_first p l) = None.
Proof.
  intros Hp. induction l as [|x t IH]; simpl; intros H; [reflexivity|].
  inversion H as [|? ? Hx Ht]; subst.
  destruct (p x) eqn:E.
  - destruct (find p t) as [y|] eqn:F; [|reflexivity].
    exfalso. apply find_some in F as [Hin Hy]. apply Hx.
    rewrite (Hp x y E Hy). now apply in_map.
  - simpl. rewrite E. auto.
Qed.

Lemma tun_data_eta (e : tun_ctx_outer_id_data) (id a b c : Z) :
  td_ident e = (id, (a, b, c)) -> td_ref_count e = 0 ->
  e = mk_tun_data id a b c 0.
Proof. destruct e. unfold td_ident. simpl. intros [= -> -> -> ->] ->. reflexivity. Qed.

(** The reverse index in a well-formed table gives back the tuple. *)
Lemma tun_wf_data_find (s : tun_ctx_outer_id_t) (a b c : Z)
  (d : tun_ctx_outer_id_data) :
  tun_ctx_wf s -> tun_to_outer_id_find a b c s = Some d ->
  netdev_dpdk_tun_data_find (td_outer_id d) s
  = Some (mk_tun_data (td_outer_id d) a b c 0).
Proof.
  intros (_ & Hident & Hrev & Hids & _ & _) Hf.
  unfold tun_to_outer_id_find in Hf. apply find_some in Hf as [Hin Hkey].
  destruct (find_by_id_same_ident _ _ d Hident Hids Hin) as (e & He & Hsame).
  unfold netdev_dpdk_tun_data_find. rewrite He. f_equal.
  apply tun_data_eta.
  - rewrite Hsame. apply tun_key_eqb_spec in Hkey.
    unfold td_ident in *. cbn [snd] in Hkey. now rewrite Hkey.
  - apply find_some in He as [Hine _].
    rewrite Forall_forall in Hrev. now apply Hrev.
Qed.

Lemma Forall_update_first_impl {A : Type} (P Q : A -> Prop) (p : A -> bool)
  (f : A -> A) (l : list A) :
  (forall x, P x -> Q x) -> (forall x, P x -> Q (f x)) ->
  Forall P l -> Forall Q (update_first p f l).
Proof.
  intros Hw Hf H. induction H as [|x t Hx Ht IH]; simpl; [constructor|].
  destruct (p x); constructor; auto.
  eapply Forall_impl; [exact Hw | exact Ht].
Qed.

(** A call adds at most one to a reference count, and a new node starts
    with one reference. *)
Lemma tun_step_ref_bound (k : Z) (s : tun_ctx_outer_id_t) (op : tun_op) :
  0 <= k ->
  Forall (fun d => td_ref_count d <= k) (tun_to_outer_id_map s) ->
  Forall (fun d => td_ref_count d <= k + 1)
         (tun_to_outer_id_map (tun_step s op)).
Proof.
  intros Hk H.
  assert (Hweak : Forall (fun d => td_ref_count d <= k + 1)
                         (tun_to_outer_id_map s))
    by (eapply Forall_impl; [|exact H]; cbv beta; intros; lia).
  assert (Hunref : forall a b c,
             Forall (fun d => td_ref_count d <= k + 1)
                    (tun_to_outer_id_map
                       (netdev_dpdk_tun_outer_id_unref a b c s))).
  { intros a b c. unfold netdev_dpdk_tun_outer_id_unref.
    destruct (tun_to_outer_id_find a b c s) as [d|]; [|exact Hweak].
    cbv zeta. destruct (td_ref_count d - 1 =? 0);
      cbn [tun_to_outer_id_map netdev_dpdk_tun_data_del].
    - now apply Forall_remove_first.
    - apply (Forall_update_first_impl (fun d => td_ref_count d <= k));
        [cbv beta; intros; lia | | exact H].
      intros x Hx. cbn [td_add_ref td_ref_count]. lia. }
  assert (Halloc : forall a b c s0,
             Forall (fun d => td_ref_count d <= k + 1)
                    (tun_to_outer_id_map s0) ->
             Forall (fun d => td_ref_count d <= k + 1)
                    (tun_to_outer_id_map
                       (snd (netdev_dpdk_tun_outer_id_alloc a b c s0)))).
  { intros a b c s0 H0. unfold netdev_dpdk_tun_outer_id_alloc.
    destruct (id_pool_alloc_id _) as [[id pool']|];
      cbn [snd tun_to_outer_id_map netdev_dpdk_tun_data_insert];
      [|exact H0].
    constructor; [cbn [td_ref_count]; lia | exact H0]. }
  destruct op; cbn [tun_step].
  - unfold netdev_dpdk_tun_id_get_ref, netdev_dpdk_tun_outer_id_get_ref.
    destruct (tun_to_outer_id_find ip_dst ip_src tun_id s) as [d|].
    + assert (Hup : Forall (fun d => td_ref_count d <= k + 1)
                      (update_first (tun_key_eqb ip_dst ip_src tun_id)
                                    (td_add_ref 1) (tun_to_outer_id_map s))).
      { apply (Forall_update_first_impl (fun d => td_ref_count d <= k));
          [cbv beta; intros; lia | | exact H].
        intros x Hx. cbn [td_add_ref td_ref_count]. lia. }
      destruct (td_outer_id d =? INVALID_OUTER_ID); [apply Halloc|];
        exact Hup.
    + rewrite Z.eqb_refl. now apply Halloc.
  - apply Hunref.
  - unfold netdev_dpdk_outer_id_unref.
    destruct (netdev_dpdk_tun_data_find outer_id s); [apply Hunref|].
    exact Hweak.
Qed.

Lemma tun_steps_ref_bound (ops : list tun_op) :
  forall k s,
    0 <= k ->
    Forall (fun d => td_ref_count d <= k) (tun_to_outer_id_map s) ->
    Forall (fun d => td_ref_count d <= k + Z.of_nat (length ops))
           (tun_to_outer_id_map (fold_left tun_step ops s)).
Proof.
  induction ops as [|op rest IH]; intros k s Hk H.
  - simpl. rewrite Z.add_0_r. exact H.
  - cbn [fold_left length]. rewrite Nat2Z.inj_succ.
    replace (k + Z.succ (Z.of_nat (length rest)))
      with (k + 1 + Z.of_nat (length rest)) by lia.
    apply IH; [lia|]. now apply tun_step_ref_bound.
Qed.

(** No tuple has more references than calls were made. *)
Lemma tun_run_ref_bound (ops : list tun_op) (d : tun_ctx_outer_id_data) :
  In d (tun_to_outer_id_map (tun_run ops)) ->
  td_ref_count d <= Z.of_nat (length ops).
Proof.
  intros Hin.
  pose proof (tun_steps_ref_bound ops 0 tun_ctx_outer_id_init
                ltac:(lia) ltac:(constructor)) as H.
  rewrite Forall_forall in H. apply (H d Hin).
Qed.

(** X15.  In every state the outer-id table can reach from the initial one
    by at most [INT_MAX] calls of get-ref and unref (by tuple or by id), a
    tuple the forward index holds has at least one reference and no more
    references than calls were made, so that its [int] count has not
    overflowed; it has an outer-id between 1 and 65535, which is therefore
    never the invalid id, and which the pool holds as allocated; looking
    that id up in the reverse index gives back the tuple; and no two tuples
    share an outer-id. *)
Theorem tun_ids_identify_tuples (ops : list tun_op) (ip_dst ip_src tun_id : Z)
  (d : tun_ctx_outer_id_data) :
  Z.of_nat (length ops) <= INT_MAX ->
  tun_to_outer_id_find ip_dst ip_src tun_id (tun_run ops) = Some d ->
  1 <= td_ref_count d <= Z.of_nat (length ops) /\
  td_ref_count d <= INT_MAX /\
  1 <= td_outer_id d <= MAX_OUTER_ID /\
  td_outer_id d <> INVALID_OUTER_ID /\
  tun_id_allocated (td_outer_id d) (tun_run ops) = true /\
  netdev_dpdk_tun_data_find (td_outer_id d) (tun_run ops)
  = Some (mk_tun_data (td_outer_id d) ip_dst ip_src tun_id 0) /\
  forall ip_dst' ip_src' tun_id' d',
    tun_to_outer_id_find ip_dst' ip_src' tun_id' (tun_run ops) = Some d' ->
    td_outer_id d' = td_outer_id d ->
    (ip_dst', ip_src', tun_id') = (ip_dst, ip_src, tun_id).
Proof.
  intros Hlen Hf. pose proof (tun_wf_run ops) as Hwf.
  pose proof (tun_wf_data_find _ _ _ _ _ Hwf Hf) as Hfind.
  destruct Hwf as (_ & _ & _ & Hids & _ & Hall).
  unfold tun_to_outer_id_find in *.
  pose proof (find_some _ _ Hf) as [Hin Hkey].
  pose proof (tun_run_ref_bound ops d Hin) as Hbound.
  rewrite Forall_forall in Hall. destruct (Hall d Hin) as (H1 & H2 & H3).
  repeat split; try assumption; try lia.
  - unfold MAX_OUTER_ID, INVALID_OUTER_ID in *. lia.
  - intros a' b' c' d' Hf' Hid.
    pose proof (find_some _ _ Hf') as [Hin' Hkey'].
    assert (d' = d).
    { apply (NoDup_map_inj (fun x => fst (td_ident x))
                           (tun_to_outer_id_map (tun_run ops)) d' d); auto.
      now rewrite <- map_map. }
    subst d'. apply tun_key_eqb_spec in Hkey, Hkey'. congruence.
Qed.

Lemma tun_ids_identify_tuples_witness :
  let s := tun_run [Tun_get_ref 1 2 42; Tun_get_ref 3 4 43; Tun_unref 1 2 42;
                    Tun_get_ref 5 6 44; Tun_get_ref 3 4 43] in
  option_map td_ident (tun_to_outer_id_find 3 4 43 s) = Some (2, (3, 4, 43)) /\
  tun_ref_count 3 4 43 s = Some 2 /\
  netdev_dpdk_tun_data_find 2 s = Some (mk_tun_data 2 3 4 43 0) /\
  tun_id_allocated 2 s = true.
Proof.
  set (ops := [Tun_get_ref 1 2 42; Tun_get_ref 3 4 43; Tun_unref 1 2 42;
               Tun_get_ref 5 6 44; Tun_get_ref 3 4 43]).
  pose proof (tun_ids_identify_tuples ops 3 4 43 (mk_tun_data 2 3 4 43 2)
                ltac:(unfold INT_MAX; simpl; lia) eq_refl)
    as (_ & _ & _ & _ & H4 & H5 & _).
  cbv zeta. split; [reflexivity|]. split; [reflexivity|].
  split; [exact H5 | exact H4].
Defined.

Lemma tun_key_eqb_same (a b c : Z) (x y : tun_ctx_outer_id_data) :
  tun_key_eqb a b c x = true -> tun_key_eqb a b c y = true ->
  snd (td_ident x) = snd (td_ident y).
Proof.
  intros Hx Hy. apply tun_key_eqb_spec in Hx, Hy. congruence.
Qed.

(** X16.  Reference counting in every state the outer-id table can reach
    by fewer than [INT_MAX] calls.  A get-ref of a tuple the table holds
    returns the tuple's id and adds one to its count, which stays within
    the [int] that holds it; of a tuple it does not hold, it either reports
    the invalid id and leaves the tuple unknown (the pool is exhausted) or
    hands out an id between 1 and 65535 that was free and is now allocated,
    with count 1.  An unref of a tuple held with count 1 removes the tuple
    from both indexes and frees the id; with a larger count it subtracts one
    and keeps the id allocated; of an unknown tuple it changes nothing. *)
Theorem tun_reference_counting (ops : list tun_op) (ip_dst ip_src tun_id : Z) :
  Z.of_nat (length ops) < INT_MAX ->
  let s := tun_run ops in
  (let '(id, s') := netdev_dpdk_tun_id_get_ref ip_dst ip_src tun_id s in
   match tun_to_outer_id_find ip_dst ip_src tun_id s with
   | Some d =>
       id = td_outer_id d /\
       tun_ref_count ip_dst ip_src tun_id s' = Some (td_ref_count d + 1) /\
       1 <= td_ref_count d + 1 <= INT_MAX
   | None =>
       (id = INVALID_OUTER_ID /\
        tun_ref_count ip_dst ip_src tun_id s' = None) \/
       (1 <= id <= MAX_OUTER_ID /\
        tun_id_allocated id s = false /\
        tun_id_allocated id s' = true /\
        tun_ref_count ip_dst ip_src tun_id s' = Some 1)
   end) /\
  (let s' := netdev_dpdk_tun_id_unref ip_dst ip_src tun_id s in
   match tun_to_outer_id_find ip_dst ip_src tun_id s with
   | Some d =>
       if td_ref_count d =? 1
       then tun_ref_count ip_dst ip_src tun_id s' = None /\
            tun_id_allocated (td_outer_id d) s' = false /\
            netdev_dpdk_tun_data_find (td_outer_id d) s' = None
       else tun_ref_count ip_dst ip_src tun_id s'
            = Some (td_ref_count d - 1) /\
            tun_id_allocated (td_outer_id d) s' = true
   | None => s' = s
   end).
Proof.
  intros Hlen s. pose proof (tun_wf_run ops) as Hwf. fold s in Hwf.
  pose proof (tun_run_ref_bound ops) as Hbound. fold s in Hbound.
  clearbody s.
  destruct Hwf as (Hpool & Hident & Hrev & Hids & Hkeys & Hall).
  split.
  - unfold netdev_dpdk_tun_id_get_ref, netdev_dpdk_tun_outer_id_get_ref.
    destruct (tun_to_outer_id_find ip_dst ip_src tun_id s) as [d|] eqn:Hf.
    + unfold tun_to_outer_id_find in Hf.
      pose proof (find_some _ _ Hf) as [Hin _].
      rewrite Forall_forall in Hall. destruct (Hall d Hin) as (Hc & Hr & _).
      assert (Hd : (td_outer_id d =? INVALID_OUTER_ID) = false).
      { apply Z.eqb_neq. unfold MAX_OUTER_ID, INVALID_OUTER_ID in *. lia. }
      rewrite Hd. split; [reflexivity|]. split.
      * unfold tun_ref_count, tun_to_outer_id_find.
        cbn [tun_to_outer_id_map].
        rewrite find_update_first_map by reflexivity.
        rewrite Hf. reflexivity.
      * specialize (Hbound d Hin). lia.
    + rewrite Z.eqb_refl. unfold netdev_dpdk_tun_outer_id_alloc.
      set (pool := match tun_pool s with
                   | Some p => p
                   | None => id_pool_create 1 MAX_OUTER_ID
                   end).
      assert (Hp : pool_base pool = 1 /\ pool_n_ids pool = MAX_OUTER_ID).
      { subst pool. destruct (tun_pool s); [exact Hpool | split; reflexivity]. }
      destruct (id_pool_alloc_id pool) as [[id pool']|] eqn:Ealloc.
      * right.
        pose proof (id_pool_alloc_id_range pool pool' id) as Hrange.
        destruct Hp as [Hb Hn]. rewrite Hb, Hn in Hrange.
        specialize (Hrange ltac:(unfold MAX_OUTER_ID; lia) Ealloc).
        apply id_pool_alloc_id_fresh in Ealloc as [Hfresh ->].
        split; [unfold MAX_OUTER_ID in *; lia|].
        split; [|split].
        -- unfold tun_id_allocated. subst pool.
           destruct (tun_pool s); [exact Hfresh | reflexivity].
        -- unfold tun_id_allocated, netdev_dpdk_tun_data_insert.
           cbn [tun_pool pool_used id_in existsb]. now rewrite Z.eqb_refl.
        -- unfold tun_ref_count, tun_to_outer_id_find,
             netdev_dpdk_tun_data_insert.
           cbn [tun_to_outer_id_map find]. now rewrite tun_key_eqb_refl.
      * left. split; [reflexivity|].
        unfold tun_ref_count, tun_to_outer_id_find in *.
        cbn [tun_to_outer_id_map]. now rewrite Hf.
  - unfold netdev_dpdk_tun_id_unref, netdev_dpdk_tun_outer_id_unref.
    destruct (tun_to_outer_id_find ip_dst ip_src tun_id s) as [d|] eqn:Hf;
      [|reflexivity].
    unfold tun_to_outer_id_find in Hf.
    pose proof (find_some _ _ Hf) as [Hin _].
    assert (Hp : exists p, tun_pool s = Some p).
    { destruct (tun_pool s) as [p|]; [eauto|].
      rewrite Hpool in Hf. discriminate Hf. }
    destruct Hp as [p Hp].
    replace (td_ref_count d - 1 =? 0) with (td_ref_count d =? 1)
      by (destruct (td_ref_count d =? 1) eqn:E1;
          destruct (td_ref_count d - 1 =? 0) eqn:E2; try reflexivity;
          rewrite ?Z.eqb_eq, ?Z.eqb_neq in *; lia).
    destruct (td_ref_count d =? 1).
    + unfold tun_ref_count, tun_to_outer_id_find, tun_id_allocated,
        netdev_dpdk_tun_data_find, netdev_dpdk_tun_data_del.
      cbn [tun_to_outer_id_map outer_id_to_tun_map tun_pool].
      rewrite Hp. cbn [option_map id_pool_free_id pool_used].
      split; [|split].
      * rewrite (find_remove_first_NoDup (fun x => snd (td_ident x)));
          [reflexivity | apply tun_key_eqb_same |].
        now rewrite <- map_map.
      * apply id_in_filter_neq.
      * apply (find_remove_first_NoDup (fun x => fst (td_ident x))).
        -- intros x y Hx Hy. apply Z.eqb_eq in Hx, Hy.
           cbn [fst td_ident]. congruence.
        -- rewrite <- map_map, Hident. exact Hids.
    + unfold tun_ref_count, tun_to_outer_id_find, tun_id_allocated.
      cbn [tun_to_outer_id_map tun_pool].
      rewrite find_update_first_map by reflexivity.
      rewrite Hf. split; [reflexivity|].
      rewrite Forall_forall in Hall. destruct (Hall d Hin) as (_ & _ & Ha).
      exact Ha.
Qed.

Lemma tun_reference_counting_witness :
  let s := tun_run [Tun_get_ref 1 2 42; Tun_get_ref 3 4 43] in
  tun_ref_count 3 4 43 (snd (netdev_dpdk_tun_id_get_ref 3 4 43 s)) = Some 2 /\
  tun_ref_count 1 2 42 (netdev_dpdk_tun_id_unref 1 2 42 s) = None.
Proof.
  set (ops := [Tun_get_ref 1 2 42; Tun_get_ref 3 4 43]).
  pose proof (tun_reference_counting ops 3 4 43
                ltac:(unfold INT_MAX; simpl; lia)) as [H1 _].
  pose proof (tun_reference_counting ops 1 2 42
                ltac:(unfold INT_MAX; simpl; lia)) as [_ H2].
  cbv zeta in *.
  change (tun_to_outer_id_find 3 4 43 (tun_run ops))
    with (Some (mk_tun_data 2 3 4 43 1)) in H1.
  change (tun_to_outer_id_find 1 2 42 (tun_run ops))
    with (Some (mk_tun_data 1 1 2 42 1)) in H2.
  cbn [td_ref_count Z.eqb Pos.eqb] in H2. destruct H2 as [H2 _].
  destruct (netdev_dpdk_tun_id_get_ref 3 4 43 (tun_run ops)) as [id s'].
  destruct H1 as (_ & H1 & _). split; [exact H1 | exact H2].
Defined.



(** ** The miss-context store in every reachable state *)

Lemma length_update_first {A : Type} (p : A -> bool) (f : A -> A)
  (l : list A) :
  length (update_first p f l) = length l.
Proof.
  induction l as [|x t IH]; simpl; [reflexivity|].
  destruct (p x); simpl; [reflexivity | now rewrite IH].
Qed.

(** A save in a state whose lookup map is empty allocates one node, fills it
    and succeeds. *)
Lemma save_ct_allocates (mark : Z) (flow : option rte_flow) (a b c e : Z)
  (reply : bool) (s : miss_ctx_state) :
  mark_preprocess_info_mark_to_ct_ctx s = [] ->
  fst (netdev_dpdk_save_ct_miss_ctx mark flow a b c e reply s) = 0 /\
  length (mark_to_ct_ctx
            (snd (netdev_dpdk_save_ct_miss_ctx mark flow a b c e reply s)))
  = S (length (mark_to_ct_ctx s)).
Proof.
  intros H. unfold netdev_dpdk_save_ct_miss_ctx,
    netdev_dpdk_get_flow_miss_ctx, netdev_dpdk_find_miss_ctx.
  rewrite H. cbn [find]. unfold miss_ctx_store_at, miss_ctx_load.
  cbn [mark_to_ct_ctx mark_preprocess_info_mark_to_ct_ctx miss_next_addr
       update_first find miss_ctx_zero mc_addr].
  rewrite Z.eqb_refl. cbn [find mc_addr]. rewrite Z.eqb_refl.
  cbn [mc_rte_flow]. destruct reply; cbn; rewrite ?Z.eqb_refl; cbn;
    split; reflexivity.
Qed.

Lemma save_flow_allocates (mark hw_id : Z) (is_port : bool)
  (outer_id in_port_ : Z) (has_ct : bool) (s : miss_ctx_state) :
  mark_preprocess_info_mark_to_ct_ctx s = [] ->
  fst (netdev_dpdk_save_flow_miss_ctx mark hw_id is_port outer_id in_port_
                                      has_ct s) = 0 /\
  length (mark_to_ct_ctx
            (snd (netdev_dpdk_save_flow_miss_ctx mark hw_id is_port outer_id
                                                 in_port_ has_ct s)))
  = S (length (mark_to_ct_ctx s)).
Proof.
  intros H. unfold netdev_dpdk_save_flow_miss_ctx,
    netdev_dpdk_get_flow_miss_ctx, netdev_dpdk_find_miss_ctx.
  rewrite H. cbn [find]. unfold miss_ctx_store_at.
  cbn [fst snd mark_to_ct_ctx mark_preprocess_info_mark_to_ct_ctx
       miss_next_addr update_first miss_ctx_zero mc_addr].
  rewrite Z.eqb_refl. split; reflexivity.
Qed.

Lemma miss_steps_inv (ops : list miss_op) :
  forall s,
    mark_preprocess_info_mark_to_ct_ctx s = [] ->
    mark_preprocess_info_mark_to_ct_ctx (fold_left miss_step ops s) = [] /\
    length (mark_to_ct_ctx (fold_left miss_step ops s))
    = (length (mark_to_ct_ctx s) + length (filter is_miss_save ops))%nat.
Proof.
  induction ops as [|op rest IH]; intros s H; cbn [fold_left filter].
  - split; [exact H | now rewrite Nat.add_0_r].
  - destruct op as [mark flow a b c e reply
                   | mark hw_id is_port outer_id in_port_ has_ct | mark];
      cbn [miss_step is_miss_save].
    + destruct (IH _ (save_ct_keeps_info_map_empty mark flow a b c e reply s H))
        as [I1 I2].
      split; [exact I1|]. rewrite I2.
      rewrite (proj2 (save_ct_allocates mark flow a b c e reply s H)).
      cbn [length]. lia.
    + destruct (IH _ (save_flow_keeps_info_map_empty mark hw_id is_port
                        outer_id in_port_ has_ct s H)) as [I1 I2].
      split; [exact I1|]. rewrite I2.
      rewrite (proj2 (save_flow_allocates mark hw_id is_port outer_id in_port_
                        has_ct s H)).
      cbn [length]. lia.
    + destruct (IH _ (del_keeps_info_map_empty mark s H)) as [I1 I2].
      split; [exact I1|]. rewrite I2.
      unfold netdev_dpdk_del_miss_ctx, netdev_dpdk_find_miss_ctx.
      rewrite H. reflexivity.
Qed.

(** X18.  In every state the miss-context store can reach from the initial
    one by saves and deletes: a lookup finds nothing, whichever mark is asked
    for; a delete changes nothing; every save, of either kind, returns 0 and
    allocates a node of its own, so the store holds as many nodes as saves
    were made, also when they name the same mark. *)
Theorem miss_ctx_lookup_never_finds (ops : list miss_op) (mark : Z)
  (flow : option rte_flow) (a b c e hw_id in_port_ : Z)
  (reply is_port has_ct : bool) :
  let s := miss_run ops in
  netdev_dpdk_find_miss_ctx mark s = None /\
  netdev_dpdk_del_miss_ctx mark s = s /\
  fst (netdev_dpdk_save_ct_miss_ctx mark flow a b c e reply s) = 0 /\
  fst (netdev_dpdk_save_flow_miss_ctx mark hw_id is_port e in_port_ has_ct s)
  = 0 /\
  length (mark_to_ct_ctx s) = length (filter is_miss_save ops).
Proof.
  intros s. destruct (miss_steps_inv ops miss_ctx_init eq_refl) as [H1 H2].
  fold (miss_run ops) in H1, H2. fold s in H1, H2.
  assert (Hfind : netdev_dpdk_find_miss_ctx mark s = None).
  { unfold netdev_dpdk_find_miss_ctx. now rewrite H1. }
  split; [exact Hfind|]. split; [|split; [|split]].
  - unfold netdev_dpdk_del_miss_ctx. now rewrite Hfind.
  - now apply save_ct_allocates.
  - now apply save_flow_allocates.
  - exact H2.
Qed.

Lemma find_port_records_none (dp : odp_port_t) (w : world) :
  netdev_rte_port_search dp (port_map w) = None ->
  find (fun x => dp =? fst x) (port_records w) = None.
Proof.
  intros H. pose proof (search_port_records dp w) as E. rewrite H in E.
  destruct (find (fun x => dp =? fst x) (port_records w)); [discriminate E|].
  reflexivity.
Qed.

(** X19.  A flow put on a VXLAN port that arrives while no physical port is
    registered returns -1 and installs nothing: it makes no creation and
    registers no record and no reverse mapping.  What it still does is the
    modification step that comes first: the old record of the ufid on that
    port, if there is one, is removed and each of its handles destroyed. *)
Theorem vxlan_put_without_phy_ports (drv : driver)
  (rte_port : netdev_rte_port) (m : match_) (nl_actions : nl_actions_t)
  (ufid : ovs_u128) (info : offload_info) (w : world) :
  dpdk_phy_ports_amount w = 0 ->
  no_actions nl_actions = false ->
  let dp := rp_dp_port rte_port in
  let '(r, info', w') :=
    netdev_vport_vxlan_add_rte_flow_offload drv rte_port m nl_actions ufid
                                            info w in
  r = -1 /\ info' = info /\
  (exists calls,
      hw_log w' = hw_log w ++ calls /\
      map destroyed_flow calls = map Some (old_flows ufid dp w)) /\
  port_records w'
  = update_first (fun x => dp =? fst x)
      (fun x => (fst x,
                 remove_first (fun d => ovs_u128_equals ufid (hw_ufid d))
                              (snd x)))
      (port_records w) /\
  ufid_to_portid_map w' = ufid_to_portid_map w /\
  dpdk_phy_ports_amount w' = 0.
Proof.
  intros Hamt Hno dp.
  unfold netdev_vport_vxlan_add_rte_flow_offload. rewrite Hno.
  unfold bind at 1. unfold get_world at 1. cbv beta iota.
  unfold old_flows, hw_offload_of. fold dp.
  destruct (netdev_rte_port_search dp (port_map w)) as [p|] eqn:Hport.
  - pose proof (find_port_records _ _ _ Hport) as Hrec0.
    destruct (ufid_hw_offload_find ufid (rp_ufid_to_rte p)) as [old|] eqn:Hold.
    + unfold bind at 1. unfold bind at 1.
      rewrite port_modify_eq. cbv beta iota. rewrite free_eq.
      change (0 <? 0) with false. cbv beta iota.
      rewrite Hamt. cbn [Z.eqb]. unfold ret.
      split; [reflexivity|]. split; [reflexivity|].
      cbn [hw_log set_hw_log ufid_to_portid_map dpdk_phy_ports_amount].
      split; [|split; [|split; [reflexivity | exact Hamt]]].
      * eexists. split; [reflexivity|]. apply destroyed_flow_destroy_events.
      * match goal with
        | |- port_records (set_hw_log ?x ?l) = _ =>
            change (port_records (set_hw_log x l)) with (port_records x)
        end.
        apply port_records_modify; [reflexivity|].
        intros q. cbn [rp_ufid_to_rte set_rp_ufid_to_rte].
        apply snd_ufid_hw_offload_remove.
    + unfold bind at 1. unfold ret at 1. cbv beta iota.
      change (0 <? 0) with false. cbv beta iota.
      rewrite Hamt. cbn [Z.eqb]. unfold ret.
      split; [reflexivity|]. split; [reflexivity|].
      split; [|split; [|split; [reflexivity | exact Hamt]]].
      * exists []. now rewrite app_nil_r.
      * rewrite <- (update_first_id (fun x => dp =? fst x) (port_records w))
          at 1.
        eapply update_first_ext_first; [exact Hrec0|].
        cbn [fst snd]. f_equal. symmetry. now apply remove_first_none.
  - unfold bind at 1. unfold ret at 1. cbv beta iota.
    change (0 <? 0) with false. cbv beta iota.
    rewrite Hamt. cbn [Z.eqb]. unfold ret.
    split; [reflexivity|]. split; [reflexivity|].
    split; [|split; [|split; [reflexivity | exact Hamt]]].
    + exists []. now rewrite app_nil_r.
    + symmetry. apply update_first_none.
      now apply find_port_records_none.
Qed.

Lemma vxlan_put_without_phy_ports_witness :
  let w := mk_world [vxlan_port 2 102] 0 [] 1 [] in
  let '(r, _, w') :=
    netdev_vport_vxlan_add_rte_flow_offload accepting_driver
      (vxlan_port 2 102) vxlan_match (Some [OVS_ACTION_ATTR_OUTPUT 1])
      the_ufid the_info w in
  r = -1 /\ hw_log w' = [] /\ ufid_to_portid_map w' = [].
Proof.
  pose proof (vxlan_put_without_phy_ports accepting_driver (vxlan_port 2 102)
                vxlan_match (Some [OVS_ACTION_ATTR_OUTPUT 1]) the_ufid
                the_info (mk_world [vxlan_port 2 102] 0 [] 1 [])
                ltac:(reflexivity) ltac:(reflexivity)) as H.
  cbv zeta in *.
  destruct (netdev_vport_vxlan_add_rte_flow_offload _ _ _ _ _ _ _)
    as [[r info'] w'].
  destruct H as (Hr & _ & (calls & Hlog & Hcalls) & _ & Hmap & _).
  split; [exact Hr|]. split; [|exact Hmap].
  rewrite Hlog. destruct calls; [reflexivity | discriminate Hcalls].
Defined.

(** ** Port registration and removal *)

Lemma clean_all_loop_eq drv records :
  forall w,
    netdev_rte_port_clean_all_loop drv records w
    = (tt, set_hw_log w
             (hw_log w ++
              destroy_events drv (hw_log w)
                             (flat_map recorded_flows records))).
Proof.
  induction records as [|d rest IH]; intros w; simpl.
  - unfold ret, set_hw_log. rewrite app_nil_r. now destruct w.
  - unfold bind. rewrite free_eq. rewrite IH.
    rewrite destroy_events_app.
    unfold set_hw_log. cbn [hw_log port_map dpdk_phy_ports_amount
                            ufid_to_portid_map hw_next_flow].
    rewrite <- app_assoc. reflexivity.
Qed.

Lemma del_default_rules_loop_eq drv p tables :
  forall w,
    del_default_rules_loop drv p tables w
    = (tt, set_hw_log w
             (hw_log w ++
              destroy_events drv (hw_log w)
                (flat_map (fun i =>
                             match nth i (rp_default_rte_flow p) None with
                             | Some fl => [(rp_netdev p, fl)]
                             | None => []
                             end) tables))).
Proof.
  induction tables as [|i rest IH]; intros w; simpl.
  - unfold ret, set_hw_log. rewrite app_nil_r. now destruct w.
  - destruct (nth i (rp_default_rte_flow p) None) as [fl|]; simpl;
      [|apply IH].
    unfold bind. rewrite destroy_eq. rewrite IH.
    unfold set_hw_log, world_logged. simpl. rewrite <- app_assoc. reflexivity.
Qed.

(** The state a port removal leaves, and its results. *)
Lemma port_del_eq drv dp w p :
  netdev_rte_port_search dp (port_map w) = Some p ->
  netdev_rte_offloads_port_del drv dp w
  = let released :=
      flat_map recorded_flows (rp_ufid_to_rte p)
      ++ match rp_rte_port_type p with
         | RTE_PORT_TYPE_DPDK => default_flows p
         | _ => []
         end in
    ((0, match rp_rte_port_type p with
         | RTE_PORT_TYPE_VXLAN =>
             [Call_mark_remove dp (rp_exception_mark p)]
         | _ => []
         end),
     mk_world (remove_first (fun d => dp =? rp_dp_port d) (port_map w))
              match rp_rte_port_type p with
              | RTE_PORT_TYPE_DPDK =>
                  (dpdk_phy_ports_amount w - 1) mod 4294967296
              | _ => dpdk_phy_ports_amount w
              end
              (ufid_to_portid_map w) (hw_next_flow w)
              (hw_log w ++ destroy_events drv (hw_log w) released)).
Proof.
  intros Hp.
  assert (Hdp : rp_dp_port p = dp).
  { apply find_some in Hp. destruct Hp as [_ Hp].
    apply Z.eqb_eq in Hp. now symmetry. }
  unfold netdev_rte_offloads_port_del.
  unfold bind at 1. unfold get_world at 1. cbv beta iota. rewrite Hp.
  unfold netdev_rte_port_clean_all. unfold bind at 1.
  rewrite clean_all_loop_eq. cbv beta iota.
  unfold bind at 1. unfold modify at 1. cbv beta iota. rewrite Hdp.
  destruct (rp_rte_port_type p).
  - unfold ret. cbv zeta. rewrite app_nil_r. reflexivity.
  - unfold netdev_rte_port_del_default_rules. unfold bind at 1.
    rewrite del_default_rules_loop_eq. cbv beta iota.
    unfold bind, modify, ret. cbv beta iota zeta.
    rewrite destroy_events_app.
    unfold set_dpdk_phy_ports_amount, set_hw_log, set_port_map, default_flows.
    cbn [hw_log port_map dpdk_phy_ports_amount ufid_to_portid_map
         hw_next_flow].
    rewrite <- app_assoc. reflexivity.
  - unfold ret. cbv zeta. rewrite app_nil_r. reflexivity.
Qed.

(** X20.  Removing a port that is not registered returns ENODEV and changes
    nothing.  Removing a registered port returns 0 and takes the port out
    of the registry; the driver receives one destroy call for every handle
    in the identity records of the port, and after them, for a physical
    port, one for each of its default flows, and no other call.  A physical
    port lowers the count of physical ports by one (modulo 2^32); a VXLAN
    port has its mark node removed.  The reverse map is left as it is. *)
Theorem port_del_releases_port (drv : driver) (dp_port : odp_port_t)
  (w : world) :
  let '(r, calls, w') := netdev_rte_offloads_port_del drv dp_port w in
  match netdev_rte_port_search dp_port (port_map w) with
  | None => r = ENODEV /\ calls = [] /\ w' = w
  | Some p =>
      r = 0 /\
      (exists destroys,
          hw_log w' = hw_log w ++ destroys /\
          map destroyed_flow destroys
          = map Some (flat_map recorded_flows (rp_ufid_to_rte p)
                      ++ match rp_rte_port_type p with
                         | RTE_PORT_TYPE_DPDK => default_flows p
                         | _ => []
                         end)) /\
      port_map w'
      = remove_first (fun d => dp_port =? rp_dp_port d) (port_map w) /\
      dpdk_phy_ports_amount w'
      = match rp_rte_port_type p with
        | RTE_PORT_TYPE_DPDK => (dpdk_phy_ports_amount w - 1) mod 4294967296
        | _ => dpdk_phy_ports_amount w
        end /\
      calls
      = match rp_rte_port_type p with
        | RTE_PORT_TYPE_VXLAN =>
            [Call_mark_remove dp_port (rp_exception_mark p)]
        | _ => []
        end /\
      ufid_to_portid_map w' = ufid_to_portid_map w /\
      hw_next_flow w' = hw_next_flow w
  end.
Proof.
  destruct (netdev_rte_port_search dp_port (port_map w)) as [p|] eqn:Hp.
  - rewrite (port_del_eq drv dp_port w p Hp). cbv zeta.
    cbn [hw_log port_map dpdk_phy_ports_amount ufid_to_portid_map
         hw_next_flow].
    split; [reflexivity|]. split.
    + eexists. split; [reflexivity|]. apply destroyed_flow_destroy_events.
    + repeat split; reflexivity.
  - unfold netdev_rte_offloads_port_del, bind, get_world. rewrite Hp.
    unfold ret. repeat split; reflexivity.
Qed.

Lemma update_first_twice_on {A : Type} (p : A -> bool) (f g : A -> A)
  (l : list A) :
  (forall x, p x = true -> p (f x) = true) ->
  update_first p g (update_first p f l) = update_first p (fun x => g (f x)) l.
Proof.
  intros Hp. induction l as [|x t IH]; simpl; [reflexivity|].
  destruct (p x) eqn:E; simpl.
  - now rewrite (Hp x E).
  - now rewrite E, IH.
Qed.

(** The state a port registration leaves, and its results. *)
Lemma port_add_eq drv env nd dp w :
  port_type_of_name (netdev_get_type env nd) <> RTE_PORT_TYPE_UNKNOWN ->
  is_some (netdev_rte_port_search dp (port_map w)) || xzalloc_returns env w
  = true ->
  netdev_rte_offloads_port_add drv env nd dp w
  = ((0, match port_type_of_name (netdev_get_type env nd) with
         | RTE_PORT_TYPE_VXLAN =>
             [Call_mark_insert dp (VXLAN_EXCEPTION_MARK env mod 4294967296);
              Call_vxlan_init nd]
         | _ => []
         end),
     mk_world
       match netdev_rte_port_search dp (port_map w) with
       | Some _ =>
           update_first (fun d => dp =? rp_dp_port d)
                        (port_as_added drv env nd dp) (port_map w)
       | None => port_as_added drv env nd dp rte_port_zeroed :: port_map w
       end
       match port_type_of_name (netdev_get_type env nd) with
       | RTE_PORT_TYPE_DPDK => (dpdk_phy_ports_amount w + 1) mod 4294967296
       | _ => dpdk_phy_ports_amount w
       end
       (ufid_to_portid_map w) (hw_next_flow w) (hw_log w)).
Proof.
  intros Htype Hroom.
  unfold netdev_rte_offloads_port_add, port_as_added, port_type_of_name in *.
  destruct (String.eqb "dpdk" (netdev_get_type env nd)).
  - unfold netdev_rte_port_set. unfold bind at 1. unfold bind at 1.
    unfold get_world at 1. cbv beta iota.
    destruct (netdev_rte_port_search dp (port_map w)) as [p|] eqn:Hp.
    + unfold bind, port_modify, modify, ret. cbv beta iota.
      unfold set_dpdk_phy_ports_amount, set_port_map.
      cbn [hw_log port_map dpdk_phy_ports_amount ufid_to_portid_map
           hw_next_flow].
      rewrite update_first_twice_on; [reflexivity|].
      intros x _. cbn [rte_port_set_fields rp_dp_port]. apply Z.eqb_refl.
    + cbn [is_some orb] in Hroom. rewrite Hroom.
      unfold bind, port_modify, modify, ret. cbv beta iota.
      unfold set_dpdk_phy_ports_amount, set_port_map.
      cbn [hw_log port_map dpdk_phy_ports_amount ufid_to_portid_map
           hw_next_flow update_first rte_port_set_fields rp_dp_port].
      rewrite Z.eqb_refl. reflexivity.
  - destruct (String.eqb "vxlan" (netdev_get_type env nd));
      [|contradiction Htype; reflexivity].
    unfold netdev_rte_port_set. unfold bind at 1. unfold bind at 1.
    unfold get_world at 1. cbv beta iota.
    destruct (netdev_rte_port_search dp (port_map w)) as [p|] eqn:Hp.
    + unfold bind, port_modify, modify, ret. cbv beta iota zeta.
      unfold set_port_map, netdev_rte_offloads_vxlan_init.
      cbn [hw_log port_map dpdk_phy_ports_amount ufid_to_portid_map
           hw_next_flow].
      rewrite update_first_twice_on; [reflexivity|].
      intros x _. cbn [rte_port_set_fields rp_dp_port]. apply Z.eqb_refl.
    + cbn [is_some orb] in Hroom. rewrite Hroom.
      unfold bind, port_modify, modify, ret. cbv beta iota zeta.
      unfold set_port_map, netdev_rte_offloads_vxlan_init.
      cbn [hw_log port_map dpdk_phy_ports_amount ufid_to_portid_map
           hw_next_flow update_first rte_port_set_fields rp_dp_port].
      rewrite Z.eqb_refl. reflexivity.
Qed.

Lemma search_update_first_other (dp dp' : odp_port_t)
  (f : netdev_rte_port -> netdev_rte_port) (l : list netdev_rte_port) :
  dp' <> dp -> (forall p, rp_dp_port p = dp -> rp_dp_port (f p) = dp) ->
  netdev_rte_port_search dp'
    (update_first (fun d => dp =? rp_dp_port d) f l)
  = netdev_rte_port_search dp' l.
Proof.
  intros Hne Hf. unfold netdev_rte_port_search.
  induction l as [|x t IH]; simpl; [reflexivity|].
  destruct (dp =? rp_dp_port x) eqn:E; simpl.
  - apply Z.eqb_eq in E. symmetry in E. rewrite (Hf x E), E.
    destruct (dp' =? dp) eqn:E'; [|reflexivity].
    apply Z.eqb_eq in E'. contradiction.
  - now rewrite IH.
Qed.

Lemma search_update_first_same (dp : odp_port_t)
  (f : netdev_rte_port -> netdev_rte_port) (l : list netdev_rte_port) :
  (forall p, rp_dp_port p = dp -> rp_dp_port (f p) = dp) ->
  netdev_rte_port_search dp
    (update_first (fun d => dp =? rp_dp_port d) f l)
  = option_map f (netdev_rte_port_search dp l).
Proof.
  intros Hf. unfold netdev_rte_port_search.
  induction l as [|x t IH]; simpl; [reflexivity|].
  destruct (dp =? rp_dp_port x) eqn:E; simpl.
  - apply Z.eqb_eq in E. symmetry in E. rewrite (Hf x E), Z.eqb_refl.
    reflexivity.
  - now rewrite E, IH.
Qed.

Lemma port_as_added_dp_port drv env nd dp p :
  port_type_of_name (netdev_get_type env nd) <> RTE_PORT_TYPE_UNKNOWN ->
  rp_dp_port (port_as_added drv env nd dp p) = dp.
Proof.
  unfold port_as_added.
  destruct (port_type_of_name _); intros H;
    [contradiction | reflexivity | reflexivity].
Qed.

(** What a registration sets in the port and what it keeps. *)
Lemma port_as_added_fields drv env nd dp q :
  port_type_of_name (netdev_get_type env nd) <> RTE_PORT_TYPE_UNKNOWN ->
  let type := port_type_of_name (netdev_get_type env nd) in
  let p := port_as_added drv env nd dp q in
  rp_dp_port p = dp /\ rp_netdev p = nd /\
  rp_rte_port_type p = type /\
  rp_ufid_to_rte p = rp_ufid_to_rte q /\
  rp_default_rte_flow p = rp_default_rte_flow q /\
  match type with
  | RTE_PORT_TYPE_DPDK =>
      rp_dpdk_num_queues p = to_uint16 (drv_n_rxq drv nd) /\
      rp_dpdk_port_id p = to_uint16 (netdev_dpdk_get_port_id env nd) /\
      rp_table_id p = rp_table_id q /\
      rp_exception_mark p = rp_exception_mark q
  | _ =>
      rp_table_id p = VXLAN_TABLE_ID /\
      rp_exception_mark p = (MIN_RESERVED_MARK env + 0) mod 4294967296 /\
      rp_dpdk_num_queues p = rp_dpdk_num_queues q /\
      rp_dpdk_port_id p = rp_dpdk_port_id q
  end.
Proof.
  intros Htype type p. subst p type. revert Htype. unfold port_as_added.
  destruct (port_type_of_name (netdev_get_type env nd)); intros Htype;
    [contradiction | |]; repeat split.
Qed.

(** X21.  Registering a netdev of type dpdk or vxlan under a datapath
    number returns 0 when that number is registered already or memory is
    available.  The number then finds a port with the netdev and the type
    of the request; a port that was registered under the number keeps its
    identity records and its default flows, and a new one has none.  Every
    registration of a dpdk netdev, also of a number registered before,
    raises the count of physical ports by one (modulo 2^32).  The other
    ports, the reverse map and the driver are not touched. *)
Theorem port_add_registers (drv : driver) (env : netdev_provider)
  (netdev_ : netdev) (dp_port : odp_port_t) (w : world) :
  let type := port_type_of_name (netdev_get_type env netdev_) in
  type <> RTE_PORT_TYPE_UNKNOWN ->
  is_some (netdev_rte_port_search dp_port (port_map w))
  || xzalloc_returns env w = true ->
  let old := port_before_add dp_port w in
  let '(r, calls, w') :=
    netdev_rte_offloads_port_add drv env netdev_ dp_port w in
  r = 0 /\
  (exists p,
      netdev_rte_port_search dp_port (port_map w') = Some p /\
      rp_dp_port p = dp_port /\ rp_netdev p = netdev_ /\
      rp_rte_port_type p = type /\
      rp_ufid_to_rte p = rp_ufid_to_rte old /\
      rp_default_rte_flow p = rp_default_rte_flow old /\
      match type with
      | RTE_PORT_TYPE_DPDK =>
          rp_dpdk_num_queues p = to_uint16 (drv_n_rxq drv netdev_) /\
          rp_dpdk_port_id p
          = to_uint16 (netdev_dpdk_get_port_id env netdev_) /\
          rp_table_id p = rp_table_id old /\
          rp_exception_mark p = rp_exception_mark old
      | _ =>
          rp_table_id p = VXLAN_TABLE_ID /\
          rp_exception_mark p = (MIN_RESERVED_MARK env + 0) mod 4294967296 /\
          rp_dpdk_num_queues p = rp_dpdk_num_queues old /\
          rp_dpdk_port_id p = rp_dpdk_port_id old
      end) /\
  (forall dp', dp' <> dp_port ->
               netdev_rte_port_search dp' (port_map w')
               = netdev_rte_port_search dp' (port_map w)) /\
  length (port_map w')
  = (if is_some (netdev_rte_port_search dp_port (port_map w))
     then length (port_map w) else S (length (port_map w))) /\
  dpdk_phy_ports_amount w'
  = match type with
    | RTE_PORT_TYPE_DPDK => (dpdk_phy_ports_amount w + 1) mod 4294967296
    | _ => dpdk_phy_ports_amount w
    end /\
  calls
  = match type with
    | RTE_PORT_TYPE_DPDK => []
    | _ => [Call_mark_insert dp_port
                             ((MIN_RESERVED_MARK env + 0) mod 4294967296);
            Call_vxlan_init netdev_]
    end /\
  ufid_to_portid_map w' = ufid_to_portid_map w /\
  hw_log w' = hw_log w /\ hw_next_flow w' = hw_next_flow w.
Proof.
  intros type Htype Hroom old.
  rewrite (port_add_eq drv env netdev_ dp_port w Htype Hroom).
  fold type.
  cbn [hw_log port_map dpdk_phy_ports_amount ufid_to_portid_map
       hw_next_flow].
  assert (Hdp : forall p,
             rp_dp_port (port_as_added drv env netdev_ dp_port p) = dp_port)
    by (intros p; now apply port_as_added_dp_port).
  pose proof (port_as_added_fields drv env netdev_ dp_port) as Hfields.
  unfold old, port_before_add.
  destruct (netdev_rte_port_search dp_port (port_map w)) as [p0|] eqn:Hp.
  - split; [reflexivity|]. split; [|split; [|split]].
    + exists (port_as_added drv env netdev_ dp_port p0). split.
      * rewrite search_update_first_same by (intros; apply Hdp).
        now rewrite Hp.
      * apply Hfields. exact Htype.
    + intros dp' Hne. apply search_update_first_other; [exact Hne|].
      intros; apply Hdp.
    + cbn [is_some]. apply length_update_first.
    + destruct type; [contradiction | |]; repeat split.
  - split; [reflexivity|]. split; [|split; [|split]].
    + exists (port_as_added drv env netdev_ dp_port rte_port_zeroed). split.
      * unfold netdev_rte_port_search. cbn [find]. rewrite Hdp, Z.eqb_refl.
        reflexivity.
      * apply Hfields. exact Htype.
    + intros dp' Hne. unfold netdev_rte_port_search. cbn [find].
      rewrite Hdp. destruct (dp' =? dp_port) eqn:E; [|reflexivity].
      apply Z.eqb_eq in E. contradiction.
    + reflexivity.
    + destruct type; [contradiction | |]; repeat split.
Qed.

Lemma port_add_registers_witness :
  netdev_rte_port_search 1
    (port_map (snd (netdev_rte_offloads_port_add accepting_driver
                      example_provider 101 1 world_init)))
  = Some (mk_rte_port 1 0 101 RTE_PORT_TYPE_DPDK 0 1 0 []
                      (repeat None (Z.to_nat RTE_FLOW_MAX_TABLES))) /\
  dpdk_phy_ports_amount
    (snd (netdev_rte_offloads_port_add accepting_driver example_provider
            101 1 world_init)) = 1.
Proof.
  pose proof (port_add_registers accepting_driver example_provider 101 1
                world_init ltac:(vm_compute; discriminate)
                ltac:(reflexivity)) as H.
  cbv zeta in H.
  destruct (netdev_rte_offloads_port_add accepting_driver example_provider
              101 1 world_init) as [[r calls] w'] eqn:E.
  vm_compute in E. inversion E; subst r calls w'. clear E.
  destruct H as (_ & _ & _ & _ & Hamount & _).
  split; [reflexivity | exact Hamount].
Defined.

(** ** The registered datapath numbers *)

Lemma same_dp_ports_refl (w : world) : same_dp_ports w w.
Proof. reflexivity. Qed.

Lemma same_dp_ports_trans (a b c : world) :
  same_dp_ports a b -> same_dp_ports b c -> same_dp_ports a c.
Proof. unfold same_dp_ports. congruence. Qed.

Lemma same_dp_ports_create drv nd attr items acts :
  relates same_dp_ports (netdev_dpdk_rte_flow_create drv nd attr items acts).
Proof.
  intros w. unfold netdev_dpdk_rte_flow_create, bind, get_world.
  destruct (drv_create drv (hw_log w) nd attr items acts); reflexivity.
Qed.

Lemma same_dp_ports_destroy drv nd fl :
  relates same_dp_ports (netdev_dpdk_rte_flow_destroy drv nd fl).
Proof. intros w. reflexivity. Qed.

Lemma same_dp_ports_modify dp f :
  (forall p, rp_dp_port (f p) = rp_dp_port p) ->
  relates same_dp_ports (port_modify dp f).
Proof. intros H w. now apply port_modify_dp_ports. Qed.

Lemma same_dp_ports_portid_add ufid dp :
  relates same_dp_ports (ufid_to_portid_add ufid dp).
Proof.
  intros w. unfold same_dp_ports.
  now rewrite (proj1 (portid_add_frame ufid dp w)).
Qed.

Lemma same_dp_ports_portid_remove ufid :
  relates same_dp_ports (ufid_to_portid_remove ufid).
Proof.
  intros w. unfold ufid_to_portid_remove.
  destruct (ufid_to_portid_get ufid (ufid_to_portid_map w)); reflexivity.
Qed.

Ltac same_dp_ports_step :=
  first
    [ apply relates_hw_offload_free;
      [ exact same_dp_ports_refl | exact same_dp_ports_trans
      | apply same_dp_ports_destroy ]
    | apply relates_add_flow;
      [ exact same_dp_ports_refl | exact same_dp_ports_trans
      | apply same_dp_ports_create
      | intros; apply same_dp_ports_modify; reflexivity ]
    | apply relates_mark_rss;
      [ exact same_dp_ports_refl | exact same_dp_ports_trans
      | apply same_dp_ports_create ]
    | apply same_dp_ports_create
    | apply same_dp_ports_destroy
    | apply same_dp_ports_portid_add
    | apply same_dp_ports_portid_remove
    | apply same_dp_ports_modify; reflexivity
    | relates_step same_dp_ports_refl same_dp_ports_trans ].

Lemma same_dp_ports_add_rte_flow_at drv dp ufid fl nd :
  relates same_dp_ports (ufid_hw_offload_add_rte_flow_at drv dp ufid fl nd).
Proof.
  unfold ufid_hw_offload_add_rte_flow_at, ufid_hw_offload_add_rte_flow,
    hw_offload_modify.
  repeat same_dp_ports_step.
Qed.

Lemma same_dp_ports_flow_put drv nd m actions ufid info :
  relates same_dp_ports
          (netdev_rte_offloads_flow_put drv nd m actions ufid info).
Proof.
  unfold netdev_rte_offloads_flow_put.
  repeat first [apply same_dp_ports_add_rte_flow_at | same_dp_ports_step].
Qed.

Lemma same_dp_ports_flow_del drv ufid :
  relates same_dp_ports (netdev_offloads_flow_del drv ufid).
Proof.
  unfold netdev_offloads_flow_del.
  repeat same_dp_ports_step.
Qed.

Lemma same_dp_ports_vxlan_offload_uplink drv rte_port ufid items bitmap
  data st :
  relates same_dp_ports
          (vxlan_offload_uplink drv rte_port ufid items bitmap data st).
Proof.
  unfold vxlan_offload_uplink.
  repeat first [apply same_dp_ports_add_rte_flow_at | same_dp_ports_step].
Qed.

Lemma same_dp_ports_vxlan_fan_out drv rte_port ufid items bitmap ports :
  forall st,
    relates same_dp_ports
            (vxlan_fan_out drv rte_port ufid items bitmap ports st).
Proof.
  induction ports as [|data rest IH]; intros st; simpl.
  - same_dp_ports_step.
  - repeat first [ apply same_dp_ports_vxlan_offload_uplink | apply IH
                 | same_dp_ports_step ].
Qed.

Lemma same_dp_ports_vxlan_put drv rte_port m nl_actions ufid info :
  relates same_dp_ports
          (netdev_vport_vxlan_add_rte_flow_offload drv rte_port m nl_actions
                                                   ufid info).
Proof.
  unfold netdev_vport_vxlan_add_rte_flow_offload.
  repeat first [apply same_dp_ports_vxlan_fan_out | same_dp_ports_step].
Qed.

Lemma same_dp_ports_vport_flow_put drv m actions ufid info :
  relates same_dp_ports (netdev_rte_vport_flow_put drv m actions ufid info).
Proof.
  unfold netdev_rte_vport_flow_put.
  repeat first [apply same_dp_ports_vxlan_put | same_dp_ports_step].
Qed.

Lemma map_update_first_on {A B : Type} (g : A -> B) (p : A -> bool)
  (f : A -> A) (l : list A) :
  (forall x, p x = true -> g (f x) = g x) ->
  map g (update_first p f l) = map g l.
Proof.
  intros H. induction l as [|x t IH]; simpl; [reflexivity|].
  destruct (p x) eqn:E; simpl; [now rewrite H | now rewrite IH].
Qed.

Lemma search_none_not_in (dp : odp_port_t) (l : list netdev_rte_port) :
  netdev_rte_port_search dp l = None -> ~ In dp (map rp_dp_port l).
Proof.
  unfold netdev_rte_port_search. intros H Hin.
  apply in_map_iff in Hin as (p & Hp & Hin).
  apply (find_none _ _ H) in Hin. rewrite Hp, Z.eqb_refl in Hin.
  discriminate.
Qed.

Lemma not_in_search_none (dp : odp_port_t) (l : list netdev_rte_port) :
  ~ In dp (map rp_dp_port l) -> netdev_rte_port_search dp l = None.
Proof.
  intros H. destruct (netdev_rte_port_search dp l) as [p|] eqn:E;
    [|reflexivity].
  exfalso. apply H. unfold netdev_rte_port_search in E.
  apply find_some in E as [Hin Hp]. apply Z.eqb_eq in Hp. rewrite Hp.
  now apply in_map.
Qed.

(** In a registry without a repeated number, every port is the one its
    number finds, and removing a number leaves no port under it. *)
Lemma search_finds_member (l : list netdev_rte_port) (p : netdev_rte_port) :
  NoDup (map rp_dp_port l) -> In p l ->
  netdev_rte_port_search (rp_dp_port p) l = Some p.
Proof.
  unfold netdev_rte_port_search.
  induction l as [|x t IH]; simpl; intros Hnd Hin; [contradiction|].
  inversion Hnd as [|? ? Hn Ht]; subst.
  destruct Hin as [->|Hin]; [now rewrite Z.eqb_refl|].
  destruct (rp_dp_port p =? rp_dp_port x) eqn:E; [|now apply IH].
  apply Z.eqb_eq in E. exfalso. apply Hn. rewrite <- E. now apply in_map.
Qed.

Lemma search_remove_first_NoDup (dp : odp_port_t)
  (l : list netdev_rte_port) :
  NoDup (map rp_dp_port l) ->
  netdev_rte_port_search dp
    (remove_first (fun d => dp =? rp_dp_port d) l) = None.
Proof.
  unfold netdev_rte_port_search.
  induction l as [|x t IH]; simpl; intros Hnd; [reflexivity|].
  inversion Hnd as [|? ? Hn Ht]; subst.
  destruct (dp =? rp_dp_port x) eqn:E.
  - apply Z.eqb_eq in E. subst dp. now apply not_in_search_none.
  - simpl. rewrite E. now apply IH.
Qed.

(** A registration leaves the registered numbers as they are, or puts a
    number that was not registered in front of them. *)
Lemma port_add_dp_ports drv env nd dp w :
  let l' :=
    map rp_dp_port
        (port_map (snd (netdev_rte_offloads_port_add drv env nd dp w))) in
  l' = map rp_dp_port (port_map w) \/
  (netdev_rte_port_search dp (port_map w) = None /\
   l' = dp :: map rp_dp_port (port_map w)).
Proof.
  assert (Hset : forall t,
             map rp_dp_port
                 (update_first (fun d => dp =? rp_dp_port d)
                               (rte_port_set_fields nd dp t) (port_map w))
             = map rp_dp_port (port_map w)).
  { intros t. apply map_update_first_on. intros x E.
    apply Z.eqb_eq in E. now rewrite <- E. }
  cbv zeta.
  unfold netdev_rte_offloads_port_add, netdev_rte_port_set, bind, get_world.
  cbv beta iota.
  destruct (String.eqb "dpdk" (netdev_get_type env nd));
    [|destruct (String.eqb "vxlan" (netdev_get_type env nd));
      [|left; reflexivity]];
    (destruct (netdev_rte_port_search dp (port_map w)) as [p|] eqn:Hp;
     [|destruct (xzalloc_returns env w); [|left; reflexivity]]);
    unfold port_modify, modify, ret; cbv beta iota zeta;
    cbn [snd port_map set_dpdk_phy_ports_amount set_port_map].
  - left. rewrite map_update_first_same by reflexivity. apply Hset.
  - right. split; [reflexivity|].
    cbn [update_first rte_port_set_fields rp_dp_port].
    rewrite Z.eqb_refl. reflexivity.
  - left. rewrite map_update_first_same by reflexivity. apply Hset.
  - right. split; [reflexivity|].
    cbn [update_first rte_port_set_fields rp_dp_port].
    rewrite Z.eqb_refl. reflexivity.
Qed.

Lemma port_del_port_map drv dp w :
  port_map (snd (netdev_rte_offloads_port_del drv dp w))
  = remove_first (fun d => dp =? rp_dp_port d) (port_map w).
Proof.
  destruct (netdev_rte_port_search dp (port_map w)) as [p|] eqn:Hp.
  - rewrite (port_del_eq drv dp w p Hp). reflexivity.
  - unfold netdev_rte_offloads_port_del, bind, get_world. rewrite Hp.
    cbn [snd ret]. symmetry. now apply remove_first_none.
Qed.

Lemma offload_step_NoDup drv env w op :
  NoDup (map rp_dp_port (port_map w)) ->
  NoDup (map rp_dp_port (port_map (offload_step drv env w op))).
Proof.
  intros H. destruct op; cbn [offload_step].
  - destruct (port_add_dp_ports drv env netdev_ dp_port w) as [E|[Hn E]];
      cbv zeta in E; rewrite E; [exact H|].
    constructor; [now apply search_none_not_in | exact H].
  - rewrite port_del_port_map. now apply NoDup_map_remove_first.
  - now rewrite (same_dp_ports_flow_put drv netdev_ m actions ufid info w).
  - unfold netdev_rte_offloads_flow_del.
    now rewrite (same_dp_ports_flow_del drv ufid w).
  - now rewrite (same_dp_ports_vport_flow_put drv m actions ufid info w).
  - unfold netdev_rte_vport_flow_del.
    now rewrite (same_dp_ports_flow_del drv ufid w).
Qed.

Lemma offload_steps_NoDup drv env ops :
  forall w,
    NoDup (map rp_dp_port (port_map w)) ->
    NoDup (map rp_dp_port (port_map (fold_left (offload_step drv env) ops w))).
Proof.
  induction ops as [|op rest IH]; intros w H; simpl; [exact H|].
  apply IH. now apply offload_step_NoDup.
Qed.

Lemma offload_run_NoDup drv env ops :
  NoDup (map rp_dp_port (port_map (offload_run drv env ops))).
Proof. apply offload_steps_NoDup. constructor. Qed.

(** X22.  Whatever ports and flows were added and removed, every registered
    port is the one its datapath number finds: the port registry never
    holds a second port under a number, and a port found under a number
    carries that number. *)
Theorem every_port_found_by_its_number (drv : driver)
  (env : netdev_provider) (ops : list offload_op) :
  let w := offload_run drv env ops in
  NoDup (map rp_dp_port (port_map w)) /\
  forall p dp_port,
    netdev_rte_port_search dp_port (port_map w) = Some p
    <-> In p (port_map w) /\ rp_dp_port p = dp_port.
Proof.
  intros w. pose proof (offload_run_NoDup drv env ops) as Hnd. fold w in Hnd.
  split; [exact Hnd|]. intros p dp. split.
  - intros H. split; [|now apply search_key in H].
    unfold netdev_rte_port_search in H. now apply find_some in H.
  - intros [Hin <-]. now apply search_finds_member.
Qed.

(** X23.  A netdev whose type is neither dpdk nor vxlan is not registered,
    and the request still returns 0; a dpdk or vxlan netdev under a number
    that is not registered yet returns ENOMEM when no memory is available.
    In both cases nothing changes and no call is made. *)
Theorem port_add_registers_nothing (drv : driver) (env : netdev_provider)
  (netdev_ : netdev) (dp_port : odp_port_t) (w : world) :
  let type := port_type_of_name (netdev_get_type env netdev_) in
  type = RTE_PORT_TYPE_UNKNOWN \/
  (netdev_rte_port_search dp_port (port_map w) = None /\
   xzalloc_returns env w = false) ->
  netdev_rte_offloads_port_add drv env netdev_ dp_port w
  = ((if rte_port_type_eqb type RTE_PORT_TYPE_UNKNOWN then 0 else ENOMEM,
      []), w).
Proof.
  intros type. subst type.
  unfold port_type_of_name, netdev_rte_offloads_port_add,
    netdev_rte_port_set, bind, get_world.
  cbv beta iota.
  destruct (String.eqb "dpdk" (netdev_get_type env netdev_));
    [|destruct (String.eqb "vxlan" (netdev_get_type env netdev_))];
    intros [H|[Hp Hx]]; try discriminate H; try reflexivity;
    rewrite Hp, Hx; reflexivity.
Qed.

Lemma port_add_registers_nothing_witness :
  netdev_rte_offloads_port_add accepting_driver example_provider 104 4
                               world_init
  = ((0, []), world_init) /\
  netdev_rte_offloads_port_add accepting_driver exhausted_provider 101 1
                               world_init
  = ((ENOMEM, []), world_init).
Proof.
  split.
  - apply (port_add_registers_nothing accepting_driver example_provider 104 4
             world_init).
    left. reflexivity.
  - apply (port_add_registers_nothing accepting_driver exhausted_provider
             101 1 world_init).
    right. split; reflexivity.
Defined.

Lemma default_flows_zeroed (p : netdev_rte_port) :
  rp_default_rte_flow p = repeat None (Z.to_nat RTE_FLOW_MAX_TABLES) ->
  default_flows p = [].
Proof.
  intros H. unfold default_flows. rewrite H. reflexivity.
Qed.

(** X24.  Registering a netdev of type dpdk or vxlan under a number that is
    not registered, and removing that number again, gives 0 twice and
    leaves the state as it was before: the registry, the count of physical
    ports and the reverse map are restored and the driver is not called.
    For a VXLAN netdev the mark node is inserted and removed again, and the
    flow functions of its class stay set. *)
Theorem port_add_then_del_restores (drv : driver) (env : netdev_provider)
  (netdev_ : netdev) (dp_port : odp_port_t) (w : world) :
  let type := port_type_of_name (netdev_get_type env netdev_) in
  type <> RTE_PORT_TYPE_UNKNOWN ->
  netdev_rte_port_search dp_port (port_map w) = None ->
  xzalloc_returns env w = true ->
  0 <= dpdk_phy_ports_amount w < 4294967296 ->
  let '(r1, calls1, w1) :=
    netdev_rte_offloads_port_add drv env netdev_ dp_port w in
  let '(r2, calls2, w2) := netdev_rte_offloads_port_del drv dp_port w1 in
  r1 = 0 /\ r2 = 0 /\ w2 = w /\
  calls1 ++ calls2
  = match type with
    | RTE_PORT_TYPE_DPDK => []
    | _ =>
        let mark := (MIN_RESERVED_MARK env + 0) mod 4294967296 in
        [Call_mark_insert dp_port mark; Call_vxlan_init netdev_;
         Call_mark_remove dp_port mark]
    end.
Proof.
  intros type Htype Hp Hx Hamt.
  assert (Hroom : is_some (netdev_rte_port_search dp_port (port_map w))
                  || xzalloc_returns env w = true)
    by (rewrite Hx; apply orb_true_r).
  rewrite (port_add_eq drv env netdev_ dp_port w Htype Hroom).
  fold type. rewrite Hp.
  set (p := port_as_added drv env netdev_ dp_port rte_port_zeroed).
  pose proof (port_as_added_fields drv env netdev_ dp_port rte_port_zeroed
                Htype) as Hf.
  cbv zeta in Hf. fold type in Hf. fold p in Hf.
  destruct Hf as (Hdp & _ & Hty & Hrec & Hdef & Hrest).
  cbv beta iota zeta.
  rewrite (port_del_eq drv dp_port _ p).
  2:{ unfold netdev_rte_port_search. cbn [port_map find].
      rewrite Hdp, Z.eqb_refl. reflexivity. }
  cbv zeta.
  cbn [hw_log port_map dpdk_phy_ports_amount ufid_to_portid_map
       hw_next_flow remove_first].
  rewrite Hdp, Z.eqb_refl, Hty, Hrec.
  rewrite (default_flows_zeroed p) by exact Hdef.
  cbn [rp_ufid_to_rte rte_port_zeroed flat_map app destroy_events].
  split; [reflexivity|]. split; [reflexivity|].
  clearbody type p.
  destruct type; [contradiction | |]; cbn [destroy_events];
    rewrite app_nil_r.
  - split; [|reflexivity].
    destruct w as [pm a um nf lg]. cbn in *. f_equal.
    rewrite Zminus_mod_idemp_l.
    replace (a + 1 - 1) with a by lia. now apply Z.mod_small.
  - split; [now destruct w|].
    destruct Hrest as (_ & Hm & _). rewrite Hm. reflexivity.
Qed.

Lemma port_add_then_del_restores_witness :
  snd (netdev_rte_offloads_port_del accepting_driver 2
         (snd (netdev_rte_offloads_port_add accepting_driver
                 example_provider 102 2 world_init)))
  = world_init.
Proof.
  pose proof (port_add_then_del_restores accepting_driver example_provider
                102 2 world_init ltac:(vm_compute; discriminate)
                ltac:(reflexivity) ltac:(reflexivity)
                ltac:(simpl; lia)) as H.
  cbv zeta in H.
  destruct (netdev_rte_offloads_port_add accepting_driver example_provider
              102 2 world_init) as [[r1 calls1] w1].
  cbn [snd].
  destruct (netdev_rte_offloads_port_del accepting_driver 2 w1)
    as [[r2 calls2] w2].
  destruct H as (_ & _ & H & _). exact H.
Defined.

Lemma port_del_portid_map drv dp w :
  ufid_to_portid_map (snd (netdev_rte_offloads_port_del drv dp w))
  = ufid_to_portid_map w.
Proof.
  destruct (netdev_rte_port_search dp (port_map w)) as [p|] eqn:Hp.
  - rewrite (port_del_eq drv dp w p Hp). reflexivity.
  - unfold netdev_rte_offloads_port_del, bind, get_world. rewrite Hp.
    reflexivity.
Qed.

(** X25.  Removing a port does not clean the reverse map.  Whatever ports
    and flows were added and removed before, once the port a ufid is
    mapped to is removed, that number finds no port, the ufid is still
    mapped to it, and a flow delete for the ufid returns ENODEV and changes
    nothing. *)
Theorem flow_del_after_port_del (drv : driver) (env : netdev_provider)
  (ops : list offload_op) (ufid : ovs_u128) :
  let w := offload_run drv env ops in
  let dp_port := ufid_to_portid_search ufid (ufid_to_portid_map w) in
  dp_port <> INVALID_ODP_PORT ->
  let w' := snd (netdev_rte_offloads_port_del drv dp_port w) in
  netdev_rte_port_search dp_port (port_map w') = None /\
  ufid_to_portid_search ufid (ufid_to_portid_map w') = dp_port /\
  netdev_offloads_flow_del drv ufid w' = (ENODEV, w').
Proof.
  intros w dp Hdp w'.
  assert (Hmap : ufid_to_portid_map w' = ufid_to_portid_map w)
    by apply port_del_portid_map.
  assert (Hnone : netdev_rte_port_search dp (port_map w') = None).
  { unfold w'. rewrite port_del_port_map.
    apply search_remove_first_NoDup. apply offload_run_NoDup. }
  split; [exact Hnone|]. split; [now rewrite Hmap|].
  unfold netdev_offloads_flow_del, bind, get_world. cbv beta iota zeta.
  rewrite Hmap. fold dp.
  destruct (dp =? INVALID_ODP_PORT) eqn:E;
    [apply Z.eqb_eq in E; contradiction|].
  rewrite Hnone. reflexivity.
Qed.

Lemma flow_del_after_port_del_witness :
  let w := offload_run accepting_driver example_provider
             [Op_port_add 101 1;
              Op_flow_put 101 port1_match (Some [OVS_ACTION_ATTR_OUTPUT 1])
                          the_ufid the_info] in
  let w' := snd (netdev_rte_offloads_port_del accepting_driver 1 w) in
  ufid_to_portid_search the_ufid (ufid_to_portid_map w) = 1 /\
  netdev_offloads_flow_del accepting_driver the_ufid w' = (ENODEV, w').
Proof.
  split; [reflexivity|].
  apply (flow_del_after_port_del accepting_driver example_provider
           [Op_port_add 101 1;
            Op_flow_put 101 port1_match (Some [OVS_ACTION_ATTR_OUTPUT 1])
                        the_ufid the_info] the_ufid).
  vm_compute. discriminate.
Defined.
